(** * Form definitions of the trip-management application (viajes/forms.py)

    A shallow embedding of the five Django forms of [viajes/forms.py]
    (RegistroForm, EditarUsuarioForm, GuiaForm, PilotoForm, ViajeForm) and of
    the parts of Python and Django they call: [str.capitalize], [str.lower],
    [sorted], dictionary access, [ChoiceField.clean].

    Conventions.
    - A Python [str] is a list of Unicode code points ([pystr]); literals are
      written [py "..."], which decodes the UTF-8 bytes of the Rocq literal.
    - A Python [dict] keyed by identifiers is a [gmap string _]; [d[k]] on a
      missing key raises [KeyError], [d.get(k, v)] does not.
    - Code that can raise returns a [result]; exceptions propagate through
      [bind], as they do through a Python call stack with no [try]. *)

From Stdlib Require Import NArith ZArith List Ascii String Sorting.Sorted Permutation Lia.
From stdpp Require Import base option list gmap strings sorting.

Local Open Scope N_scope.

(** ** Python values *)

Module Py.

(** A [str]: its code points, in order. *)
Definition pystr := list N.

(** The code points of a UTF-8 encoded literal. Bytes that do not start a
    well-formed sequence are kept as they are; the literals of this file are
    all well formed. *)
Fixpoint py (s : string) : pystr :=
  match s with
  | EmptyString => []
  | String a r =>
      let b := N_of_ascii a in
      let cont (x : ascii) := N.land (N_of_ascii x) 0x3F in
      if b <? 0xC0 then b :: py r
      else if b <? 0xE0 then
        match r with
        | String a1 r1 => (N.shiftl (N.land b 0x1F) 6 + cont a1) :: py r1
        | _ => [b]
        end
      else if b <? 0xF0 then
        match r with
        | String a1 (String a2 r2) =>
            (N.shiftl (N.land b 0x0F) 12 + N.shiftl (cont a1) 6 + cont a2) :: py r2
        | _ => b :: py r
        end
      else
        match r with
        | String a1 (String a2 (String a3 r3)) =>
            (N.shiftl (N.land b 0x07) 18 + N.shiftl (cont a1) 12
             + N.shiftl (cont a2) 6 + cont a3) :: py r3
        | _ => b :: py r
        end
  end.

(** Exceptions the forms can let escape. [OSError] carries the errno of the
    failed system call ([FileNotFoundError], [NotADirectoryError] and
    [PermissionError] are its subclasses). *)
Inductive exn : Type :=
| KeyError (key : string)
| OSError (errno : Z).

(** The outcome of a call: a value, or an exception on its way up. *)
Inductive result (A : Type) : Type :=
| Ok (a : A)
| Raise (e : exn).
Arguments Ok {A} a.
Arguments Raise {A} e.

#[export] Instance result_ret : MRet result := @Ok.
#[export] Instance result_bind : MBind result := λ A B k r,
  match r with
  | Ok a => k a
  | Raise e => Raise e
  end.

(** [d[k]] *)
Definition getitem {V} (d : gmap string V) (k : string) : result V :=
  match d !! k with
  | Some v => Ok v
  | None => Raise (KeyError k)
  end.

(** [d.get(k, default)] *)
Definition get {V} (d : gmap string V) (k : string) (default : V) : V :=
  match d !! k with
  | Some v => v
  | None => default
  end.

(** Comparison of two [str] (CPython's [unicode_compare]): code point by
    code point, the shorter string first when one is a prefix of the other. *)
Fixpoint compare (s t : pystr) : comparison :=
  match s, t with
  | [], [] => Eq
  | [], _ :: _ => Lt
  | _ :: _, [] => Gt
  | a :: s', b :: t' =>
      match N.compare a b with
      | Eq => compare s' t'
      | c => c
      end
  end.

(** [s <= t] on [str]. *)
Definition le (s t : pystr) : Prop := compare s t ≠ Gt.

#[export] Instance le_dec : RelDecision le.
Proof. intros s t. unfold le. destruct (compare s t); [left|left|right]; congruence. Defined.

(** [sorted(l)] on a list of [str]: a stable sort, ascending. *)
Definition sorted (l : list pystr) : list pystr := merge_sort le l.

End Py.

Export Py.

(** ** Unicode case data

    The case mappings and case properties of the Unicode Character Database
    (UnicodeData.txt, SpecialCasing.txt, DerivedCoreProperties.txt), version
    14.0.0, which CPython 3.11 compiles into its [unicodeobject] tables. Every
    code point that a table does not list maps to itself. *)

Module Unicode.

(** Code points whose full lowercase mapping is not themselves, with the mapping. *)
Definition lower_table : list (N * list N) :=
  [ (0x41,[0x61]); (0x42,[0x62]); (0x43,[0x63]); (0x44,[0x64]); (0x45,[0x65]); (0x46,[0x66]);
    (0x47,[0x67]); (0x48,[0x68]); (0x49,[0x69]); (0x4A,[0x6A]); (0x4B,[0x6B]); (0x4C,[0x6C]);
    (0x4D,[0x6D]); (0x4E,[0x6E]); (0x4F,[0x6F]); (0x50,[0x70]); (0x51,[0x71]); (0x52,[0x72]);
    (0x53,[0x73]); (0x54,[0x74]); (0x55,[0x75]); (0x56,[0x76]); (0x57,[0x77]); (0x58,[0x78]);
    (0x59,[0x79]); (0x5A,[0x7A]); (0xC0,[0xE0]); (0xC1,[0xE1]); (0xC2,[0xE2]); (0xC3,[0xE3]);
    (0xC4,[0xE4]); (0xC5,[0xE5]); (0xC6,[0xE6]); (0xC7,[0xE7]); (0xC8,[0xE8]); (0xC9,[0xE9]);
    (0xCA,[0xEA]); (0xCB,[0xEB]); (0xCC,[0xEC]); (0xCD,[0xED]); (0xCE,[0xEE]); (0xCF,[0xEF]);
    (0xD0,[0xF0]); (0xD1,[0xF1]); (0xD2,[0xF2]); (0xD3,[0xF3]); (0xD4,[0xF4]); (0xD5,[0xF5]);
    (0xD6,[0xF6]); (0xD8,[0xF8]); (0xD9,[0xF9]); (0xDA,[0xFA]); (0xDB,[0xFB]); (0xDC,[0xFC]);
    (0xDD,[0xFD]); (0xDE,[0xFE]); (0x100,[0x101]); (0x102,[0x103]); (0x104,[0x105]);
    (0x106,[0x107]); (0x108,[0x109]); (0x10A,[0x10B]); (0x10C,[0x10D]); (0x10E,[0x10F]);
    (0x110,[0x111]); (0x112,[0x113]); (0x114,[0x115]); (0x116,[0x117]); (0x118,[0x119]);
    (0x11A,[0x11B]); (0x11C,[0x11D]); (0x11E,[0x11F]); (0x120,[0x121]); (0x122,[0x123]);
    (0x124,[0x125]); (0x126,[0x127]); (0x128,[0x129]); (0x12A,[0x12B]); (0x12C,[0x12D]);
    (0x12E,[0x12F]); (0x130,[0x69;0x307]); (0x132,[0x133]); (0x134,[0x135]); (0x136,[0x137]);
    (0x139,[0x13A]); (0x13B,[0x13C]); (0x13D,[0x13E]); (0x13F,[0x140]); (0x141,[0x142]);
    (0x143,[0x144]); (0x145,[0x146]); (0x147,[0x148]); (0x14A,[0x14B]); (0x14C,[0x14D]);
    (0x14E,[0x14F]); (0x150,[0x151]); (0x152,[0x153]); (0x154,[0x155]); (0x156,[0x157]);
    (0x158,[0x159]); (0x15A,[0x15B]); (0x15C,[0x15D]); (0x15E,[0x15F]); (0x160,[0x161]);
    (0x162,[0x163]); (0x164,[0x165]); (0x166,[0x167]); (0x168,[0x169]); (0x16A,[0x16B]);
    (0x16C,[0x16D]); (0x16E,[0x16F]); (0x170,[0x171]); (0x172,[0x173]); (0x174,[0x175]);
    (0x176,[0x177]); (0x178,[0xFF]); (0x179,[0x17A]); (0x17B,[0x17C]); (0x17D,[0x17E]);
    (0x181,[0x253]); (0x182,[0x183]); (0x184,[0x185]); (0x186,[0x254]); (0x187,[0x188]);
    (0x189,[0x256]); (0x18A,[0x257]); (0x18B,[0x18C]); (0x18E,[0x1DD]); (0x18F,[0x259]);
    (0x190,[0x25B]); (0x191,[0x192]); (0x193,[0x260]); (0x194,[0x263]); (0x196,[0x269]);
    (0x197,[0x268]); (0x198,[0x199]); (0x19C,[0x26F]); (0x19D,[0x272]); (0x19F,[0x275]);
    (0x1A0,[0x1A1]); (0x1A2,[0x1A3]); (0x1A4,[0x1A5]); (0x1A6,[0x280]); (0x1A7,[0x1A8]);
    (0x1A9,[0x283]); (0x1AC,[0x1AD]); (0x1AE,[0x288]); (0x1AF,[0x1B0]); (0x1B1,[0x28A]);
    (0x1B2,[0x28B]); (0x1B3,[0x1B4]); (0x1B5,[0x1B6]); (0x1B7,[0x292]); (0x1B8,[0x1B9]);
    (0x1BC,[0x1BD]); (0x1C4,[0x1C6]); (0x1C5,[0x1C6]); (0x1C7,[0x1C9]); (0x1C8,[0x1C9]);
    (0x1CA,[0x1CC]); (0x1CB,[0x1CC]); (0x1CD,[0x1CE]); (0x1CF,[0x1D0]); (0x1D1,[0x1D2]);
    (0x1D3,[0x1D4]); (0x1D5,[0x1D6]); (0x1D7,[0x1D8]); (0x1D9,[0x1DA]); (0x1DB,[0x1DC]);
    (0x1DE,[0x1DF]); (0x1E0,[0x1E1]); (0x1E2,[0x1E3]); (0x1E4,[0x1E5]); (0x1E6,[0x1E7]);
    (0x1E8,[0x1E9]); (0x1EA,[0x1EB]); (0x1EC,[0x1ED]); (0x1EE,[0x1EF]); (0x1F1,[0x1F3]);
    (0x1F2,[0x1F3]); (0x1F4,[0x1F5]); (0x1F6,[0x195]); (0x1F7,[0x1BF]); (0x1F8,[0x1F9]);
    (0x1FA,[0x1FB]); (0x1FC,[0x1FD]); (0x1FE,[0x1FF]); (0x200,[0x201]); (0x202,[0x203]);
    (0x204,[0x205]); (0x206,[0x207]); (0x208,[0x209]); (0x20A,[0x20B]); (0x20C,[0x20D]);
    (0x20E,[0x20F]); (0x210,[0x211]); (0x212,[0x213]); (0x214,[0x215]); (0x216,[0x217]);
    (0x218,[0x219]); (0x21A,[0x21B]); (0x21C,[0x21D]); (0x21E,[0x21F]); (0x220,[0x19E]);
    (0x222,[0x223]); (0x224,[0x225]); (0x226,[0x227]); (0x228,[0x229]); (0x22A,[0x22B]);
    (0x22C,[0x22D]); (0x22E,[0x22F]); (0x230,[0x231]); (0x232,[0x233]); (0x23A,[0x2C65]);
    (0x23B,[0x23C]); (0x23D,[0x19A]); (0x23E,[0x2C66]); (0x241,[0x242]); (0x243,[0x180]);
    (0x244,[0x289]); (0x245,[0x28C]); (0x246,[0x247]); (0x248,[0x249]); (0x24A,[0x24B]);
    (0x24C,[0x24D]); (0x24E,[0x24F]); (0x370,[0x371]); (0x372,[0x373]); (0x376,[0x377]);
    (0x37F,[0x3F3]); (0x386,[0x3AC]); (0x388,[0x3AD]); (0x389,[0x3AE]); (0x38A,[0x3AF]);
    (0x38C,[0x3CC]); (0x38E,[0x3CD]); (0x38F,[0x3CE]); (0x391,[0x3B1]); (0x392,[0x3B2]);
    (0x393,[0x3B3]); (0x394,[0x3B4]); (0x395,[0x3B5]); (0x396,[0x3B6]); (0x397,[0x3B7]);
    (0x398,[0x3B8]); (0x399,[0x3B9]); (0x39A,[0x3BA]); (0x39B,[0x3BB]); (0x39C,[0x3BC]);
    (0x39D,[0x3BD]); (0x39E,[0x3BE]); (0x39F,[0x3BF]); (0x3A0,[0x3C0]); (0x3A1,[0x3C1]);
    (0x3A3,[0x3C3]); (0x3A4,[0x3C4]); (0x3A5,[0x3C5]); (0x3A6,[0x3C6]); (0x3A7,[0x3C7]);
    (0x3A8,[0x3C8]); (0x3A9,[0x3C9]); (0x3AA,[0x3CA]); (0x3AB,[0x3CB]); (0x3CF,[0x3D7]);
    (0x3D8,[0x3D9]); (0x3DA,[0x3DB]); (0x3DC,[0x3DD]); (0x3DE,[0x3DF]); (0x3E0,[0x3E1]);
    (0x3E2,[0x3E3]); (0x3E4,[0x3E5]); (0x3E6,[0x3E7]); (0x3E8,[0x3E9]); (0x3EA,[0x3EB]);
    (0x3EC,[0x3ED]); (0x3EE,[0x3EF]); (0x3F4,[0x3B8]); (0x3F7,[0x3F8]); (0x3F9,[0x3F2]);
    (0x3FA,[0x3FB]); (0x3FD,[0x37B]); (0x3FE,[0x37C]); (0x3FF,[0x37D]); (0x400,[0x450]);
    (0x401,[0x451]); (0x402,[0x452]); (0x403,[0x453]); (0x404,[0x454]); (0x405,[0x455]);
    (0x406,[0x456]); (0x407,[0x457]); (0x408,[0x458]); (0x409,[0x459]); (0x40A,[0x45A]);
    (0x40B,[0x45B]); (0x40C,[0x45C]); (0x40D,[0x45D]); (0x40E,[0x45E]); (0x40F,[0x45F]);
    (0x410,[0x430]); (0x411,[0x431]); (0x412,[0x432]); (0x413,[0x433]); (0x414,[0x434]);
    (0x415,[0x435]); (0x416,[0x436]); (0x417,[0x437]); (0x418,[0x438]); (0x419,[0x439]);
    (0x41A,[0x43A]); (0x41B,[0x43B]); (0x41C,[0x43C]); (0x41D,[0x43D]); (0x41E,[0x43E]);
    (0x41F,[0x43F]); (0x420,[0x440]); (0x421,[0x441]); (0x422,[0x442]); (0x423,[0x443]);
    (0x424,[0x444]); (0x425,[0x445]); (0x426,[0x446]); (0x427,[0x447]); (0x428,[0x448]);
    (0x429,[0x449]); (0x42A,[0x44A]); (0x42B,[0x44B]); (0x42C,[0x44C]); (0x42D,[0x44D]);
    (0x42E,[0x44E]); (0x42F,[0x44F]); (0x460,[0x461]); (0x462,[0x463]); (0x464,[0x465]);
    (0x466,[0x467]); (0x468,[0x469]); (0x46A,[0x46B]); (0x46C,[0x46D]); (0x46E,[0x46F]);
    (0x470,[0x471]); (0x472,[0x473]); (0x474,[0x475]); (0x476,[0x477]); (0x478,[0x479]);
    (0x47A,[0x47B]); (0x47C,[0x47D]); (0x47E,[0x47F]); (0x480,[0x481]); (0x48A,[0x48B]);
    (0x48C,[0x48D]); (0x48E,[0x48F]); (0x490,[0x491]); (0x492,[0x493]); (0x494,[0x495]);
    (0x496,[0x497]); (0x498,[0x499]); (0x49A,[0x49B]); (0x49C,[0x49D]); (0x49E,[0x49F]);
    (0x4A0,[0x4A1]); (0x4A2,[0x4A3]); (0x4A4,[0x4A5]); (0x4A6,[0x4A7]); (0x4A8,[0x4A9]);
    (0x4AA,[0x4AB]); (0x4AC,[0x4AD]); (0x4AE,[0x4AF]); (0x4B0,[0x4B1]); (0x4B2,[0x4B3]);
    (0x4B4,[0x4B5]); (0x4B6,[0x4B7]); (0x4B8,[0x4B9]); (0x4BA,[0x4BB]); (0x4BC,[0x4BD]);
    (0x4BE,[0x4BF]); (0x4C0,[0x4CF]); (0x4C1,[0x4C2]); (0x4C3,[0x4C4]); (0x4C5,[0x4C6]);
    (0x4C7,[0x4C8]); (0x4C9,[0x4CA]); (0x4CB,[0x4CC]); (0x4CD,[0x4CE]); (0x4D0,[0x4D1]);
    (0x4D2,[0x4D3]); (0x4D4,[0x4D5]); (0x4D6,[0x4D7]); (0x4D8,[0x4D9]); (0x4DA,[0x4DB]);
    (0x4DC,[0x4DD]); (0x4DE,[0x4DF]); (0x4E0,[0x4E1]); (0x4E2,[0x4E3]); (0x4E4,[0x4E5]);
    (0x4E6,[0x4E7]); (0x4E8,[0x4E9]); (0x4EA,[0x4EB]); (0x4EC,[0x4ED]); (0x4EE,[0x4EF]);
    (0x4F0,[0x4F1]); (0x4F2,[0x4F3]); (0x4F4,[0x4F5]); (0x4F6,[0x4F7]); (0x4F8,[0x4F9]);
    (0x4FA,[0x4FB]); (0x4FC,[0x4FD]); (0x4FE,[0x4FF]); (0x500,[0x501]); (0x502,[0x503]);
    (0x504,[0x505]); (0x506,[0x507]); (0x508,[0x509]); (0x50A,[0x50B]); (0x50C,[0x50D]);
    (0x50E,[0x50F]); (0x510,[0x511]); (0x512,[0x513]); (0x514,[0x515]); (0x516,[0x517]);
    (0x518,[0x519]); (0x51A,[0x51B]); (0x51C,[0x51D]); (0x51E,[0x51F]); (0x520,[0x521]);
    (0x522,[0x523]); (0x524,[0x525]); (0x526,[0x527]); (0x528,[0x529]); (0x52A,[0x52B]);
    (0x52C,[0x52D]); (0x52E,[0x52F]); (0x531,[0x561]); (0x532,[0x562]); (0x533,[0x563]);
    (0x534,[0x564]); (0x535,[0x565]); (0x536,[0x566]); (0x537,[0x567]); (0x538,[0x568]);
    (0x539,[0x569]); (0x53A,[0x56A]); (0x53B,[0x56B]); (0x53C,[0x56C]); (0x53D,[0x56D]);
    (0x53E,[0x56E]); (0x53F,[0x56F]); (0x540,[0x570]); (0x541,[0x571]); (0x542,[0x572]);
    (0x543,[0x573]); (0x544,[0x574]); (0x545,[0x575]); (0x546,[0x576]); (0x547,[0x577]);
    (0x548,[0x578]); (0x549,[0x579]); (0x54A,[0x57A]); (0x54B,[0x57B]); (0x54C,[0x57C]);
    (0x54D,[0x57D]); (0x54E,[0x57E]); (0x54F,[0x57F]); (0x550,[0x580]); (0x551,[0x581]);
    (0x552,[0x582]); (0x553,[0x583]); (0x554,[0x584]); (0x555,[0x585]); (0x556,[0x586]);
    (0x10A0,[0x2D00]); (0x10A1,[0x2D01]); (0x10A2,[0x2D02]); (0x10A3,[0x2D03]); (0x10A4,[0x2D04]);
    (0x10A5,[0x2D05]); (0x10A6,[0x2D06]); (0x10A7,[0x2D07]); (0x10A8,[0x2D08]); (0x10A9,[0x2D09]);
    (0x10AA,[0x2D0A]); (0x10AB,[0x2D0B]); (0x10AC,[0x2D0C]); (0x10AD,[0x2D0D]); (0x10AE,[0x2D0E]);
    (0x10AF,[0x2D0F]); (0x10B0,[0x2D10]); (0x10B1,[0x2D11]); (0x10B2,[0x2D12]); (0x10B3,[0x2D13]);
    (0x10B4,[0x2D14]); (0x10B5,[0x2D15]); (0x10B6,[0x2D16]); (0x10B7,[0x2D17]); (0x10B8,[0x2D18]);
    (0x10B9,[0x2D19]); (0x10BA,[0x2D1A]); (0x10BB,[0x2D1B]); (0x10BC,[0x2D1C]); (0x10BD,[0x2D1D]);
    (0x10BE,[0x2D1E]); (0x10BF,[0x2D1F]); (0x10C0,[0x2D20]); (0x10C1,[0x2D21]); (0x10C2,[0x2D22]);
    (0x10C3,[0x2D23]); (0x10C4,[0x2D24]); (0x10C5,[0x2D25]); (0x10C7,[0x2D27]); (0x10CD,[0x2D2D]);
    (0x13A0,[0xAB70]); (0x13A1,[0xAB71]); (0x13A2,[0xAB72]); (0x13A3,[0xAB73]); (0x13A4,[0xAB74]);
    (0x13A5,[0xAB75]); (0x13A6,[0xAB76]); (0x13A7,[0xAB77]); (0x13A8,[0xAB78]); (0x13A9,[0xAB79]);
    (0x13AA,[0xAB7A]); (0x13AB,[0xAB7B]); (0x13AC,[0xAB7C]); (0x13AD,[0xAB7D]); (0x13AE,[0xAB7E]);
    (0x13AF,[0xAB7F]); (0x13B0,[0xAB80]); (0x13B1,[0xAB81]); (0x13B2,[0xAB82]); (0x13B3,[0xAB83]);
    (0x13B4,[0xAB84]); (0x13B5,[0xAB85]); (0x13B6,[0xAB86]); (0x13B7,[0xAB87]); (0x13B8,[0xAB88]);
    (0x13B9,[0xAB89]); (0x13BA,[0xAB8A]); (0x13BB,[0xAB8B]); (0x13BC,[0xAB8C]); (0x13BD,[0xAB8D]);
    (0x13BE,[0xAB8E]); (0x13BF,[0xAB8F]); (0x13C0,[0xAB90]); (0x13C1,[0xAB91]); (0x13C2,[0xAB92]);
    (0x13C3,[0xAB93]); (0x13C4,[0xAB94]); (0x13C5,[0xAB95]); (0x13C6,[0xAB96]); (0x13C7,[0xAB97]);
    (0x13C8,[0xAB98]); (0x13C9,[0xAB99]); (0x13CA,[0xAB9A]); (0x13CB,[0xAB9B]); (0x13CC,[0xAB9C]);
    (0x13CD,[0xAB9D]); (0x13CE,[0xAB9E]); (0x13CF,[0xAB9F]); (0x13D0,[0xABA0]); (0x13D1,[0xABA1]);
    (0x13D2,[0xABA2]); (0x13D3,[0xABA3]); (0x13D4,[0xABA4]); (0x13D5,[0xABA5]); (0x13D6,[0xABA6]);
    (0x13D7,[0xABA7]); (0x13D8,[0xABA8]); (0x13D9,[0xABA9]); (0x13DA,[0xABAA]); (0x13DB,[0xABAB]);
    (0x13DC,[0xABAC]); (0x13DD,[0xABAD]); (0x13DE,[0xABAE]); (0x13DF,[0xABAF]); (0x13E0,[0xABB0]);
    (0x13E1,[0xABB1]); (0x13E2,[0xABB2]); (0x13E3,[0xABB3]); (0x13E4,[0xABB4]); (0x13E5,[0xABB5]);
    (0x13E6,[0xABB6]); (0x13E7,[0xABB7]); (0x13E8,[0xABB8]); (0x13E9,[0xABB9]); (0x13EA,[0xABBA]);
    (0x13EB,[0xABBB]); (0x13EC,[0xABBC]); (0x13ED,[0xABBD]); (0x13EE,[0xABBE]); (0x13EF,[0xABBF]);
    (0x13F0,[0x13F8]); (0x13F1,[0x13F9]); (0x13F2,[0x13FA]); (0x13F3,[0x13FB]); (0x13F4,[0x13FC]);
    (0x13F5,[0x13FD]); (0x1C90,[0x10D0]); (0x1C91,[0x10D1]); (0x1C92,[0x10D2]); (0x1C93,[0x10D3]);
    (0x1C94,[0x10D4]); (0x1C95,[0x10D5]); (0x1C96,[0x10D6]); (0x1C97,[0x10D7]); (0x1C98,[0x10D8]);
    (0x1C99,[0x10D9]); (0x1C9A,[0x10DA]); (0x1C9B,[0x10DB]); (0x1C9C,[0x10DC]); (0x1C9D,[0x10DD]);
    (0x1C9E,[0x10DE]); (0x1C9F,[0x10DF]); (0x1CA0,[0x10E0]); (0x1CA1,[0x10E1]); (0x1CA2,[0x10E2]);
    (0x1CA3,[0x10E3]); (0x1CA4,[0x10E4]); (0x1CA5,[0x10E5]); (0x1CA6,[0x10E6]); (0x1CA7,[0x10E7]);
    (0x1CA8,[0x10E8]); (0x1CA9,[0x10E9]); (0x1CAA,[0x10EA]); (0x1CAB,[0x10EB]); (0x1CAC,[0x10EC]);
    (0x1CAD,[0x10ED]); (0x1CAE,[0x10EE]); (0x1CAF,[0x10EF]); (0x1CB0,[0x10F0]); (0x1CB1,[0x10F1]);
    (0x1CB2,[0x10F2]); (0x1CB3,[0x10F3]); (0x1CB4,[0x10F4]); (0x1CB5,[0x10F5]); (0x1CB6,[0x10F6]);
    (0x1CB7,[0x10F7]); (0x1CB8,[0x10F8]); (0x1CB9,[0x10F9]); (0x1CBA,[0x10FA]); (0x1CBD,[0x10FD]);
    (0x1CBE,[0x10FE]); (0x1CBF,[0x10FF]); (0x1E00,[0x1E01]); (0x1E02,[0x1E03]); (0x1E04,[0x1E05]);
    (0x1E06,[0x1E07]); (0x1E08,[0x1E09]); (0x1E0A,[0x1E0B]); (0x1E0C,[0x1E0D]); (0x1E0E,[0x1E0F]);
    (0x1E10,[0x1E11]); (0x1E12,[0x1E13]); (0x1E14,[0x1E15]); (0x1E16,[0x1E17]); (0x1E18,[0x1E19]);
    (0x1E1A,[0x1E1B]); (0x1E1C,[0x1E1D]); (0x1E1E,[0x1E1F]); (0x1E20,[0x1E21]); (0x1E22,[0x1E23]);
    (0x1E24,[0x1E25]); (0x1E26,[0x1E27]); (0x1E28,[0x1E29]); (0x1E2A,[0x1E2B]); (0x1E2C,[0x1E2D]);
    (0x1E2E,[0x1E2F]); (0x1E30,[0x1E31]); (0x1E32,[0x1E33]); (0x1E34,[0x1E35]); (0x1E36,[0x1E37]);
    (0x1E38,[0x1E39]); (0x1E3A,[0x1E3B]); (0x1E3C,[0x1E3D]); (0x1E3E,[0x1E3F]); (0x1E40,[0x1E41]);
    (0x1E42,[0x1E43]); (0x1E44,[0x1E45]); (0x1E46,[0x1E47]); (0x1E48,[0x1E49]); (0x1E4A,[0x1E4B]);
    (0x1E4C,[0x1E4D]); (0x1E4E,[0x1E4F]); (0x1E50,[0x1E51]); (0x1E52,[0x1E53]); (0x1E54,[0x1E55]);
    (0x1E56,[0x1E57]); (0x1E58,[0x1E59]); (0x1E5A,[0x1E5B]); (0x1E5C,[0x1E5D]); (0x1E5E,[0x1E5F]);
    (0x1E60,[0x1E61]); (0x1E62,[0x1E63]); (0x1E64,[0x1E65]); (0x1E66,[0x1E67]); (0x1E68,[0x1E69]);
    (0x1E6A,[0x1E6B]); (0x1E6C,[0x1E6D]); (0x1E6E,[0x1E6F]); (0x1E70,[0x1E71]); (0x1E72,[0x1E73]);
    (0x1E74,[0x1E75]); (0x1E76,[0x1E77]); (0x1E78,[0x1E79]); (0x1E7A,[0x1E7B]); (0x1E7C,[0x1E7D]);
    (0x1E7E,[0x1E7F]); (0x1E80,[0x1E81]); (0x1E82,[0x1E83]); (0x1E84,[0x1E85]); (0x1E86,[0x1E87]);
    (0x1E88,[0x1E89]); (0x1E8A,[0x1E8B]); (0x1E8C,[0x1E8D]); (0x1E8E,[0x1E8F]); (0x1E90,[0x1E91]);
    (0x1E92,[0x1E93]); (0x1E94,[0x1E95]); (0x1E9E,[0xDF]); (0x1EA0,[0x1EA1]); (0x1EA2,[0x1EA3]);
    (0x1EA4,[0x1EA5]); (0x1EA6,[0x1EA7]); (0x1EA8,[0x1EA9]); (0x1EAA,[0x1EAB]); (0x1EAC,[0x1EAD]);
    (0x1EAE,[0x1EAF]); (0x1EB0,[0x1EB1]); (0x1EB2,[0x1EB3]); (0x1EB4,[0x1EB5]); (0x1EB6,[0x1EB7]);
    (0x1EB8,[0x1EB9]); (0x1EBA,[0x1EBB]); (0x1EBC,[0x1EBD]); (0x1EBE,[0x1EBF]); (0x1EC0,[0x1EC1]);
    (0x1EC2,[0x1EC3]); (0x1EC4,[0x1EC5]); (0x1EC6,[0x1EC7]); (0x1EC8,[0x1EC9]); (0x1ECA,[0x1ECB]);
    (0x1ECC,[0x1ECD]); (0x1ECE,[0x1ECF]); (0x1ED0,[0x1ED1]); (0x1ED2,[0x1ED3]); (0x1ED4,[0x1ED5]);
    (0x1ED6,[0x1ED7]); (0x1ED8,[0x1ED9]); (0x1EDA,[0x1EDB]); (0x1EDC,[0x1EDD]); (0x1EDE,[0x1EDF]);
    (0x1EE0,[0x1EE1]); (0x1EE2,[0x1EE3]); (0x1EE4,[0x1EE5]); (0x1EE6,[0x1EE7]); (0x1EE8,[0x1EE9]);
    (0x1EEA,[0x1EEB]); (0x1EEC,[0x1EED]); (0x1EEE,[0x1EEF]); (0x1EF0,[0x1EF1]); (0x1EF2,[0x1EF3]);
    (0x1EF4,[0x1EF5]); (0x1EF6,[0x1EF7]); (0x1EF8,[0x1EF9]); (0x1EFA,[0x1EFB]); (0x1EFC,[0x1EFD]);
    (0x1EFE,[0x1EFF]); (0x1F08,[0x1F00]); (0x1F09,[0x1F01]); (0x1F0A,[0x1F02]); (0x1F0B,[0x1F03]);
    (0x1F0C,[0x1F04]); (0x1F0D,[0x1F05]); (0x1F0E,[0x1F06]); (0x1F0F,[0x1F07]); (0x1F18,[0x1F10]);
    (0x1F19,[0x1F11]); (0x1F1A,[0x1F12]); (0x1F1B,[0x1F13]); (0x1F1C,[0x1F14]); (0x1F1D,[0x1F15]);
    (0x1F28,[0x1F20]); (0x1F29,[0x1F21]); (0x1F2A,[0x1F22]); (0x1F2B,[0x1F23]); (0x1F2C,[0x1F24]);
    (0x1F2D,[0x1F25]); (0x1F2E,[0x1F26]); (0x1F2F,[0x1F27]); (0x1F38,[0x1F30]); (0x1F39,[0x1F31]);
    (0x1F3A,[0x1F32]); (0x1F3B,[0x1F33]); (0x1F3C,[0x1F34]); (0x1F3D,[0x1F35]); (0x1F3E,[0x1F36]);
    (0x1F3F,[0x1F37]); (0x1F48,[0x1F40]); (0x1F49,[0x1F41]); (0x1F4A,[0x1F42]); (0x1F4B,[0x1F43]);
    (0x1F4C,[0x1F44]); (0x1F4D,[0x1F45]); (0x1F59,[0x1F51]); (0x1F5B,[0x1F53]); (0x1F5D,[0x1F55]);
    (0x1F5F,[0x1F57]); (0x1F68,[0x1F60]); (0x1F69,[0x1F61]); (0x1F6A,[0x1F62]); (0x1F6B,[0x1F63]);
    (0x1F6C,[0x1F64]); (0x1F6D,[0x1F65]); (0x1F6E,[0x1F66]); (0x1F6F,[0x1F67]); (0x1F88,[0x1F80]);
    (0x1F89,[0x1F81]); (0x1F8A,[0x1F82]); (0x1F8B,[0x1F83]); (0x1F8C,[0x1F84]); (0x1F8D,[0x1F85]);
    (0x1F8E,[0x1F86]); (0x1F8F,[0x1F87]); (0x1F98,[0x1F90]); (0x1F99,[0x1F91]); (0x1F9A,[0x1F92]);
    (0x1F9B,[0x1F93]); (0x1F9C,[0x1F94]); (0x1F9D,[0x1F95]); (0x1F9E,[0x1F96]); (0x1F9F,[0x1F97]);
    (0x1FA8,[0x1FA0]); (0x1FA9,[0x1FA1]); (0x1FAA,[0x1FA2]); (0x1FAB,[0x1FA3]); (0x1FAC,[0x1FA4]);
    (0x1FAD,[0x1FA5]); (0x1FAE,[0x1FA6]); (0x1FAF,[0x1FA7]); (0x1FB8,[0x1FB0]); (0x1FB9,[0x1FB1]);
    (0x1FBA,[0x1F70]); (0x1FBB,[0x1F71]); (0x1FBC,[0x1FB3]); (0x1FC8,[0x1F72]); (0x1FC9,[0x1F73]);
    (0x1FCA,[0x1F74]); (0x1FCB,[0x1F75]); (0x1FCC,[0x1FC3]); (0x1FD8,[0x1FD0]); (0x1FD9,[0x1FD1]);
    (0x1FDA,[0x1F76]); (0x1FDB,[0x1F77]); (0x1FE8,[0x1FE0]); (0x1FE9,[0x1FE1]); (0x1FEA,[0x1F7A]);
    (0x1FEB,[0x1F7B]); (0x1FEC,[0x1FE5]); (0x1FF8,[0x1F78]); (0x1FF9,[0x1F79]); (0x1FFA,[0x1F7C]);
    (0x1FFB,[0x1F7D]); (0x1FFC,[0x1FF3]); (0x2126,[0x3C9]); (0x212A,[0x6B]); (0x212B,[0xE5]);
    (0x2132,[0x214E]); (0x2160,[0x2170]); (0x2161,[0x2171]); (0x2162,[0x2172]); (0x2163,[0x2173]);
    (0x2164,[0x2174]); (0x2165,[0x2175]); (0x2166,[0x2176]); (0x2167,[0x2177]); (0x2168,[0x2178]);
    (0x2169,[0x2179]); (0x216A,[0x217A]); (0x216B,[0x217B]); (0x216C,[0x217C]); (0x216D,[0x217D]);
    (0x216E,[0x217E]); (0x216F,[0x217F]); (0x2183,[0x2184]); (0x24B6,[0x24D0]); (0x24B7,[0x24D1]);
    (0x24B8,[0x24D2]); (0x24B9,[0x24D3]); (0x24BA,[0x24D4]); (0x24BB,[0x24D5]); (0x24BC,[0x24D6]);
    (0x24BD,[0x24D7]); (0x24BE,[0x24D8]); (0x24BF,[0x24D9]); (0x24C0,[0x24DA]); (0x24C1,[0x24DB]);
    (0x24C2,[0x24DC]); (0x24C3,[0x24DD]); (0x24C4,[0x24DE]); (0x24C5,[0x24DF]); (0x24C6,[0x24E0]);
    (0x24C7,[0x24E1]); (0x24C8,[0x24E2]); (0x24C9,[0x24E3]); (0x24CA,[0x24E4]); (0x24CB,[0x24E5]);
    (0x24CC,[0x24E6]); (0x24CD,[0x24E7]); (0x24CE,[0x24E8]); (0x24CF,[0x24E9]); (0x2C00,[0x2C30]);
    (0x2C01,[0x2C31]); (0x2C02,[0x2C32]); (0x2C03,[0x2C33]); (0x2C04,[0x2C34]); (0x2C05,[0x2C35]);
    (0x2C06,[0x2C36]); (0x2C07,[0x2C37]); (0x2C08,[0x2C38]); (0x2C09,[0x2C39]); (0x2C0A,[0x2C3A]);
    (0x2C0B,[0x2C3B]); (0x2C0C,[0x2C3C]); (0x2C0D,[0x2C3D]); (0x2C0E,[0x2C3E]); (0x2C0F,[0x2C3F]);
    (0x2C10,[0x2C40]); (0x2C11,[0x2C41]); (0x2C12,[0x2C42]); (0x2C13,[0x2C43]); (0x2C14,[0x2C44]);
    (0x2C15,[0x2C45]); (0x2C16,[0x2C46]); (0x2C17,[0x2C47]); (0x2C18,[0x2C48]); (0x2C19,[0x2C49]);
    (0x2C1A,[0x2C4A]); (0x2C1B,[0x2C4B]); (0x2C1C,[0x2C4C]); (0x2C1D,[0x2C4D]); (0x2C1E,[0x2C4E]);
    (0x2C1F,[0x2C4F]); (0x2C20,[0x2C50]); (0x2C21,[0x2C51]); (0x2C22,[0x2C52]); (0x2C23,[0x2C53]);
    (0x2C24,[0x2C54]); (0x2C25,[0x2C55]); (0x2C26,[0x2C56]); (0x2C27,[0x2C57]); (0x2C28,[0x2C58]);
    (0x2C29,[0x2C59]); (0x2C2A,[0x2C5A]); (0x2C2B,[0x2C5B]); (0x2C2C,[0x2C5C]); (0x2C2D,[0x2C5D]);
    (0x2C2E,[0x2C5E]); (0x2C2F,[0x2C5F]); (0x2C60,[0x2C61]); (0x2C62,[0x26B]); (0x2C63,[0x1D7D]);
    (0x2C64,[0x27D]); (0x2C67,[0x2C68]); (0x2C69,[0x2C6A]); (0x2C6B,[0x2C6C]); (0x2C6D,[0x251]);
    (0x2C6E,[0x271]); (0x2C6F,[0x250]); (0x2C70,[0x252]); (0x2C72,[0x2C73]); (0x2C75,[0x2C76]);
    (0x2C7E,[0x23F]); (0x2C7F,[0x240]); (0x2C80,[0x2C81]); (0x2C82,[0x2C83]); (0x2C84,[0x2C85]);
    (0x2C86,[0x2C87]); (0x2C88,[0x2C89]); (0x2C8A,[0x2C8B]); (0x2C8C,[0x2C8D]); (0x2C8E,[0x2C8F]);
    (0x2C90,[0x2C91]); (0x2C92,[0x2C93]); (0x2C94,[0x2C95]); (0x2C96,[0x2C97]); (0x2C98,[0x2C99]);
    (0x2C9A,[0x2C9B]); (0x2C9C,[0x2C9D]); (0x2C9E,[0x2C9F]); (0x2CA0,[0x2CA1]); (0x2CA2,[0x2CA3]);
    (0x2CA4,[0x2CA5]); (0x2CA6,[0x2CA7]); (0x2CA8,[0x2CA9]); (0x2CAA,[0x2CAB]); (0x2CAC,[0x2CAD]);
    (0x2CAE,[0x2CAF]); (0x2CB0,[0x2CB1]); (0x2CB2,[0x2CB3]); (0x2CB4,[0x2CB5]); (0x2CB6,[0x2CB7]);
    (0x2CB8,[0x2CB9]); (0x2CBA,[0x2CBB]); (0x2CBC,[0x2CBD]); (0x2CBE,[0x2CBF]); (0x2CC0,[0x2CC1]);
    (0x2CC2,[0x2CC3]); (0x2CC4,[0x2CC5]); (0x2CC6,[0x2CC7]); (0x2CC8,[0x2CC9]); (0x2CCA,[0x2CCB]);
    (0x2CCC,[0x2CCD]); (0x2CCE,[0x2CCF]); (0x2CD0,[0x2CD1]); (0x2CD2,[0x2CD3]); (0x2CD4,[0x2CD5]);
    (0x2CD6,[0x2CD7]); (0x2CD8,[0x2CD9]); (0x2CDA,[0x2CDB]); (0x2CDC,[0x2CDD]); (0x2CDE,[0x2CDF]);
    (0x2CE0,[0x2CE1]); (0x2CE2,[0x2CE3]); (0x2CEB,[0x2CEC]); (0x2CED,[0x2CEE]); (0x2CF2,[0x2CF3]);
    (0xA640,[0xA641]); (0xA642,[0xA643]); (0xA644,[0xA645]); (0xA646,[0xA647]); (0xA648,[0xA649]);
    (0xA64A,[0xA64B]); (0xA64C,[0xA64D]); (0xA64E,[0xA64F]); (0xA650,[0xA651]); (0xA652,[0xA653]);
    (0xA654,[0xA655]); (0xA656,[0xA657]); (0xA658,[0xA659]); (0xA65A,[0xA65B]); (0xA65C,[0xA65D]);
    (0xA65E,[0xA65F]); (0xA660,[0xA661]); (0xA662,[0xA663]); (0xA664,[0xA665]); (0xA666,[0xA667]);
    (0xA668,[0xA669]); (0xA66A,[0xA66B]); (0xA66C,[0xA66D]); (0xA680,[0xA681]); (0xA682,[0xA683]);
    (0xA684,[0xA685]); (0xA686,[0xA687]); (0xA688,[0xA689]); (0xA68A,[0xA68B]); (0xA68C,[0xA68D]);
    (0xA68E,[0xA68F]); (0xA690,[0xA691]); (0xA692,[0xA693]); (0xA694,[0xA695]); (0xA696,[0xA697]);
    (0xA698,[0xA699]); (0xA69A,[0xA69B]); (0xA722,[0xA723]); (0xA724,[0xA725]); (0xA726,[0xA727]);
    (0xA728,[0xA729]); (0xA72A,[0xA72B]); (0xA72C,[0xA72D]); (0xA72E,[0xA72F]); (0xA732,[0xA733]);
    (0xA734,[0xA735]); (0xA736,[0xA737]); (0xA738,[0xA739]); (0xA73A,[0xA73B]); (0xA73C,[0xA73D]);
    (0xA73E,[0xA73F]); (0xA740,[0xA741]); (0xA742,[0xA743]); (0xA744,[0xA745]); (0xA746,[0xA747]);
    (0xA748,[0xA749]); (0xA74A,[0xA74B]); (0xA74C,[0xA74D]); (0xA74E,[0xA74F]); (0xA750,[0xA751]);
    (0xA752,[0xA753]); (0xA754,[0xA755]); (0xA756,[0xA757]); (0xA758,[0xA759]); (0xA75A,[0xA75B]);
    (0xA75C,[0xA75D]); (0xA75E,[0xA75F]); (0xA760,[0xA761]); (0xA762,[0xA763]); (0xA764,[0xA765]);
    (0xA766,[0xA767]); (0xA768,[0xA769]); (0xA76A,[0xA76B]); (0xA76C,[0xA76D]); (0xA76E,[0xA76F]);
    (0xA779,[0xA77A]); (0xA77B,[0xA77C]); (0xA77D,[0x1D79]); (0xA77E,[0xA77F]); (0xA780,[0xA781]);
    (0xA782,[0xA783]); (0xA784,[0xA785]); (0xA786,[0xA787]); (0xA78B,[0xA78C]); (0xA78D,[0x265]);
    (0xA790,[0xA791]); (0xA792,[0xA793]); (0xA796,[0xA797]); (0xA798,[0xA799]); (0xA79A,[0xA79B]);
    (0xA79C,[0xA79D]); (0xA79E,[0xA79F]); (0xA7A0,[0xA7A1]); (0xA7A2,[0xA7A3]); (0xA7A4,[0xA7A5]);
    (0xA7A6,[0xA7A7]); (0xA7A8,[0xA7A9]); (0xA7AA,[0x266]); (0xA7AB,[0x25C]); (0xA7AC,[0x261]);
    (0xA7AD,[0x26C]); (0xA7AE,[0x26A]); (0xA7B0,[0x29E]); (0xA7B1,[0x287]); (0xA7B2,[0x29D]);
    (0xA7B3,[0xAB53]); (0xA7B4,[0xA7B5]); (0xA7B6,[0xA7B7]); (0xA7B8,[0xA7B9]); (0xA7BA,[0xA7BB]);
    (0xA7BC,[0xA7BD]); (0xA7BE,[0xA7BF]); (0xA7C0,[0xA7C1]); (0xA7C2,[0xA7C3]); (0xA7C4,[0xA794]);
    (0xA7C5,[0x282]); (0xA7C6,[0x1D8E]); (0xA7C7,[0xA7C8]); (0xA7C9,[0xA7CA]); (0xA7D0,[0xA7D1]);
    (0xA7D6,[0xA7D7]); (0xA7D8,[0xA7D9]); (0xA7F5,[0xA7F6]); (0xFF21,[0xFF41]); (0xFF22,[0xFF42]);
    (0xFF23,[0xFF43]); (0xFF24,[0xFF44]); (0xFF25,[0xFF45]); (0xFF26,[0xFF46]); (0xFF27,[0xFF47]);
    (0xFF28,[0xFF48]); (0xFF29,[0xFF49]); (0xFF2A,[0xFF4A]); (0xFF2B,[0xFF4B]); (0xFF2C,[0xFF4C]);
    (0xFF2D,[0xFF4D]); (0xFF2E,[0xFF4E]); (0xFF2F,[0xFF4F]); (0xFF30,[0xFF50]); (0xFF31,[0xFF51]);
    (0xFF32,[0xFF52]); (0xFF33,[0xFF53]); (0xFF34,[0xFF54]); (0xFF35,[0xFF55]); (0xFF36,[0xFF56]);
    (0xFF37,[0xFF57]); (0xFF38,[0xFF58]); (0xFF39,[0xFF59]); (0xFF3A,[0xFF5A]); (0x10400,[0x10428]);
    (0x10401,[0x10429]); (0x10402,[0x1042A]); (0x10403,[0x1042B]); (0x10404,[0x1042C]);
    (0x10405,[0x1042D]); (0x10406,[0x1042E]); (0x10407,[0x1042F]); (0x10408,[0x10430]);
    (0x10409,[0x10431]); (0x1040A,[0x10432]); (0x1040B,[0x10433]); (0x1040C,[0x10434]);
    (0x1040D,[0x10435]); (0x1040E,[0x10436]); (0x1040F,[0x10437]); (0x10410,[0x10438]);
    (0x10411,[0x10439]); (0x10412,[0x1043A]); (0x10413,[0x1043B]); (0x10414,[0x1043C]);
    (0x10415,[0x1043D]); (0x10416,[0x1043E]); (0x10417,[0x1043F]); (0x10418,[0x10440]);
    (0x10419,[0x10441]); (0x1041A,[0x10442]); (0x1041B,[0x10443]); (0x1041C,[0x10444]);
    (0x1041D,[0x10445]); (0x1041E,[0x10446]); (0x1041F,[0x10447]); (0x10420,[0x10448]);
    (0x10421,[0x10449]); (0x10422,[0x1044A]); (0x10423,[0x1044B]); (0x10424,[0x1044C]);
    (0x10425,[0x1044D]); (0x10426,[0x1044E]); (0x10427,[0x1044F]); (0x104B0,[0x104D8]);
    (0x104B1,[0x104D9]); (0x104B2,[0x104DA]); (0x104B3,[0x104DB]); (0x104B4,[0x104DC]);
    (0x104B5,[0x104DD]); (0x104B6,[0x104DE]); (0x104B7,[0x104DF]); (0x104B8,[0x104E0]);
    (0x104B9,[0x104E1]); (0x104BA,[0x104E2]); (0x104BB,[0x104E3]); (0x104BC,[0x104E4]);
    (0x104BD,[0x104E5]); (0x104BE,[0x104E6]); (0x104BF,[0x104E7]); (0x104C0,[0x104E8]);
    (0x104C1,[0x104E9]); (0x104C2,[0x104EA]); (0x104C3,[0x104EB]); (0x104C4,[0x104EC]);
    (0x104C5,[0x104ED]); (0x104C6,[0x104EE]); (0x104C7,[0x104EF]); (0x104C8,[0x104F0]);
    (0x104C9,[0x104F1]); (0x104CA,[0x104F2]); (0x104CB,[0x104F3]); (0x104CC,[0x104F4]);
    (0x104CD,[0x104F5]); (0x104CE,[0x104F6]); (0x104CF,[0x104F7]); (0x104D0,[0x104F8]);
    (0x104D1,[0x104F9]); (0x104D2,[0x104FA]); (0x104D3,[0x104FB]); (0x10570,[0x10597]);
    (0x10571,[0x10598]); (0x10572,[0x10599]); (0x10573,[0x1059A]); (0x10574,[0x1059B]);
    (0x10575,[0x1059C]); (0x10576,[0x1059D]); (0x10577,[0x1059E]); (0x10578,[0x1059F]);
    (0x10579,[0x105A0]); (0x1057A,[0x105A1]); (0x1057C,[0x105A3]); (0x1057D,[0x105A4]);
    (0x1057E,[0x105A5]); (0x1057F,[0x105A6]); (0x10580,[0x105A7]); (0x10581,[0x105A8]);
    (0x10582,[0x105A9]); (0x10583,[0x105AA]); (0x10584,[0x105AB]); (0x10585,[0x105AC]);
    (0x10586,[0x105AD]); (0x10587,[0x105AE]); (0x10588,[0x105AF]); (0x10589,[0x105B0]);
    (0x1058A,[0x105B1]); (0x1058C,[0x105B3]); (0x1058D,[0x105B4]); (0x1058E,[0x105B5]);
    (0x1058F,[0x105B6]); (0x10590,[0x105B7]); (0x10591,[0x105B8]); (0x10592,[0x105B9]);
    (0x10594,[0x105BB]); (0x10595,[0x105BC]); (0x10C80,[0x10CC0]); (0x10C81,[0x10CC1]);
    (0x10C82,[0x10CC2]); (0x10C83,[0x10CC3]); (0x10C84,[0x10CC4]); (0x10C85,[0x10CC5]);
    (0x10C86,[0x10CC6]); (0x10C87,[0x10CC7]); (0x10C88,[0x10CC8]); (0x10C89,[0x10CC9]);
    (0x10C8A,[0x10CCA]); (0x10C8B,[0x10CCB]); (0x10C8C,[0x10CCC]); (0x10C8D,[0x10CCD]);
    (0x10C8E,[0x10CCE]); (0x10C8F,[0x10CCF]); (0x10C90,[0x10CD0]); (0x10C91,[0x10CD1]);
    (0x10C92,[0x10CD2]); (0x10C93,[0x10CD3]); (0x10C94,[0x10CD4]); (0x10C95,[0x10CD5]);
    (0x10C96,[0x10CD6]); (0x10C97,[0x10CD7]); (0x10C98,[0x10CD8]); (0x10C99,[0x10CD9]);
    (0x10C9A,[0x10CDA]); (0x10C9B,[0x10CDB]); (0x10C9C,[0x10CDC]); (0x10C9D,[0x10CDD]);
    (0x10C9E,[0x10CDE]); (0x10C9F,[0x10CDF]); (0x10CA0,[0x10CE0]); (0x10CA1,[0x10CE1]);
    (0x10CA2,[0x10CE2]); (0x10CA3,[0x10CE3]); (0x10CA4,[0x10CE4]); (0x10CA5,[0x10CE5]);
    (0x10CA6,[0x10CE6]); (0x10CA7,[0x10CE7]); (0x10CA8,[0x10CE8]); (0x10CA9,[0x10CE9]);
    (0x10CAA,[0x10CEA]); (0x10CAB,[0x10CEB]); (0x10CAC,[0x10CEC]); (0x10CAD,[0x10CED]);
    (0x10CAE,[0x10CEE]); (0x10CAF,[0x10CEF]); (0x10CB0,[0x10CF0]); (0x10CB1,[0x10CF1]);
    (0x10CB2,[0x10CF2]); (0x118A0,[0x118C0]); (0x118A1,[0x118C1]); (0x118A2,[0x118C2]);
    (0x118A3,[0x118C3]); (0x118A4,[0x118C4]); (0x118A5,[0x118C5]); (0x118A6,[0x118C6]);
    (0x118A7,[0x118C7]); (0x118A8,[0x118C8]); (0x118A9,[0x118C9]); (0x118AA,[0x118CA]);
    (0x118AB,[0x118CB]); (0x118AC,[0x118CC]); (0x118AD,[0x118CD]); (0x118AE,[0x118CE]);
    (0x118AF,[0x118CF]); (0x118B0,[0x118D0]); (0x118B1,[0x118D1]); (0x118B2,[0x118D2]);
    (0x118B3,[0x118D3]); (0x118B4,[0x118D4]); (0x118B5,[0x118D5]); (0x118B6,[0x118D6]);
    (0x118B7,[0x118D7]); (0x118B8,[0x118D8]); (0x118B9,[0x118D9]); (0x118BA,[0x118DA]);
    (0x118BB,[0x118DB]); (0x118BC,[0x118DC]); (0x118BD,[0x118DD]); (0x118BE,[0x118DE]);
    (0x118BF,[0x118DF]); (0x16E40,[0x16E60]); (0x16E41,[0x16E61]); (0x16E42,[0x16E62]);
    (0x16E43,[0x16E63]); (0x16E44,[0x16E64]); (0x16E45,[0x16E65]); (0x16E46,[0x16E66]);
    (0x16E47,[0x16E67]); (0x16E48,[0x16E68]); (0x16E49,[0x16E69]); (0x16E4A,[0x16E6A]);
    (0x16E4B,[0x16E6B]); (0x16E4C,[0x16E6C]); (0x16E4D,[0x16E6D]); (0x16E4E,[0x16E6E]);
    (0x16E4F,[0x16E6F]); (0x16E50,[0x16E70]); (0x16E51,[0x16E71]); (0x16E52,[0x16E72]);
    (0x16E53,[0x16E73]); (0x16E54,[0x16E74]); (0x16E55,[0x16E75]); (0x16E56,[0x16E76]);
    (0x16E57,[0x16E77]); (0x16E58,[0x16E78]); (0x16E59,[0x16E79]); (0x16E5A,[0x16E7A]);
    (0x16E5B,[0x16E7B]); (0x16E5C,[0x16E7C]); (0x16E5D,[0x16E7D]); (0x16E5E,[0x16E7E]);
    (0x16E5F,[0x16E7F]); (0x1E900,[0x1E922]); (0x1E901,[0x1E923]); (0x1E902,[0x1E924]);
    (0x1E903,[0x1E925]); (0x1E904,[0x1E926]); (0x1E905,[0x1E927]); (0x1E906,[0x1E928]);
    (0x1E907,[0x1E929]); (0x1E908,[0x1E92A]); (0x1E909,[0x1E92B]); (0x1E90A,[0x1E92C]);
    (0x1E90B,[0x1E92D]); (0x1E90C,[0x1E92E]); (0x1E90D,[0x1E92F]); (0x1E90E,[0x1E930]);
    (0x1E90F,[0x1E931]); (0x1E910,[0x1E932]); (0x1E911,[0x1E933]); (0x1E912,[0x1E934]);
    (0x1E913,[0x1E935]); (0x1E914,[0x1E936]); (0x1E915,[0x1E937]); (0x1E916,[0x1E938]);
    (0x1E917,[0x1E939]); (0x1E918,[0x1E93A]); (0x1E919,[0x1E93B]); (0x1E91A,[0x1E93C]);
    (0x1E91B,[0x1E93D]); (0x1E91C,[0x1E93E]); (0x1E91D,[0x1E93F]); (0x1E91E,[0x1E940]);
    (0x1E91F,[0x1E941]); (0x1E920,[0x1E942]); (0x1E921,[0x1E943]) ].

(** Code points whose full titlecase mapping is not themselves, with the mapping. *)
Definition title_table : list (N * list N) :=
  [ (0x61,[0x41]); (0x62,[0x42]); (0x63,[0x43]); (0x64,[0x44]); (0x65,[0x45]); (0x66,[0x46]);
    (0x67,[0x47]); (0x68,[0x48]); (0x69,[0x49]); (0x6A,[0x4A]); (0x6B,[0x4B]); (0x6C,[0x4C]);
    (0x6D,[0x4D]); (0x6E,[0x4E]); (0x6F,[0x4F]); (0x70,[0x50]); (0x71,[0x51]); (0x72,[0x52]);
    (0x73,[0x53]); (0x74,[0x54]); (0x75,[0x55]); (0x76,[0x56]); (0x77,[0x57]); (0x78,[0x58]);
    (0x79,[0x59]); (0x7A,[0x5A]); (0xB5,[0x39C]); (0xDF,[0x53;0x73]); (0xE0,[0xC0]); (0xE1,[0xC1]);
    (0xE2,[0xC2]); (0xE3,[0xC3]); (0xE4,[0xC4]); (0xE5,[0xC5]); (0xE6,[0xC6]); (0xE7,[0xC7]);
    (0xE8,[0xC8]); (0xE9,[0xC9]); (0xEA,[0xCA]); (0xEB,[0xCB]); (0xEC,[0xCC]); (0xED,[0xCD]);
    (0xEE,[0xCE]); (0xEF,[0xCF]); (0xF0,[0xD0]); (0xF1,[0xD1]); (0xF2,[0xD2]); (0xF3,[0xD3]);
    (0xF4,[0xD4]); (0xF5,[0xD5]); (0xF6,[0xD6]); (0xF8,[0xD8]); (0xF9,[0xD9]); (0xFA,[0xDA]);
    (0xFB,[0xDB]); (0xFC,[0xDC]); (0xFD,[0xDD]); (0xFE,[0xDE]); (0xFF,[0x178]); (0x101,[0x100]);
    (0x103,[0x102]); (0x105,[0x104]); (0x107,[0x106]); (0x109,[0x108]); (0x10B,[0x10A]);
    (0x10D,[0x10C]); (0x10F,[0x10E]); (0x111,[0x110]); (0x113,[0x112]); (0x115,[0x114]);
    (0x117,[0x116]); (0x119,[0x118]); (0x11B,[0x11A]); (0x11D,[0x11C]); (0x11F,[0x11E]);
    (0x121,[0x120]); (0x123,[0x122]); (0x125,[0x124]); (0x127,[0x126]); (0x129,[0x128]);
    (0x12B,[0x12A]); (0x12D,[0x12C]); (0x12F,[0x12E]); (0x131,[0x49]); (0x133,[0x132]);
    (0x135,[0x134]); (0x137,[0x136]); (0x13A,[0x139]); (0x13C,[0x13B]); (0x13E,[0x13D]);
    (0x140,[0x13F]); (0x142,[0x141]); (0x144,[0x143]); (0x146,[0x145]); (0x148,[0x147]);
    (0x149,[0x2BC;0x4E]); (0x14B,[0x14A]); (0x14D,[0x14C]); (0x14F,[0x14E]); (0x151,[0x150]);
    (0x153,[0x152]); (0x155,[0x154]); (0x157,[0x156]); (0x159,[0x158]); (0x15B,[0x15A]);
    (0x15D,[0x15C]); (0x15F,[0x15E]); (0x161,[0x160]); (0x163,[0x162]); (0x165,[0x164]);
    (0x167,[0x166]); (0x169,[0x168]); (0x16B,[0x16A]); (0x16D,[0x16C]); (0x16F,[0x16E]);
    (0x171,[0x170]); (0x173,[0x172]); (0x175,[0x174]); (0x177,[0x176]); (0x17A,[0x179]);
    (0x17C,[0x17B]); (0x17E,[0x17D]); (0x17F,[0x53]); (0x180,[0x243]); (0x183,[0x182]);
    (0x185,[0x184]); (0x188,[0x187]); (0x18C,[0x18B]); (0x192,[0x191]); (0x195,[0x1F6]);
    (0x199,[0x198]); (0x19A,[0x23D]); (0x19E,[0x220]); (0x1A1,[0x1A0]); (0x1A3,[0x1A2]);
    (0x1A5,[0x1A4]); (0x1A8,[0x1A7]); (0x1AD,[0x1AC]); (0x1B0,[0x1AF]); (0x1B4,[0x1B3]);
    (0x1B6,[0x1B5]); (0x1B9,[0x1B8]); (0x1BD,[0x1BC]); (0x1BF,[0x1F7]); (0x1C4,[0x1C5]);
    (0x1C6,[0x1C5]); (0x1C7,[0x1C8]); (0x1C9,[0x1C8]); (0x1CA,[0x1CB]); (0x1CC,[0x1CB]);
    (0x1CE,[0x1CD]); (0x1D0,[0x1CF]); (0x1D2,[0x1D1]); (0x1D4,[0x1D3]); (0x1D6,[0x1D5]);
    (0x1D8,[0x1D7]); (0x1DA,[0x1D9]); (0x1DC,[0x1DB]); (0x1DD,[0x18E]); (0x1DF,[0x1DE]);
    (0x1E1,[0x1E0]); (0x1E3,[0x1E2]); (0x1E5,[0x1E4]); (0x1E7,[0x1E6]); (0x1E9,[0x1E8]);
    (0x1EB,[0x1EA]); (0x1ED,[0x1EC]); (0x1EF,[0x1EE]); (0x1F0,[0x4A;0x30C]); (0x1F1,[0x1F2]);
    (0x1F3,[0x1F2]); (0x1F5,[0x1F4]); (0x1F9,[0x1F8]); (0x1FB,[0x1FA]); (0x1FD,[0x1FC]);
    (0x1FF,[0x1FE]); (0x201,[0x200]); (0x203,[0x202]); (0x205,[0x204]); (0x207,[0x206]);
    (0x209,[0x208]); (0x20B,[0x20A]); (0x20D,[0x20C]); (0x20F,[0x20E]); (0x211,[0x210]);
    (0x213,[0x212]); (0x215,[0x214]); (0x217,[0x216]); (0x219,[0x218]); (0x21B,[0x21A]);
    (0x21D,[0x21C]); (0x21F,[0x21E]); (0x223,[0x222]); (0x225,[0x224]); (0x227,[0x226]);
    (0x229,[0x228]); (0x22B,[0x22A]); (0x22D,[0x22C]); (0x22F,[0x22E]); (0x231,[0x230]);
    (0x233,[0x232]); (0x23C,[0x23B]); (0x23F,[0x2C7E]); (0x240,[0x2C7F]); (0x242,[0x241]);
    (0x247,[0x246]); (0x249,[0x248]); (0x24B,[0x24A]); (0x24D,[0x24C]); (0x24F,[0x24E]);
    (0x250,[0x2C6F]); (0x251,[0x2C6D]); (0x252,[0x2C70]); (0x253,[0x181]); (0x254,[0x186]);
    (0x256,[0x189]); (0x257,[0x18A]); (0x259,[0x18F]); (0x25B,[0x190]); (0x25C,[0xA7AB]);
    (0x260,[0x193]); (0x261,[0xA7AC]); (0x263,[0x194]); (0x265,[0xA78D]); (0x266,[0xA7AA]);
    (0x268,[0x197]); (0x269,[0x196]); (0x26A,[0xA7AE]); (0x26B,[0x2C62]); (0x26C,[0xA7AD]);
    (0x26F,[0x19C]); (0x271,[0x2C6E]); (0x272,[0x19D]); (0x275,[0x19F]); (0x27D,[0x2C64]);
    (0x280,[0x1A6]); (0x282,[0xA7C5]); (0x283,[0x1A9]); (0x287,[0xA7B1]); (0x288,[0x1AE]);
    (0x289,[0x244]); (0x28A,[0x1B1]); (0x28B,[0x1B2]); (0x28C,[0x245]); (0x292,[0x1B7]);
    (0x29D,[0xA7B2]); (0x29E,[0xA7B0]); (0x345,[0x399]); (0x371,[0x370]); (0x373,[0x372]);
    (0x377,[0x376]); (0x37B,[0x3FD]); (0x37C,[0x3FE]); (0x37D,[0x3FF]); (0x390,[0x399;0x308;0x301]);
    (0x3AC,[0x386]); (0x3AD,[0x388]); (0x3AE,[0x389]); (0x3AF,[0x38A]); (0x3B0,[0x3A5;0x308;0x301]);
    (0x3B1,[0x391]); (0x3B2,[0x392]); (0x3B3,[0x393]); (0x3B4,[0x394]); (0x3B5,[0x395]);
    (0x3B6,[0x396]); (0x3B7,[0x397]); (0x3B8,[0x398]); (0x3B9,[0x399]); (0x3BA,[0x39A]);
    (0x3BB,[0x39B]); (0x3BC,[0x39C]); (0x3BD,[0x39D]); (0x3BE,[0x39E]); (0x3BF,[0x39F]);
    (0x3C0,[0x3A0]); (0x3C1,[0x3A1]); (0x3C2,[0x3A3]); (0x3C3,[0x3A3]); (0x3C4,[0x3A4]);
    (0x3C5,[0x3A5]); (0x3C6,[0x3A6]); (0x3C7,[0x3A7]); (0x3C8,[0x3A8]); (0x3C9,[0x3A9]);
    (0x3CA,[0x3AA]); (0x3CB,[0x3AB]); (0x3CC,[0x38C]); (0x3CD,[0x38E]); (0x3CE,[0x38F]);
    (0x3D0,[0x392]); (0x3D1,[0x398]); (0x3D5,[0x3A6]); (0x3D6,[0x3A0]); (0x3D7,[0x3CF]);
    (0x3D9,[0x3D8]); (0x3DB,[0x3DA]); (0x3DD,[0x3DC]); (0x3DF,[0x3DE]); (0x3E1,[0x3E0]);
    (0x3E3,[0x3E2]); (0x3E5,[0x3E4]); (0x3E7,[0x3E6]); (0x3E9,[0x3E8]); (0x3EB,[0x3EA]);
    (0x3ED,[0x3EC]); (0x3EF,[0x3EE]); (0x3F0,[0x39A]); (0x3F1,[0x3A1]); (0x3F2,[0x3F9]);
    (0x3F3,[0x37F]); (0x3F5,[0x395]); (0x3F8,[0x3F7]); (0x3FB,[0x3FA]); (0x430,[0x410]);
    (0x431,[0x411]); (0x432,[0x412]); (0x433,[0x413]); (0x434,[0x414]); (0x435,[0x415]);
    (0x436,[0x416]); (0x437,[0x417]); (0x438,[0x418]); (0x439,[0x419]); (0x43A,[0x41A]);
    (0x43B,[0x41B]); (0x43C,[0x41C]); (0x43D,[0x41D]); (0x43E,[0x41E]); (0x43F,[0x41F]);
    (0x440,[0x420]); (0x441,[0x421]); (0x442,[0x422]); (0x443,[0x423]); (0x444,[0x424]);
    (0x445,[0x425]); (0x446,[0x426]); (0x447,[0x427]); (0x448,[0x428]); (0x449,[0x429]);
    (0x44A,[0x42A]); (0x44B,[0x42B]); (0x44C,[0x42C]); (0x44D,[0x42D]); (0x44E,[0x42E]);
    (0x44F,[0x42F]); (0x450,[0x400]); (0x451,[0x401]); (0x452,[0x402]); (0x453,[0x403]);
    (0x454,[0x404]); (0x455,[0x405]); (0x456,[0x406]); (0x457,[0x407]); (0x458,[0x408]);
    (0x459,[0x409]); (0x45A,[0x40A]); (0x45B,[0x40B]); (0x45C,[0x40C]); (0x45D,[0x40D]);
    (0x45E,[0x40E]); (0x45F,[0x40F]); (0x461,[0x460]); (0x463,[0x462]); (0x465,[0x464]);
    (0x467,[0x466]); (0x469,[0x468]); (0x46B,[0x46A]); (0x46D,[0x46C]); (0x46F,[0x46E]);
    (0x471,[0x470]); (0x473,[0x472]); (0x475,[0x474]); (0x477,[0x476]); (0x479,[0x478]);
    (0x47B,[0x47A]); (0x47D,[0x47C]); (0x47F,[0x47E]); (0x481,[0x480]); (0x48B,[0x48A]);
    (0x48D,[0x48C]); (0x48F,[0x48E]); (0x491,[0x490]); (0x493,[0x492]); (0x495,[0x494]);
    (0x497,[0x496]); (0x499,[0x498]); (0x49B,[0x49A]); (0x49D,[0x49C]); (0x49F,[0x49E]);
    (0x4A1,[0x4A0]); (0x4A3,[0x4A2]); (0x4A5,[0x4A4]); (0x4A7,[0x4A6]); (0x4A9,[0x4A8]);
    (0x4AB,[0x4AA]); (0x4AD,[0x4AC]); (0x4AF,[0x4AE]); (0x4B1,[0x4B0]); (0x4B3,[0x4B2]);
    (0x4B5,[0x4B4]); (0x4B7,[0x4B6]); (0x4B9,[0x4B8]); (0x4BB,[0x4BA]); (0x4BD,[0x4BC]);
    (0x4BF,[0x4BE]); (0x4C2,[0x4C1]); (0x4C4,[0x4C3]); (0x4C6,[0x4C5]); (0x4C8,[0x4C7]);
    (0x4CA,[0x4C9]); (0x4CC,[0x4CB]); (0x4CE,[0x4CD]); (0x4CF,[0x4C0]); (0x4D1,[0x4D0]);
    (0x4D3,[0x4D2]); (0x4D5,[0x4D4]); (0x4D7,[0x4D6]); (0x4D9,[0x4D8]); (0x4DB,[0x4DA]);
    (0x4DD,[0x4DC]); (0x4DF,[0x4DE]); (0x4E1,[0x4E0]); (0x4E3,[0x4E2]); (0x4E5,[0x4E4]);
    (0x4E7,[0x4E6]); (0x4E9,[0x4E8]); (0x4EB,[0x4EA]); (0x4ED,[0x4EC]); (0x4EF,[0x4EE]);
    (0x4F1,[0x4F0]); (0x4F3,[0x4F2]); (0x4F5,[0x4F4]); (0x4F7,[0x4F6]); (0x4F9,[0x4F8]);
    (0x4FB,[0x4FA]); (0x4FD,[0x4FC]); (0x4FF,[0x4FE]); (0x501,[0x500]); (0x503,[0x502]);
    (0x505,[0x504]); (0x507,[0x506]); (0x509,[0x508]); (0x50B,[0x50A]); (0x50D,[0x50C]);
    (0x50F,[0x50E]); (0x511,[0x510]); (0x513,[0x512]); (0x515,[0x514]); (0x517,[0x516]);
    (0x519,[0x518]); (0x51B,[0x51A]); (0x51D,[0x51C]); (0x51F,[0x51E]); (0x521,[0x520]);
    (0x523,[0x522]); (0x525,[0x524]); (0x527,[0x526]); (0x529,[0x528]); (0x52B,[0x52A]);
    (0x52D,[0x52C]); (0x52F,[0x52E]); (0x561,[0x531]); (0x562,[0x532]); (0x563,[0x533]);
    (0x564,[0x534]); (0x565,[0x535]); (0x566,[0x536]); (0x567,[0x537]); (0x568,[0x538]);
    (0x569,[0x539]); (0x56A,[0x53A]); (0x56B,[0x53B]); (0x56C,[0x53C]); (0x56D,[0x53D]);
    (0x56E,[0x53E]); (0x56F,[0x53F]); (0x570,[0x540]); (0x571,[0x541]); (0x572,[0x542]);
    (0x573,[0x543]); (0x574,[0x544]); (0x575,[0x545]); (0x576,[0x546]); (0x577,[0x547]);
    (0x578,[0x548]); (0x579,[0x549]); (0x57A,[0x54A]); (0x57B,[0x54B]); (0x57C,[0x54C]);
    (0x57D,[0x54D]); (0x57E,[0x54E]); (0x57F,[0x54F]); (0x580,[0x550]); (0x581,[0x551]);
    (0x582,[0x552]); (0x583,[0x553]); (0x584,[0x554]); (0x585,[0x555]); (0x586,[0x556]);
    (0x587,[0x535;0x582]); (0x13F8,[0x13F0]); (0x13F9,[0x13F1]); (0x13FA,[0x13F2]);
    (0x13FB,[0x13F3]); (0x13FC,[0x13F4]); (0x13FD,[0x13F5]); (0x1C80,[0x412]); (0x1C81,[0x414]);
    (0x1C82,[0x41E]); (0x1C83,[0x421]); (0x1C84,[0x422]); (0x1C85,[0x422]); (0x1C86,[0x42A]);
    (0x1C87,[0x462]); (0x1C88,[0xA64A]); (0x1D79,[0xA77D]); (0x1D7D,[0x2C63]); (0x1D8E,[0xA7C6]);
    (0x1E01,[0x1E00]); (0x1E03,[0x1E02]); (0x1E05,[0x1E04]); (0x1E07,[0x1E06]); (0x1E09,[0x1E08]);
    (0x1E0B,[0x1E0A]); (0x1E0D,[0x1E0C]); (0x1E0F,[0x1E0E]); (0x1E11,[0x1E10]); (0x1E13,[0x1E12]);
    (0x1E15,[0x1E14]); (0x1E17,[0x1E16]); (0x1E19,[0x1E18]); (0x1E1B,[0x1E1A]); (0x1E1D,[0x1E1C]);
    (0x1E1F,[0x1E1E]); (0x1E21,[0x1E20]); (0x1E23,[0x1E22]); (0x1E25,[0x1E24]); (0x1E27,[0x1E26]);
    (0x1E29,[0x1E28]); (0x1E2B,[0x1E2A]); (0x1E2D,[0x1E2C]); (0x1E2F,[0x1E2E]); (0x1E31,[0x1E30]);
    (0x1E33,[0x1E32]); (0x1E35,[0x1E34]); (0x1E37,[0x1E36]); (0x1E39,[0x1E38]); (0x1E3B,[0x1E3A]);
    (0x1E3D,[0x1E3C]); (0x1E3F,[0x1E3E]); (0x1E41,[0x1E40]); (0x1E43,[0x1E42]); (0x1E45,[0x1E44]);
    (0x1E47,[0x1E46]); (0x1E49,[0x1E48]); (0x1E4B,[0x1E4A]); (0x1E4D,[0x1E4C]); (0x1E4F,[0x1E4E]);
    (0x1E51,[0x1E50]); (0x1E53,[0x1E52]); (0x1E55,[0x1E54]); (0x1E57,[0x1E56]); (0x1E59,[0x1E58]);
    (0x1E5B,[0x1E5A]); (0x1E5D,[0x1E5C]); (0x1E5F,[0x1E5E]); (0x1E61,[0x1E60]); (0x1E63,[0x1E62]);
    (0x1E65,[0x1E64]); (0x1E67,[0x1E66]); (0x1E69,[0x1E68]); (0x1E6B,[0x1E6A]); (0x1E6D,[0x1E6C]);
    (0x1E6F,[0x1E6E]); (0x1E71,[0x1E70]); (0x1E73,[0x1E72]); (0x1E75,[0x1E74]); (0x1E77,[0x1E76]);
    (0x1E79,[0x1E78]); (0x1E7B,[0x1E7A]); (0x1E7D,[0x1E7C]); (0x1E7F,[0x1E7E]); (0x1E81,[0x1E80]);
    (0x1E83,[0x1E82]); (0x1E85,[0x1E84]); (0x1E87,[0x1E86]); (0x1E89,[0x1E88]); (0x1E8B,[0x1E8A]);
    (0x1E8D,[0x1E8C]); (0x1E8F,[0x1E8E]); (0x1E91,[0x1E90]); (0x1E93,[0x1E92]); (0x1E95,[0x1E94]);
    (0x1E96,[0x48;0x331]); (0x1E97,[0x54;0x308]); (0x1E98,[0x57;0x30A]); (0x1E99,[0x59;0x30A]);
    (0x1E9A,[0x41;0x2BE]); (0x1E9B,[0x1E60]); (0x1EA1,[0x1EA0]); (0x1EA3,[0x1EA2]);
    (0x1EA5,[0x1EA4]); (0x1EA7,[0x1EA6]); (0x1EA9,[0x1EA8]); (0x1EAB,[0x1EAA]); (0x1EAD,[0x1EAC]);
    (0x1EAF,[0x1EAE]); (0x1EB1,[0x1EB0]); (0x1EB3,[0x1EB2]); (0x1EB5,[0x1EB4]); (0x1EB7,[0x1EB6]);
    (0x1EB9,[0x1EB8]); (0x1EBB,[0x1EBA]); (0x1EBD,[0x1EBC]); (0x1EBF,[0x1EBE]); (0x1EC1,[0x1EC0]);
    (0x1EC3,[0x1EC2]); (0x1EC5,[0x1EC4]); (0x1EC7,[0x1EC6]); (0x1EC9,[0x1EC8]); (0x1ECB,[0x1ECA]);
    (0x1ECD,[0x1ECC]); (0x1ECF,[0x1ECE]); (0x1ED1,[0x1ED0]); (0x1ED3,[0x1ED2]); (0x1ED5,[0x1ED4]);
    (0x1ED7,[0x1ED6]); (0x1ED9,[0x1ED8]); (0x1EDB,[0x1EDA]); (0x1EDD,[0x1EDC]); (0x1EDF,[0x1EDE]);
    (0x1EE1,[0x1EE0]); (0x1EE3,[0x1EE2]); (0x1EE5,[0x1EE4]); (0x1EE7,[0x1EE6]); (0x1EE9,[0x1EE8]);
    (0x1EEB,[0x1EEA]); (0x1EED,[0x1EEC]); (0x1EEF,[0x1EEE]); (0x1EF1,[0x1EF0]); (0x1EF3,[0x1EF2]);
    (0x1EF5,[0x1EF4]); (0x1EF7,[0x1EF6]); (0x1EF9,[0x1EF8]); (0x1EFB,[0x1EFA]); (0x1EFD,[0x1EFC]);
    (0x1EFF,[0x1EFE]); (0x1F00,[0x1F08]); (0x1F01,[0x1F09]); (0x1F02,[0x1F0A]); (0x1F03,[0x1F0B]);
    (0x1F04,[0x1F0C]); (0x1F05,[0x1F0D]); (0x1F06,[0x1F0E]); (0x1F07,[0x1F0F]); (0x1F10,[0x1F18]);
    (0x1F11,[0x1F19]); (0x1F12,[0x1F1A]); (0x1F13,[0x1F1B]); (0x1F14,[0x1F1C]); (0x1F15,[0x1F1D]);
    (0x1F20,[0x1F28]); (0x1F21,[0x1F29]); (0x1F22,[0x1F2A]); (0x1F23,[0x1F2B]); (0x1F24,[0x1F2C]);
    (0x1F25,[0x1F2D]); (0x1F26,[0x1F2E]); (0x1F27,[0x1F2F]); (0x1F30,[0x1F38]); (0x1F31,[0x1F39]);
    (0x1F32,[0x1F3A]); (0x1F33,[0x1F3B]); (0x1F34,[0x1F3C]); (0x1F35,[0x1F3D]); (0x1F36,[0x1F3E]);
    (0x1F37,[0x1F3F]); (0x1F40,[0x1F48]); (0x1F41,[0x1F49]); (0x1F42,[0x1F4A]); (0x1F43,[0x1F4B]);
    (0x1F44,[0x1F4C]); (0x1F45,[0x1F4D]); (0x1F50,[0x3A5;0x313]); (0x1F51,[0x1F59]);
    (0x1F52,[0x3A5;0x313;0x300]); (0x1F53,[0x1F5B]); (0x1F54,[0x3A5;0x313;0x301]);
    (0x1F55,[0x1F5D]); (0x1F56,[0x3A5;0x313;0x342]); (0x1F57,[0x1F5F]); (0x1F60,[0x1F68]);
    (0x1F61,[0x1F69]); (0x1F62,[0x1F6A]); (0x1F63,[0x1F6B]); (0x1F64,[0x1F6C]); (0x1F65,[0x1F6D]);
    (0x1F66,[0x1F6E]); (0x1F67,[0x1F6F]); (0x1F70,[0x1FBA]); (0x1F71,[0x1FBB]); (0x1F72,[0x1FC8]);
    (0x1F73,[0x1FC9]); (0x1F74,[0x1FCA]); (0x1F75,[0x1FCB]); (0x1F76,[0x1FDA]); (0x1F77,[0x1FDB]);
    (0x1F78,[0x1FF8]); (0x1F79,[0x1FF9]); (0x1F7A,[0x1FEA]); (0x1F7B,[0x1FEB]); (0x1F7C,[0x1FFA]);
    (0x1F7D,[0x1FFB]); (0x1F80,[0x1F88]); (0x1F81,[0x1F89]); (0x1F82,[0x1F8A]); (0x1F83,[0x1F8B]);
    (0x1F84,[0x1F8C]); (0x1F85,[0x1F8D]); (0x1F86,[0x1F8E]); (0x1F87,[0x1F8F]); (0x1F90,[0x1F98]);
    (0x1F91,[0x1F99]); (0x1F92,[0x1F9A]); (0x1F93,[0x1F9B]); (0x1F94,[0x1F9C]); (0x1F95,[0x1F9D]);
    (0x1F96,[0x1F9E]); (0x1F97,[0x1F9F]); (0x1FA0,[0x1FA8]); (0x1FA1,[0x1FA9]); (0x1FA2,[0x1FAA]);
    (0x1FA3,[0x1FAB]); (0x1FA4,[0x1FAC]); (0x1FA5,[0x1FAD]); (0x1FA6,[0x1FAE]); (0x1FA7,[0x1FAF]);
    (0x1FB0,[0x1FB8]); (0x1FB1,[0x1FB9]); (0x1FB2,[0x1FBA;0x345]); (0x1FB3,[0x1FBC]);
    (0x1FB4,[0x386;0x345]); (0x1FB6,[0x391;0x342]); (0x1FB7,[0x391;0x342;0x345]); (0x1FBE,[0x399]);
    (0x1FC2,[0x1FCA;0x345]); (0x1FC3,[0x1FCC]); (0x1FC4,[0x389;0x345]); (0x1FC6,[0x397;0x342]);
    (0x1FC7,[0x397;0x342;0x345]); (0x1FD0,[0x1FD8]); (0x1FD1,[0x1FD9]);
    (0x1FD2,[0x399;0x308;0x300]); (0x1FD3,[0x399;0x308;0x301]); (0x1FD6,[0x399;0x342]);
    (0x1FD7,[0x399;0x308;0x342]); (0x1FE0,[0x1FE8]); (0x1FE1,[0x1FE9]);
    (0x1FE2,[0x3A5;0x308;0x300]); (0x1FE3,[0x3A5;0x308;0x301]); (0x1FE4,[0x3A1;0x313]);
    (0x1FE5,[0x1FEC]); (0x1FE6,[0x3A5;0x342]); (0x1FE7,[0x3A5;0x308;0x342]);
    (0x1FF2,[0x1FFA;0x345]); (0x1FF3,[0x1FFC]); (0x1FF4,[0x38F;0x345]); (0x1FF6,[0x3A9;0x342]);
    (0x1FF7,[0x3A9;0x342;0x345]); (0x214E,[0x2132]); (0x2170,[0x2160]); (0x2171,[0x2161]);
    (0x2172,[0x2162]); (0x2173,[0x2163]); (0x2174,[0x2164]); (0x2175,[0x2165]); (0x2176,[0x2166]);
    (0x2177,[0x2167]); (0x2178,[0x2168]); (0x2179,[0x2169]); (0x217A,[0x216A]); (0x217B,[0x216B]);
    (0x217C,[0x216C]); (0x217D,[0x216D]); (0x217E,[0x216E]); (0x217F,[0x216F]); (0x2184,[0x2183]);
    (0x24D0,[0x24B6]); (0x24D1,[0x24B7]); (0x24D2,[0x24B8]); (0x24D3,[0x24B9]); (0x24D4,[0x24BA]);
    (0x24D5,[0x24BB]); (0x24D6,[0x24BC]); (0x24D7,[0x24BD]); (0x24D8,[0x24BE]); (0x24D9,[0x24BF]);
    (0x24DA,[0x24C0]); (0x24DB,[0x24C1]); (0x24DC,[0x24C2]); (0x24DD,[0x24C3]); (0x24DE,[0x24C4]);
    (0x24DF,[0x24C5]); (0x24E0,[0x24C6]); (0x24E1,[0x24C7]); (0x24E2,[0x24C8]); (0x24E3,[0x24C9]);
    (0x24E4,[0x24CA]); (0x24E5,[0x24CB]); (0x24E6,[0x24CC]); (0x24E7,[0x24CD]); (0x24E8,[0x24CE]);
    (0x24E9,[0x24CF]); (0x2C30,[0x2C00]); (0x2C31,[0x2C01]); (0x2C32,[0x2C02]); (0x2C33,[0x2C03]);
    (0x2C34,[0x2C04]); (0x2C35,[0x2C05]); (0x2C36,[0x2C06]); (0x2C37,[0x2C07]); (0x2C38,[0x2C08]);
    (0x2C39,[0x2C09]); (0x2C3A,[0x2C0A]); (0x2C3B,[0x2C0B]); (0x2C3C,[0x2C0C]); (0x2C3D,[0x2C0D]);
    (0x2C3E,[0x2C0E]); (0x2C3F,[0x2C0F]); (0x2C40,[0x2C10]); (0x2C41,[0x2C11]); (0x2C42,[0x2C12]);
    (0x2C43,[0x2C13]); (0x2C44,[0x2C14]); (0x2C45,[0x2C15]); (0x2C46,[0x2C16]); (0x2C47,[0x2C17]);
    (0x2C48,[0x2C18]); (0x2C49,[0x2C19]); (0x2C4A,[0x2C1A]); (0x2C4B,[0x2C1B]); (0x2C4C,[0x2C1C]);
    (0x2C4D,[0x2C1D]); (0x2C4E,[0x2C1E]); (0x2C4F,[0x2C1F]); (0x2C50,[0x2C20]); (0x2C51,[0x2C21]);
    (0x2C52,[0x2C22]); (0x2C53,[0x2C23]); (0x2C54,[0x2C24]); (0x2C55,[0x2C25]); (0x2C56,[0x2C26]);
    (0x2C57,[0x2C27]); (0x2C58,[0x2C28]); (0x2C59,[0x2C29]); (0x2C5A,[0x2C2A]); (0x2C5B,[0x2C2B]);
    (0x2C5C,[0x2C2C]); (0x2C5D,[0x2C2D]); (0x2C5E,[0x2C2E]); (0x2C5F,[0x2C2F]); (0x2C61,[0x2C60]);
    (0x2C65,[0x23A]); (0x2C66,[0x23E]); (0x2C68,[0x2C67]); (0x2C6A,[0x2C69]); (0x2C6C,[0x2C6B]);
    (0x2C73,[0x2C72]); (0x2C76,[0x2C75]); (0x2C81,[0x2C80]); (0x2C83,[0x2C82]); (0x2C85,[0x2C84]);
    (0x2C87,[0x2C86]); (0x2C89,[0x2C88]); (0x2C8B,[0x2C8A]); (0x2C8D,[0x2C8C]); (0x2C8F,[0x2C8E]);
    (0x2C91,[0x2C90]); (0x2C93,[0x2C92]); (0x2C95,[0x2C94]); (0x2C97,[0x2C96]); (0x2C99,[0x2C98]);
    (0x2C9B,[0x2C9A]); (0x2C9D,[0x2C9C]); (0x2C9F,[0x2C9E]); (0x2CA1,[0x2CA0]); (0x2CA3,[0x2CA2]);
    (0x2CA5,[0x2CA4]); (0x2CA7,[0x2CA6]); (0x2CA9,[0x2CA8]); (0x2CAB,[0x2CAA]); (0x2CAD,[0x2CAC]);
    (0x2CAF,[0x2CAE]); (0x2CB1,[0x2CB0]); (0x2CB3,[0x2CB2]); (0x2CB5,[0x2CB4]); (0x2CB7,[0x2CB6]);
    (0x2CB9,[0x2CB8]); (0x2CBB,[0x2CBA]); (0x2CBD,[0x2CBC]); (0x2CBF,[0x2CBE]); (0x2CC1,[0x2CC0]);
    (0x2CC3,[0x2CC2]); (0x2CC5,[0x2CC4]); (0x2CC7,[0x2CC6]); (0x2CC9,[0x2CC8]); (0x2CCB,[0x2CCA]);
    (0x2CCD,[0x2CCC]); (0x2CCF,[0x2CCE]); (0x2CD1,[0x2CD0]); (0x2CD3,[0x2CD2]); (0x2CD5,[0x2CD4]);
    (0x2CD7,[0x2CD6]); (0x2CD9,[0x2CD8]); (0x2CDB,[0x2CDA]); (0x2CDD,[0x2CDC]); (0x2CDF,[0x2CDE]);
    (0x2CE1,[0x2CE0]); (0x2CE3,[0x2CE2]); (0x2CEC,[0x2CEB]); (0x2CEE,[0x2CED]); (0x2CF3,[0x2CF2]);
    (0x2D00,[0x10A0]); (0x2D01,[0x10A1]); (0x2D02,[0x10A2]); (0x2D03,[0x10A3]); (0x2D04,[0x10A4]);
    (0x2D05,[0x10A5]); (0x2D06,[0x10A6]); (0x2D07,[0x10A7]); (0x2D08,[0x10A8]); (0x2D09,[0x10A9]);
    (0x2D0A,[0x10AA]); (0x2D0B,[0x10AB]); (0x2D0C,[0x10AC]); (0x2D0D,[0x10AD]); (0x2D0E,[0x10AE]);
    (0x2D0F,[0x10AF]); (0x2D10,[0x10B0]); (0x2D11,[0x10B1]); (0x2D12,[0x10B2]); (0x2D13,[0x10B3]);
    (0x2D14,[0x10B4]); (0x2D15,[0x10B5]); (0x2D16,[0x10B6]); (0x2D17,[0x10B7]); (0x2D18,[0x10B8]);
    (0x2D19,[0x10B9]); (0x2D1A,[0x10BA]); (0x2D1B,[0x10BB]); (0x2D1C,[0x10BC]); (0x2D1D,[0x10BD]);
    (0x2D1E,[0x10BE]); (0x2D1F,[0x10BF]); (0x2D20,[0x10C0]); (0x2D21,[0x10C1]); (0x2D22,[0x10C2]);
    (0x2D23,[0x10C3]); (0x2D24,[0x10C4]); (0x2D25,[0x10C5]); (0x2D27,[0x10C7]); (0x2D2D,[0x10CD]);
    (0xA641,[0xA640]); (0xA643,[0xA642]); (0xA645,[0xA644]); (0xA647,[0xA646]); (0xA649,[0xA648]);
    (0xA64B,[0xA64A]); (0xA64D,[0xA64C]); (0xA64F,[0xA64E]); (0xA651,[0xA650]); (0xA653,[0xA652]);
    (0xA655,[0xA654]); (0xA657,[0xA656]); (0xA659,[0xA658]); (0xA65B,[0xA65A]); (0xA65D,[0xA65C]);
    (0xA65F,[0xA65E]); (0xA661,[0xA660]); (0xA663,[0xA662]); (0xA665,[0xA664]); (0xA667,[0xA666]);
    (0xA669,[0xA668]); (0xA66B,[0xA66A]); (0xA66D,[0xA66C]); (0xA681,[0xA680]); (0xA683,[0xA682]);
    (0xA685,[0xA684]); (0xA687,[0xA686]); (0xA689,[0xA688]); (0xA68B,[0xA68A]); (0xA68D,[0xA68C]);
    (0xA68F,[0xA68E]); (0xA691,[0xA690]); (0xA693,[0xA692]); (0xA695,[0xA694]); (0xA697,[0xA696]);
    (0xA699,[0xA698]); (0xA69B,[0xA69A]); (0xA723,[0xA722]); (0xA725,[0xA724]); (0xA727,[0xA726]);
    (0xA729,[0xA728]); (0xA72B,[0xA72A]); (0xA72D,[0xA72C]); (0xA72F,[0xA72E]); (0xA733,[0xA732]);
    (0xA735,[0xA734]); (0xA737,[0xA736]); (0xA739,[0xA738]); (0xA73B,[0xA73A]); (0xA73D,[0xA73C]);
    (0xA73F,[0xA73E]); (0xA741,[0xA740]); (0xA743,[0xA742]); (0xA745,[0xA744]); (0xA747,[0xA746]);
    (0xA749,[0xA748]); (0xA74B,[0xA74A]); (0xA74D,[0xA74C]); (0xA74F,[0xA74E]); (0xA751,[0xA750]);
    (0xA753,[0xA752]); (0xA755,[0xA754]); (0xA757,[0xA756]); (0xA759,[0xA758]); (0xA75B,[0xA75A]);
    (0xA75D,[0xA75C]); (0xA75F,[0xA75E]); (0xA761,[0xA760]); (0xA763,[0xA762]); (0xA765,[0xA764]);
    (0xA767,[0xA766]); (0xA769,[0xA768]); (0xA76B,[0xA76A]); (0xA76D,[0xA76C]); (0xA76F,[0xA76E]);
    (0xA77A,[0xA779]); (0xA77C,[0xA77B]); (0xA77F,[0xA77E]); (0xA781,[0xA780]); (0xA783,[0xA782]);
    (0xA785,[0xA784]); (0xA787,[0xA786]); (0xA78C,[0xA78B]); (0xA791,[0xA790]); (0xA793,[0xA792]);
    (0xA794,[0xA7C4]); (0xA797,[0xA796]); (0xA799,[0xA798]); (0xA79B,[0xA79A]); (0xA79D,[0xA79C]);
    (0xA79F,[0xA79E]); (0xA7A1,[0xA7A0]); (0xA7A3,[0xA7A2]); (0xA7A5,[0xA7A4]); (0xA7A7,[0xA7A6]);
    (0xA7A9,[0xA7A8]); (0xA7B5,[0xA7B4]); (0xA7B7,[0xA7B6]); (0xA7B9,[0xA7B8]); (0xA7BB,[0xA7BA]);
    (0xA7BD,[0xA7BC]); (0xA7BF,[0xA7BE]); (0xA7C1,[0xA7C0]); (0xA7C3,[0xA7C2]); (0xA7C8,[0xA7C7]);
    (0xA7CA,[0xA7C9]); (0xA7D1,[0xA7D0]); (0xA7D7,[0xA7D6]); (0xA7D9,[0xA7D8]); (0xA7F6,[0xA7F5]);
    (0xAB53,[0xA7B3]); (0xAB70,[0x13A0]); (0xAB71,[0x13A1]); (0xAB72,[0x13A2]); (0xAB73,[0x13A3]);
    (0xAB74,[0x13A4]); (0xAB75,[0x13A5]); (0xAB76,[0x13A6]); (0xAB77,[0x13A7]); (0xAB78,[0x13A8]);
    (0xAB79,[0x13A9]); (0xAB7A,[0x13AA]); (0xAB7B,[0x13AB]); (0xAB7C,[0x13AC]); (0xAB7D,[0x13AD]);
    (0xAB7E,[0x13AE]); (0xAB7F,[0x13AF]); (0xAB80,[0x13B0]); (0xAB81,[0x13B1]); (0xAB82,[0x13B2]);
    (0xAB83,[0x13B3]); (0xAB84,[0x13B4]); (0xAB85,[0x13B5]); (0xAB86,[0x13B6]); (0xAB87,[0x13B7]);
    (0xAB88,[0x13B8]); (0xAB89,[0x13B9]); (0xAB8A,[0x13BA]); (0xAB8B,[0x13BB]); (0xAB8C,[0x13BC]);
    (0xAB8D,[0x13BD]); (0xAB8E,[0x13BE]); (0xAB8F,[0x13BF]); (0xAB90,[0x13C0]); (0xAB91,[0x13C1]);
    (0xAB92,[0x13C2]); (0xAB93,[0x13C3]); (0xAB94,[0x13C4]); (0xAB95,[0x13C5]); (0xAB96,[0x13C6]);
    (0xAB97,[0x13C7]); (0xAB98,[0x13C8]); (0xAB99,[0x13C9]); (0xAB9A,[0x13CA]); (0xAB9B,[0x13CB]);
    (0xAB9C,[0x13CC]); (0xAB9D,[0x13CD]); (0xAB9E,[0x13CE]); (0xAB9F,[0x13CF]); (0xABA0,[0x13D0]);
    (0xABA1,[0x13D1]); (0xABA2,[0x13D2]); (0xABA3,[0x13D3]); (0xABA4,[0x13D4]); (0xABA5,[0x13D5]);
    (0xABA6,[0x13D6]); (0xABA7,[0x13D7]); (0xABA8,[0x13D8]); (0xABA9,[0x13D9]); (0xABAA,[0x13DA]);
    (0xABAB,[0x13DB]); (0xABAC,[0x13DC]); (0xABAD,[0x13DD]); (0xABAE,[0x13DE]); (0xABAF,[0x13DF]);
    (0xABB0,[0x13E0]); (0xABB1,[0x13E1]); (0xABB2,[0x13E2]); (0xABB3,[0x13E3]); (0xABB4,[0x13E4]);
    (0xABB5,[0x13E5]); (0xABB6,[0x13E6]); (0xABB7,[0x13E7]); (0xABB8,[0x13E8]); (0xABB9,[0x13E9]);
    (0xABBA,[0x13EA]); (0xABBB,[0x13EB]); (0xABBC,[0x13EC]); (0xABBD,[0x13ED]); (0xABBE,[0x13EE]);
    (0xABBF,[0x13EF]); (0xFB00,[0x46;0x66]); (0xFB01,[0x46;0x69]); (0xFB02,[0x46;0x6C]);
    (0xFB03,[0x46;0x66;0x69]); (0xFB04,[0x46;0x66;0x6C]); (0xFB05,[0x53;0x74]);
    (0xFB06,[0x53;0x74]); (0xFB13,[0x544;0x576]); (0xFB14,[0x544;0x565]); (0xFB15,[0x544;0x56B]);
    (0xFB16,[0x54E;0x576]); (0xFB17,[0x544;0x56D]); (0xFF41,[0xFF21]); (0xFF42,[0xFF22]);
    (0xFF43,[0xFF23]); (0xFF44,[0xFF24]); (0xFF45,[0xFF25]); (0xFF46,[0xFF26]); (0xFF47,[0xFF27]);
    (0xFF48,[0xFF28]); (0xFF49,[0xFF29]); (0xFF4A,[0xFF2A]); (0xFF4B,[0xFF2B]); (0xFF4C,[0xFF2C]);
    (0xFF4D,[0xFF2D]); (0xFF4E,[0xFF2E]); (0xFF4F,[0xFF2F]); (0xFF50,[0xFF30]); (0xFF51,[0xFF31]);
    (0xFF52,[0xFF32]); (0xFF53,[0xFF33]); (0xFF54,[0xFF34]); (0xFF55,[0xFF35]); (0xFF56,[0xFF36]);
    (0xFF57,[0xFF37]); (0xFF58,[0xFF38]); (0xFF59,[0xFF39]); (0xFF5A,[0xFF3A]); (0x10428,[0x10400]);
    (0x10429,[0x10401]); (0x1042A,[0x10402]); (0x1042B,[0x10403]); (0x1042C,[0x10404]);
    (0x1042D,[0x10405]); (0x1042E,[0x10406]); (0x1042F,[0x10407]); (0x10430,[0x10408]);
    (0x10431,[0x10409]); (0x10432,[0x1040A]); (0x10433,[0x1040B]); (0x10434,[0x1040C]);
    (0x10435,[0x1040D]); (0x10436,[0x1040E]); (0x10437,[0x1040F]); (0x10438,[0x10410]);
    (0x10439,[0x10411]); (0x1043A,[0x10412]); (0x1043B,[0x10413]); (0x1043C,[0x10414]);
    (0x1043D,[0x10415]); (0x1043E,[0x10416]); (0x1043F,[0x10417]); (0x10440,[0x10418]);
    (0x10441,[0x10419]); (0x10442,[0x1041A]); (0x10443,[0x1041B]); (0x10444,[0x1041C]);
    (0x10445,[0x1041D]); (0x10446,[0x1041E]); (0x10447,[0x1041F]); (0x10448,[0x10420]);
    (0x10449,[0x10421]); (0x1044A,[0x10422]); (0x1044B,[0x10423]); (0x1044C,[0x10424]);
    (0x1044D,[0x10425]); (0x1044E,[0x10426]); (0x1044F,[0x10427]); (0x104D8,[0x104B0]);
    (0x104D9,[0x104B1]); (0x104DA,[0x104B2]); (0x104DB,[0x104B3]); (0x104DC,[0x104B4]);
    (0x104DD,[0x104B5]); (0x104DE,[0x104B6]); (0x104DF,[0x104B7]); (0x104E0,[0x104B8]);
    (0x104E1,[0x104B9]); (0x104E2,[0x104BA]); (0x104E3,[0x104BB]); (0x104E4,[0x104BC]);
    (0x104E5,[0x104BD]); (0x104E6,[0x104BE]); (0x104E7,[0x104BF]); (0x104E8,[0x104C0]);
    (0x104E9,[0x104C1]); (0x104EA,[0x104C2]); (0x104EB,[0x104C3]); (0x104EC,[0x104C4]);
    (0x104ED,[0x104C5]); (0x104EE,[0x104C6]); (0x104EF,[0x104C7]); (0x104F0,[0x104C8]);
    (0x104F1,[0x104C9]); (0x104F2,[0x104CA]); (0x104F3,[0x104CB]); (0x104F4,[0x104CC]);
    (0x104F5,[0x104CD]); (0x104F6,[0x104CE]); (0x104F7,[0x104CF]); (0x104F8,[0x104D0]);
    (0x104F9,[0x104D1]); (0x104FA,[0x104D2]); (0x104FB,[0x104D3]); (0x10597,[0x10570]);
    (0x10598,[0x10571]); (0x10599,[0x10572]); (0x1059A,[0x10573]); (0x1059B,[0x10574]);
    (0x1059C,[0x10575]); (0x1059D,[0x10576]); (0x1059E,[0x10577]); (0x1059F,[0x10578]);
    (0x105A0,[0x10579]); (0x105A1,[0x1057A]); (0x105A3,[0x1057C]); (0x105A4,[0x1057D]);
    (0x105A5,[0x1057E]); (0x105A6,[0x1057F]); (0x105A7,[0x10580]); (0x105A8,[0x10581]);
    (0x105A9,[0x10582]); (0x105AA,[0x10583]); (0x105AB,[0x10584]); (0x105AC,[0x10585]);
    (0x105AD,[0x10586]); (0x105AE,[0x10587]); (0x105AF,[0x10588]); (0x105B0,[0x10589]);
    (0x105B1,[0x1058A]); (0x105B3,[0x1058C]); (0x105B4,[0x1058D]); (0x105B5,[0x1058E]);
    (0x105B6,[0x1058F]); (0x105B7,[0x10590]); (0x105B8,[0x10591]); (0x105B9,[0x10592]);
    (0x105BB,[0x10594]); (0x105BC,[0x10595]); (0x10CC0,[0x10C80]); (0x10CC1,[0x10C81]);
    (0x10CC2,[0x10C82]); (0x10CC3,[0x10C83]); (0x10CC4,[0x10C84]); (0x10CC5,[0x10C85]);
    (0x10CC6,[0x10C86]); (0x10CC7,[0x10C87]); (0x10CC8,[0x10C88]); (0x10CC9,[0x10C89]);
    (0x10CCA,[0x10C8A]); (0x10CCB,[0x10C8B]); (0x10CCC,[0x10C8C]); (0x10CCD,[0x10C8D]);
    (0x10CCE,[0x10C8E]); (0x10CCF,[0x10C8F]); (0x10CD0,[0x10C90]); (0x10CD1,[0x10C91]);
    (0x10CD2,[0x10C92]); (0x10CD3,[0x10C93]); (0x10CD4,[0x10C94]); (0x10CD5,[0x10C95]);
    (0x10CD6,[0x10C96]); (0x10CD7,[0x10C97]); (0x10CD8,[0x10C98]); (0x10CD9,[0x10C99]);
    (0x10CDA,[0x10C9A]); (0x10CDB,[0x10C9B]); (0x10CDC,[0x10C9C]); (0x10CDD,[0x10C9D]);
    (0x10CDE,[0x10C9E]); (0x10CDF,[0x10C9F]); (0x10CE0,[0x10CA0]); (0x10CE1,[0x10CA1]);
    (0x10CE2,[0x10CA2]); (0x10CE3,[0x10CA3]); (0x10CE4,[0x10CA4]); (0x10CE5,[0x10CA5]);
    (0x10CE6,[0x10CA6]); (0x10CE7,[0x10CA7]); (0x10CE8,[0x10CA8]); (0x10CE9,[0x10CA9]);
    (0x10CEA,[0x10CAA]); (0x10CEB,[0x10CAB]); (0x10CEC,[0x10CAC]); (0x10CED,[0x10CAD]);
    (0x10CEE,[0x10CAE]); (0x10CEF,[0x10CAF]); (0x10CF0,[0x10CB0]); (0x10CF1,[0x10CB1]);
    (0x10CF2,[0x10CB2]); (0x118C0,[0x118A0]); (0x118C1,[0x118A1]); (0x118C2,[0x118A2]);
    (0x118C3,[0x118A3]); (0x118C4,[0x118A4]); (0x118C5,[0x118A5]); (0x118C6,[0x118A6]);
    (0x118C7,[0x118A7]); (0x118C8,[0x118A8]); (0x118C9,[0x118A9]); (0x118CA,[0x118AA]);
    (0x118CB,[0x118AB]); (0x118CC,[0x118AC]); (0x118CD,[0x118AD]); (0x118CE,[0x118AE]);
    (0x118CF,[0x118AF]); (0x118D0,[0x118B0]); (0x118D1,[0x118B1]); (0x118D2,[0x118B2]);
    (0x118D3,[0x118B3]); (0x118D4,[0x118B4]); (0x118D5,[0x118B5]); (0x118D6,[0x118B6]);
    (0x118D7,[0x118B7]); (0x118D8,[0x118B8]); (0x118D9,[0x118B9]); (0x118DA,[0x118BA]);
    (0x118DB,[0x118BB]); (0x118DC,[0x118BC]); (0x118DD,[0x118BD]); (0x118DE,[0x118BE]);
    (0x118DF,[0x118BF]); (0x16E60,[0x16E40]); (0x16E61,[0x16E41]); (0x16E62,[0x16E42]);
    (0x16E63,[0x16E43]); (0x16E64,[0x16E44]); (0x16E65,[0x16E45]); (0x16E66,[0x16E46]);
    (0x16E67,[0x16E47]); (0x16E68,[0x16E48]); (0x16E69,[0x16E49]); (0x16E6A,[0x16E4A]);
    (0x16E6B,[0x16E4B]); (0x16E6C,[0x16E4C]); (0x16E6D,[0x16E4D]); (0x16E6E,[0x16E4E]);
    (0x16E6F,[0x16E4F]); (0x16E70,[0x16E50]); (0x16E71,[0x16E51]); (0x16E72,[0x16E52]);
    (0x16E73,[0x16E53]); (0x16E74,[0x16E54]); (0x16E75,[0x16E55]); (0x16E76,[0x16E56]);
    (0x16E77,[0x16E57]); (0x16E78,[0x16E58]); (0x16E79,[0x16E59]); (0x16E7A,[0x16E5A]);
    (0x16E7B,[0x16E5B]); (0x16E7C,[0x16E5C]); (0x16E7D,[0x16E5D]); (0x16E7E,[0x16E5E]);
    (0x16E7F,[0x16E5F]); (0x1E922,[0x1E900]); (0x1E923,[0x1E901]); (0x1E924,[0x1E902]);
    (0x1E925,[0x1E903]); (0x1E926,[0x1E904]); (0x1E927,[0x1E905]); (0x1E928,[0x1E906]);
    (0x1E929,[0x1E907]); (0x1E92A,[0x1E908]); (0x1E92B,[0x1E909]); (0x1E92C,[0x1E90A]);
    (0x1E92D,[0x1E90B]); (0x1E92E,[0x1E90C]); (0x1E92F,[0x1E90D]); (0x1E930,[0x1E90E]);
    (0x1E931,[0x1E90F]); (0x1E932,[0x1E910]); (0x1E933,[0x1E911]); (0x1E934,[0x1E912]);
    (0x1E935,[0x1E913]); (0x1E936,[0x1E914]); (0x1E937,[0x1E915]); (0x1E938,[0x1E916]);
    (0x1E939,[0x1E917]); (0x1E93A,[0x1E918]); (0x1E93B,[0x1E919]); (0x1E93C,[0x1E91A]);
    (0x1E93D,[0x1E91B]); (0x1E93E,[0x1E91C]); (0x1E93F,[0x1E91D]); (0x1E940,[0x1E91E]);
    (0x1E941,[0x1E91F]); (0x1E942,[0x1E920]); (0x1E943,[0x1E921]) ].

(** Code points whose full uppercase mapping is not themselves, with the mapping. *)
Definition upper_table : list (N * list N) :=
  [ (0x61,[0x41]); (0x62,[0x42]); (0x63,[0x43]); (0x64,[0x44]); (0x65,[0x45]); (0x66,[0x46]);
    (0x67,[0x47]); (0x68,[0x48]); (0x69,[0x49]); (0x6A,[0x4A]); (0x6B,[0x4B]); (0x6C,[0x4C]);
    (0x6D,[0x4D]); (0x6E,[0x4E]); (0x6F,[0x4F]); (0x70,[0x50]); (0x71,[0x51]); (0x72,[0x52]);
    (0x73,[0x53]); (0x74,[0x54]); (0x75,[0x55]); (0x76,[0x56]); (0x77,[0x57]); (0x78,[0x58]);
    (0x79,[0x59]); (0x7A,[0x5A]); (0xB5,[0x39C]); (0xDF,[0x53;0x53]); (0xE0,[0xC0]); (0xE1,[0xC1]);
    (0xE2,[0xC2]); (0xE3,[0xC3]); (0xE4,[0xC4]); (0xE5,[0xC5]); (0xE6,[0xC6]); (0xE7,[0xC7]);
    (0xE8,[0xC8]); (0xE9,[0xC9]); (0xEA,[0xCA]); (0xEB,[0xCB]); (0xEC,[0xCC]); (0xED,[0xCD]);
    (0xEE,[0xCE]); (0xEF,[0xCF]); (0xF0,[0xD0]); (0xF1,[0xD1]); (0xF2,[0xD2]); (0xF3,[0xD3]);
    (0xF4,[0xD4]); (0xF5,[0xD5]); (0xF6,[0xD6]); (0xF8,[0xD8]); (0xF9,[0xD9]); (0xFA,[0xDA]);
    (0xFB,[0xDB]); (0xFC,[0xDC]); (0xFD,[0xDD]); (0xFE,[0xDE]); (0xFF,[0x178]); (0x101,[0x100]);
    (0x103,[0x102]); (0x105,[0x104]); (0x107,[0x106]); (0x109,[0x108]); (0x10B,[0x10A]);
    (0x10D,[0x10C]); (0x10F,[0x10E]); (0x111,[0x110]); (0x113,[0x112]); (0x115,[0x114]);
    (0x117,[0x116]); (0x119,[0x118]); (0x11B,[0x11A]); (0x11D,[0x11C]); (0x11F,[0x11E]);
    (0x121,[0x120]); (0x123,[0x122]); (0x125,[0x124]); (0x127,[0x126]); (0x129,[0x128]);
    (0x12B,[0x12A]); (0x12D,[0x12C]); (0x12F,[0x12E]); (0x131,[0x49]); (0x133,[0x132]);
    (0x135,[0x134]); (0x137,[0x136]); (0x13A,[0x139]); (0x13C,[0x13B]); (0x13E,[0x13D]);
    (0x140,[0x13F]); (0x142,[0x141]); (0x144,[0x143]); (0x146,[0x145]); (0x148,[0x147]);
    (0x149,[0x2BC;0x4E]); (0x14B,[0x14A]); (0x14D,[0x14C]); (0x14F,[0x14E]); (0x151,[0x150]);
    (0x153,[0x152]); (0x155,[0x154]); (0x157,[0x156]); (0x159,[0x158]); (0x15B,[0x15A]);
    (0x15D,[0x15C]); (0x15F,[0x15E]); (0x161,[0x160]); (0x163,[0x162]); (0x165,[0x164]);
    (0x167,[0x166]); (0x169,[0x168]); (0x16B,[0x16A]); (0x16D,[0x16C]); (0x16F,[0x16E]);
    (0x171,[0x170]); (0x173,[0x172]); (0x175,[0x174]); (0x177,[0x176]); (0x17A,[0x179]);
    (0x17C,[0x17B]); (0x17E,[0x17D]); (0x17F,[0x53]); (0x180,[0x243]); (0x183,[0x182]);
    (0x185,[0x184]); (0x188,[0x187]); (0x18C,[0x18B]); (0x192,[0x191]); (0x195,[0x1F6]);
    (0x199,[0x198]); (0x19A,[0x23D]); (0x19E,[0x220]); (0x1A1,[0x1A0]); (0x1A3,[0x1A2]);
    (0x1A5,[0x1A4]); (0x1A8,[0x1A7]); (0x1AD,[0x1AC]); (0x1B0,[0x1AF]); (0x1B4,[0x1B3]);
    (0x1B6,[0x1B5]); (0x1B9,[0x1B8]); (0x1BD,[0x1BC]); (0x1BF,[0x1F7]); (0x1C5,[0x1C4]);
    (0x1C6,[0x1C4]); (0x1C8,[0x1C7]); (0x1C9,[0x1C7]); (0x1CB,[0x1CA]); (0x1CC,[0x1CA]);
    (0x1CE,[0x1CD]); (0x1D0,[0x1CF]); (0x1D2,[0x1D1]); (0x1D4,[0x1D3]); (0x1D6,[0x1D5]);
    (0x1D8,[0x1D7]); (0x1DA,[0x1D9]); (0x1DC,[0x1DB]); (0x1DD,[0x18E]); (0x1DF,[0x1DE]);
    (0x1E1,[0x1E0]); (0x1E3,[0x1E2]); (0x1E5,[0x1E4]); (0x1E7,[0x1E6]); (0x1E9,[0x1E8]);
    (0x1EB,[0x1EA]); (0x1ED,[0x1EC]); (0x1EF,[0x1EE]); (0x1F0,[0x4A;0x30C]); (0x1F2,[0x1F1]);
    (0x1F3,[0x1F1]); (0x1F5,[0x1F4]); (0x1F9,[0x1F8]); (0x1FB,[0x1FA]); (0x1FD,[0x1FC]);
    (0x1FF,[0x1FE]); (0x201,[0x200]); (0x203,[0x202]); (0x205,[0x204]); (0x207,[0x206]);
    (0x209,[0x208]); (0x20B,[0x20A]); (0x20D,[0x20C]); (0x20F,[0x20E]); (0x211,[0x210]);
    (0x213,[0x212]); (0x215,[0x214]); (0x217,[0x216]); (0x219,[0x218]); (0x21B,[0x21A]);
    (0x21D,[0x21C]); (0x21F,[0x21E]); (0x223,[0x222]); (0x225,[0x224]); (0x227,[0x226]);
    (0x229,[0x228]); (0x22B,[0x22A]); (0x22D,[0x22C]); (0x22F,[0x22E]); (0x231,[0x230]);
    (0x233,[0x232]); (0x23C,[0x23B]); (0x23F,[0x2C7E]); (0x240,[0x2C7F]); (0x242,[0x241]);
    (0x247,[0x246]); (0x249,[0x248]); (0x24B,[0x24A]); (0x24D,[0x24C]); (0x24F,[0x24E]);
    (0x250,[0x2C6F]); (0x251,[0x2C6D]); (0x252,[0x2C70]); (0x253,[0x181]); (0x254,[0x186]);
    (0x256,[0x189]); (0x257,[0x18A]); (0x259,[0x18F]); (0x25B,[0x190]); (0x25C,[0xA7AB]);
    (0x260,[0x193]); (0x261,[0xA7AC]); (0x263,[0x194]); (0x265,[0xA78D]); (0x266,[0xA7AA]);
    (0x268,[0x197]); (0x269,[0x196]); (0x26A,[0xA7AE]); (0x26B,[0x2C62]); (0x26C,[0xA7AD]);
    (0x26F,[0x19C]); (0x271,[0x2C6E]); (0x272,[0x19D]); (0x275,[0x19F]); (0x27D,[0x2C64]);
    (0x280,[0x1A6]); (0x282,[0xA7C5]); (0x283,[0x1A9]); (0x287,[0xA7B1]); (0x288,[0x1AE]);
    (0x289,[0x244]); (0x28A,[0x1B1]); (0x28B,[0x1B2]); (0x28C,[0x245]); (0x292,[0x1B7]);
    (0x29D,[0xA7B2]); (0x29E,[0xA7B0]); (0x345,[0x399]); (0x371,[0x370]); (0x373,[0x372]);
    (0x377,[0x376]); (0x37B,[0x3FD]); (0x37C,[0x3FE]); (0x37D,[0x3FF]); (0x390,[0x399;0x308;0x301]);
    (0x3AC,[0x386]); (0x3AD,[0x388]); (0x3AE,[0x389]); (0x3AF,[0x38A]); (0x3B0,[0x3A5;0x308;0x301]);
    (0x3B1,[0x391]); (0x3B2,[0x392]); (0x3B3,[0x393]); (0x3B4,[0x394]); (0x3B5,[0x395]);
    (0x3B6,[0x396]); (0x3B7,[0x397]); (0x3B8,[0x398]); (0x3B9,[0x399]); (0x3BA,[0x39A]);
    (0x3BB,[0x39B]); (0x3BC,[0x39C]); (0x3BD,[0x39D]); (0x3BE,[0x39E]); (0x3BF,[0x39F]);
    (0x3C0,[0x3A0]); (0x3C1,[0x3A1]); (0x3C2,[0x3A3]); (0x3C3,[0x3A3]); (0x3C4,[0x3A4]);
    (0x3C5,[0x3A5]); (0x3C6,[0x3A6]); (0x3C7,[0x3A7]); (0x3C8,[0x3A8]); (0x3C9,[0x3A9]);
    (0x3CA,[0x3AA]); (0x3CB,[0x3AB]); (0x3CC,[0x38C]); (0x3CD,[0x38E]); (0x3CE,[0x38F]);
    (0x3D0,[0x392]); (0x3D1,[0x398]); (0x3D5,[0x3A6]); (0x3D6,[0x3A0]); (0x3D7,[0x3CF]);
    (0x3D9,[0x3D8]); (0x3DB,[0x3DA]); (0x3DD,[0x3DC]); (0x3DF,[0x3DE]); (0x3E1,[0x3E0]);
    (0x3E3,[0x3E2]); (0x3E5,[0x3E4]); (0x3E7,[0x3E6]); (0x3E9,[0x3E8]); (0x3EB,[0x3EA]);
    (0x3ED,[0x3EC]); (0x3EF,[0x3EE]); (0x3F0,[0x39A]); (0x3F1,[0x3A1]); (0x3F2,[0x3F9]);
    (0x3F3,[0x37F]); (0x3F5,[0x395]); (0x3F8,[0x3F7]); (0x3FB,[0x3FA]); (0x430,[0x410]);
    (0x431,[0x411]); (0x432,[0x412]); (0x433,[0x413]); (0x434,[0x414]); (0x435,[0x415]);
    (0x436,[0x416]); (0x437,[0x417]); (0x438,[0x418]); (0x439,[0x419]); (0x43A,[0x41A]);
    (0x43B,[0x41B]); (0x43C,[0x41C]); (0x43D,[0x41D]); (0x43E,[0x41E]); (0x43F,[0x41F]);
    (0x440,[0x420]); (0x441,[0x421]); (0x442,[0x422]); (0x443,[0x423]); (0x444,[0x424]);
    (0x445,[0x425]); (0x446,[0x426]); (0x447,[0x427]); (0x448,[0x428]); (0x449,[0x429]);
    (0x44A,[0x42A]); (0x44B,[0x42B]); (0x44C,[0x42C]); (0x44D,[0x42D]); (0x44E,[0x42E]);
    (0x44F,[0x42F]); (0x450,[0x400]); (0x451,[0x401]); (0x452,[0x402]); (0x453,[0x403]);
    (0x454,[0x404]); (0x455,[0x405]); (0x456,[0x406]); (0x457,[0x407]); (0x458,[0x408]);
    (0x459,[0x409]); (0x45A,[0x40A]); (0x45B,[0x40B]); (0x45C,[0x40C]); (0x45D,[0x40D]);
    (0x45E,[0x40E]); (0x45F,[0x40F]); (0x461,[0x460]); (0x463,[0x462]); (0x465,[0x464]);
    (0x467,[0x466]); (0x469,[0x468]); (0x46B,[0x46A]); (0x46D,[0x46C]); (0x46F,[0x46E]);
    (0x471,[0x470]); (0x473,[0x472]); (0x475,[0x474]); (0x477,[0x476]); (0x479,[0x478]);
    (0x47B,[0x47A]); (0x47D,[0x47C]); (0x47F,[0x47E]); (0x481,[0x480]); (0x48B,[0x48A]);
    (0x48D,[0x48C]); (0x48F,[0x48E]); (0x491,[0x490]); (0x493,[0x492]); (0x495,[0x494]);
    (0x497,[0x496]); (0x499,[0x498]); (0x49B,[0x49A]); (0x49D,[0x49C]); (0x49F,[0x49E]);
    (0x4A1,[0x4A0]); (0x4A3,[0x4A2]); (0x4A5,[0x4A4]); (0x4A7,[0x4A6]); (0x4A9,[0x4A8]);
    (0x4AB,[0x4AA]); (0x4AD,[0x4AC]); (0x4AF,[0x4AE]); (0x4B1,[0x4B0]); (0x4B3,[0x4B2]);
    (0x4B5,[0x4B4]); (0x4B7,[0x4B6]); (0x4B9,[0x4B8]); (0x4BB,[0x4BA]); (0x4BD,[0x4BC]);
    (0x4BF,[0x4BE]); (0x4C2,[0x4C1]); (0x4C4,[0x4C3]); (0x4C6,[0x4C5]); (0x4C8,[0x4C7]);
    (0x4CA,[0x4C9]); (0x4CC,[0x4CB]); (0x4CE,[0x4CD]); (0x4CF,[0x4C0]); (0x4D1,[0x4D0]);
    (0x4D3,[0x4D2]); (0x4D5,[0x4D4]); (0x4D7,[0x4D6]); (0x4D9,[0x4D8]); (0x4DB,[0x4DA]);
    (0x4DD,[0x4DC]); (0x4DF,[0x4DE]); (0x4E1,[0x4E0]); (0x4E3,[0x4E2]); (0x4E5,[0x4E4]);
    (0x4E7,[0x4E6]); (0x4E9,[0x4E8]); (0x4EB,[0x4EA]); (0x4ED,[0x4EC]); (0x4EF,[0x4EE]);
    (0x4F1,[0x4F0]); (0x4F3,[0x4F2]); (0x4F5,[0x4F4]); (0x4F7,[0x4F6]); (0x4F9,[0x4F8]);
    (0x4FB,[0x4FA]); (0x4FD,[0x4FC]); (0x4FF,[0x4FE]); (0x501,[0x500]); (0x503,[0x502]);
    (0x505,[0x504]); (0x507,[0x506]); (0x509,[0x508]); (0x50B,[0x50A]); (0x50D,[0x50C]);
    (0x50F,[0x50E]); (0x511,[0x510]); (0x513,[0x512]); (0x515,[0x514]); (0x517,[0x516]);
    (0x519,[0x518]); (0x51B,[0x51A]); (0x51D,[0x51C]); (0x51F,[0x51E]); (0x521,[0x520]);
    (0x523,[0x522]); (0x525,[0x524]); (0x527,[0x526]); (0x529,[0x528]); (0x52B,[0x52A]);
    (0x52D,[0x52C]); (0x52F,[0x52E]); (0x561,[0x531]); (0x562,[0x532]); (0x563,[0x533]);
    (0x564,[0x534]); (0x565,[0x535]); (0x566,[0x536]); (0x567,[0x537]); (0x568,[0x538]);
    (0x569,[0x539]); (0x56A,[0x53A]); (0x56B,[0x53B]); (0x56C,[0x53C]); (0x56D,[0x53D]);
    (0x56E,[0x53E]); (0x56F,[0x53F]); (0x570,[0x540]); (0x571,[0x541]); (0x572,[0x542]);
    (0x573,[0x543]); (0x574,[0x544]); (0x575,[0x545]); (0x576,[0x546]); (0x577,[0x547]);
    (0x578,[0x548]); (0x579,[0x549]); (0x57A,[0x54A]); (0x57B,[0x54B]); (0x57C,[0x54C]);
    (0x57D,[0x54D]); (0x57E,[0x54E]); (0x57F,[0x54F]); (0x580,[0x550]); (0x581,[0x551]);
    (0x582,[0x552]); (0x583,[0x553]); (0x584,[0x554]); (0x585,[0x555]); (0x586,[0x556]);
    (0x587,[0x535;0x552]); (0x10D0,[0x1C90]); (0x10D1,[0x1C91]); (0x10D2,[0x1C92]);
    (0x10D3,[0x1C93]); (0x10D4,[0x1C94]); (0x10D5,[0x1C95]); (0x10D6,[0x1C96]); (0x10D7,[0x1C97]);
    (0x10D8,[0x1C98]); (0x10D9,[0x1C99]); (0x10DA,[0x1C9A]); (0x10DB,[0x1C9B]); (0x10DC,[0x1C9C]);
    (0x10DD,[0x1C9D]); (0x10DE,[0x1C9E]); (0x10DF,[0x1C9F]); (0x10E0,[0x1CA0]); (0x10E1,[0x1CA1]);
    (0x10E2,[0x1CA2]); (0x10E3,[0x1CA3]); (0x10E4,[0x1CA4]); (0x10E5,[0x1CA5]); (0x10E6,[0x1CA6]);
    (0x10E7,[0x1CA7]); (0x10E8,[0x1CA8]); (0x10E9,[0x1CA9]); (0x10EA,[0x1CAA]); (0x10EB,[0x1CAB]);
    (0x10EC,[0x1CAC]); (0x10ED,[0x1CAD]); (0x10EE,[0x1CAE]); (0x10EF,[0x1CAF]); (0x10F0,[0x1CB0]);
    (0x10F1,[0x1CB1]); (0x10F2,[0x1CB2]); (0x10F3,[0x1CB3]); (0x10F4,[0x1CB4]); (0x10F5,[0x1CB5]);
    (0x10F6,[0x1CB6]); (0x10F7,[0x1CB7]); (0x10F8,[0x1CB8]); (0x10F9,[0x1CB9]); (0x10FA,[0x1CBA]);
    (0x10FD,[0x1CBD]); (0x10FE,[0x1CBE]); (0x10FF,[0x1CBF]); (0x13F8,[0x13F0]); (0x13F9,[0x13F1]);
    (0x13FA,[0x13F2]); (0x13FB,[0x13F3]); (0x13FC,[0x13F4]); (0x13FD,[0x13F5]); (0x1C80,[0x412]);
    (0x1C81,[0x414]); (0x1C82,[0x41E]); (0x1C83,[0x421]); (0x1C84,[0x422]); (0x1C85,[0x422]);
    (0x1C86,[0x42A]); (0x1C87,[0x462]); (0x1C88,[0xA64A]); (0x1D79,[0xA77D]); (0x1D7D,[0x2C63]);
    (0x1D8E,[0xA7C6]); (0x1E01,[0x1E00]); (0x1E03,[0x1E02]); (0x1E05,[0x1E04]); (0x1E07,[0x1E06]);
    (0x1E09,[0x1E08]); (0x1E0B,[0x1E0A]); (0x1E0D,[0x1E0C]); (0x1E0F,[0x1E0E]); (0x1E11,[0x1E10]);
    (0x1E13,[0x1E12]); (0x1E15,[0x1E14]); (0x1E17,[0x1E16]); (0x1E19,[0x1E18]); (0x1E1B,[0x1E1A]);
    (0x1E1D,[0x1E1C]); (0x1E1F,[0x1E1E]); (0x1E21,[0x1E20]); (0x1E23,[0x1E22]); (0x1E25,[0x1E24]);
    (0x1E27,[0x1E26]); (0x1E29,[0x1E28]); (0x1E2B,[0x1E2A]); (0x1E2D,[0x1E2C]); (0x1E2F,[0x1E2E]);
    (0x1E31,[0x1E30]); (0x1E33,[0x1E32]); (0x1E35,[0x1E34]); (0x1E37,[0x1E36]); (0x1E39,[0x1E38]);
    (0x1E3B,[0x1E3A]); (0x1E3D,[0x1E3C]); (0x1E3F,[0x1E3E]); (0x1E41,[0x1E40]); (0x1E43,[0x1E42]);
    (0x1E45,[0x1E44]); (0x1E47,[0x1E46]); (0x1E49,[0x1E48]); (0x1E4B,[0x1E4A]); (0x1E4D,[0x1E4C]);
    (0x1E4F,[0x1E4E]); (0x1E51,[0x1E50]); (0x1E53,[0x1E52]); (0x1E55,[0x1E54]); (0x1E57,[0x1E56]);
    (0x1E59,[0x1E58]); (0x1E5B,[0x1E5A]); (0x1E5D,[0x1E5C]); (0x1E5F,[0x1E5E]); (0x1E61,[0x1E60]);
    (0x1E63,[0x1E62]); (0x1E65,[0x1E64]); (0x1E67,[0x1E66]); (0x1E69,[0x1E68]); (0x1E6B,[0x1E6A]);
    (0x1E6D,[0x1E6C]); (0x1E6F,[0x1E6E]); (0x1E71,[0x1E70]); (0x1E73,[0x1E72]); (0x1E75,[0x1E74]);
    (0x1E77,[0x1E76]); (0x1E79,[0x1E78]); (0x1E7B,[0x1E7A]); (0x1E7D,[0x1E7C]); (0x1E7F,[0x1E7E]);
    (0x1E81,[0x1E80]); (0x1E83,[0x1E82]); (0x1E85,[0x1E84]); (0x1E87,[0x1E86]); (0x1E89,[0x1E88]);
    (0x1E8B,[0x1E8A]); (0x1E8D,[0x1E8C]); (0x1E8F,[0x1E8E]); (0x1E91,[0x1E90]); (0x1E93,[0x1E92]);
    (0x1E95,[0x1E94]); (0x1E96,[0x48;0x331]); (0x1E97,[0x54;0x308]); (0x1E98,[0x57;0x30A]);
    (0x1E99,[0x59;0x30A]); (0x1E9A,[0x41;0x2BE]); (0x1E9B,[0x1E60]); (0x1EA1,[0x1EA0]);
    (0x1EA3,[0x1EA2]); (0x1EA5,[0x1EA4]); (0x1EA7,[0x1EA6]); (0x1EA9,[0x1EA8]); (0x1EAB,[0x1EAA]);
    (0x1EAD,[0x1EAC]); (0x1EAF,[0x1EAE]); (0x1EB1,[0x1EB0]); (0x1EB3,[0x1EB2]); (0x1EB5,[0x1EB4]);
    (0x1EB7,[0x1EB6]); (0x1EB9,[0x1EB8]); (0x1EBB,[0x1EBA]); (0x1EBD,[0x1EBC]); (0x1EBF,[0x1EBE]);
    (0x1EC1,[0x1EC0]); (0x1EC3,[0x1EC2]); (0x1EC5,[0x1EC4]); (0x1EC7,[0x1EC6]); (0x1EC9,[0x1EC8]);
    (0x1ECB,[0x1ECA]); (0x1ECD,[0x1ECC]); (0x1ECF,[0x1ECE]); (0x1ED1,[0x1ED0]); (0x1ED3,[0x1ED2]);
    (0x1ED5,[0x1ED4]); (0x1ED7,[0x1ED6]); (0x1ED9,[0x1ED8]); (0x1EDB,[0x1EDA]); (0x1EDD,[0x1EDC]);
    (0x1EDF,[0x1EDE]); (0x1EE1,[0x1EE0]); (0x1EE3,[0x1EE2]); (0x1EE5,[0x1EE4]); (0x1EE7,[0x1EE6]);
    (0x1EE9,[0x1EE8]); (0x1EEB,[0x1EEA]); (0x1EED,[0x1EEC]); (0x1EEF,[0x1EEE]); (0x1EF1,[0x1EF0]);
    (0x1EF3,[0x1EF2]); (0x1EF5,[0x1EF4]); (0x1EF7,[0x1EF6]); (0x1EF9,[0x1EF8]); (0x1EFB,[0x1EFA]);
    (0x1EFD,[0x1EFC]); (0x1EFF,[0x1EFE]); (0x1F00,[0x1F08]); (0x1F01,[0x1F09]); (0x1F02,[0x1F0A]);
    (0x1F03,[0x1F0B]); (0x1F04,[0x1F0C]); (0x1F05,[0x1F0D]); (0x1F06,[0x1F0E]); (0x1F07,[0x1F0F]);
    (0x1F10,[0x1F18]); (0x1F11,[0x1F19]); (0x1F12,[0x1F1A]); (0x1F13,[0x1F1B]); (0x1F14,[0x1F1C]);
    (0x1F15,[0x1F1D]); (0x1F20,[0x1F28]); (0x1F21,[0x1F29]); (0x1F22,[0x1F2A]); (0x1F23,[0x1F2B]);
    (0x1F24,[0x1F2C]); (0x1F25,[0x1F2D]); (0x1F26,[0x1F2E]); (0x1F27,[0x1F2F]); (0x1F30,[0x1F38]);
    (0x1F31,[0x1F39]); (0x1F32,[0x1F3A]); (0x1F33,[0x1F3B]); (0x1F34,[0x1F3C]); (0x1F35,[0x1F3D]);
    (0x1F36,[0x1F3E]); (0x1F37,[0x1F3F]); (0x1F40,[0x1F48]); (0x1F41,[0x1F49]); (0x1F42,[0x1F4A]);
    (0x1F43,[0x1F4B]); (0x1F44,[0x1F4C]); (0x1F45,[0x1F4D]); (0x1F50,[0x3A5;0x313]);
    (0x1F51,[0x1F59]); (0x1F52,[0x3A5;0x313;0x300]); (0x1F53,[0x1F5B]);
    (0x1F54,[0x3A5;0x313;0x301]); (0x1F55,[0x1F5D]); (0x1F56,[0x3A5;0x313;0x342]);
    (0x1F57,[0x1F5F]); (0x1F60,[0x1F68]); (0x1F61,[0x1F69]); (0x1F62,[0x1F6A]); (0x1F63,[0x1F6B]);
    (0x1F64,[0x1F6C]); (0x1F65,[0x1F6D]); (0x1F66,[0x1F6E]); (0x1F67,[0x1F6F]); (0x1F70,[0x1FBA]);
    (0x1F71,[0x1FBB]); (0x1F72,[0x1FC8]); (0x1F73,[0x1FC9]); (0x1F74,[0x1FCA]); (0x1F75,[0x1FCB]);
    (0x1F76,[0x1FDA]); (0x1F77,[0x1FDB]); (0x1F78,[0x1FF8]); (0x1F79,[0x1FF9]); (0x1F7A,[0x1FEA]);
    (0x1F7B,[0x1FEB]); (0x1F7C,[0x1FFA]); (0x1F7D,[0x1FFB]); (0x1F80,[0x1F08;0x399]);
    (0x1F81,[0x1F09;0x399]); (0x1F82,[0x1F0A;0x399]); (0x1F83,[0x1F0B;0x399]);
    (0x1F84,[0x1F0C;0x399]); (0x1F85,[0x1F0D;0x399]); (0x1F86,[0x1F0E;0x399]);
    (0x1F87,[0x1F0F;0x399]); (0x1F88,[0x1F08;0x399]); (0x1F89,[0x1F09;0x399]);
    (0x1F8A,[0x1F0A;0x399]); (0x1F8B,[0x1F0B;0x399]); (0x1F8C,[0x1F0C;0x399]);
    (0x1F8D,[0x1F0D;0x399]); (0x1F8E,[0x1F0E;0x399]); (0x1F8F,[0x1F0F;0x399]);
    (0x1F90,[0x1F28;0x399]); (0x1F91,[0x1F29;0x399]); (0x1F92,[0x1F2A;0x399]);
    (0x1F93,[0x1F2B;0x399]); (0x1F94,[0x1F2C;0x399]); (0x1F95,[0x1F2D;0x399]);
    (0x1F96,[0x1F2E;0x399]); (0x1F97,[0x1F2F;0x399]); (0x1F98,[0x1F28;0x399]);
    (0x1F99,[0x1F29;0x399]); (0x1F9A,[0x1F2A;0x399]); (0x1F9B,[0x1F2B;0x399]);
    (0x1F9C,[0x1F2C;0x399]); (0x1F9D,[0x1F2D;0x399]); (0x1F9E,[0x1F2E;0x399]);
    (0x1F9F,[0x1F2F;0x399]); (0x1FA0,[0x1F68;0x399]); (0x1FA1,[0x1F69;0x399]);
    (0x1FA2,[0x1F6A;0x399]); (0x1FA3,[0x1F6B;0x399]); (0x1FA4,[0x1F6C;0x399]);
    (0x1FA5,[0x1F6D;0x399]); (0x1FA6,[0x1F6E;0x399]); (0x1FA7,[0x1F6F;0x399]);
    (0x1FA8,[0x1F68;0x399]); (0x1FA9,[0x1F69;0x399]); (0x1FAA,[0x1F6A;0x399]);
    (0x1FAB,[0x1F6B;0x399]); (0x1FAC,[0x1F6C;0x399]); (0x1FAD,[0x1F6D;0x399]);
    (0x1FAE,[0x1F6E;0x399]); (0x1FAF,[0x1F6F;0x399]); (0x1FB0,[0x1FB8]); (0x1FB1,[0x1FB9]);
    (0x1FB2,[0x1FBA;0x399]); (0x1FB3,[0x391;0x399]); (0x1FB4,[0x386;0x399]); (0x1FB6,[0x391;0x342]);
    (0x1FB7,[0x391;0x342;0x399]); (0x1FBC,[0x391;0x399]); (0x1FBE,[0x399]); (0x1FC2,[0x1FCA;0x399]);
    (0x1FC3,[0x397;0x399]); (0x1FC4,[0x389;0x399]); (0x1FC6,[0x397;0x342]);
    (0x1FC7,[0x397;0x342;0x399]); (0x1FCC,[0x397;0x399]); (0x1FD0,[0x1FD8]); (0x1FD1,[0x1FD9]);
    (0x1FD2,[0x399;0x308;0x300]); (0x1FD3,[0x399;0x308;0x301]); (0x1FD6,[0x399;0x342]);
    (0x1FD7,[0x399;0x308;0x342]); (0x1FE0,[0x1FE8]); (0x1FE1,[0x1FE9]);
    (0x1FE2,[0x3A5;0x308;0x300]); (0x1FE3,[0x3A5;0x308;0x301]); (0x1FE4,[0x3A1;0x313]);
    (0x1FE5,[0x1FEC]); (0x1FE6,[0x3A5;0x342]); (0x1FE7,[0x3A5;0x308;0x342]);
    (0x1FF2,[0x1FFA;0x399]); (0x1FF3,[0x3A9;0x399]); (0x1FF4,[0x38F;0x399]); (0x1FF6,[0x3A9;0x342]);
    (0x1FF7,[0x3A9;0x342;0x399]); (0x1FFC,[0x3A9;0x399]); (0x214E,[0x2132]); (0x2170,[0x2160]);
    (0x2171,[0x2161]); (0x2172,[0x2162]); (0x2173,[0x2163]); (0x2174,[0x2164]); (0x2175,[0x2165]);
    (0x2176,[0x2166]); (0x2177,[0x2167]); (0x2178,[0x2168]); (0x2179,[0x2169]); (0x217A,[0x216A]);
    (0x217B,[0x216B]); (0x217C,[0x216C]); (0x217D,[0x216D]); (0x217E,[0x216E]); (0x217F,[0x216F]);
    (0x2184,[0x2183]); (0x24D0,[0x24B6]); (0x24D1,[0x24B7]); (0x24D2,[0x24B8]); (0x24D3,[0x24B9]);
    (0x24D4,[0x24BA]); (0x24D5,[0x24BB]); (0x24D6,[0x24BC]); (0x24D7,[0x24BD]); (0x24D8,[0x24BE]);
    (0x24D9,[0x24BF]); (0x24DA,[0x24C0]); (0x24DB,[0x24C1]); (0x24DC,[0x24C2]); (0x24DD,[0x24C3]);
    (0x24DE,[0x24C4]); (0x24DF,[0x24C5]); (0x24E0,[0x24C6]); (0x24E1,[0x24C7]); (0x24E2,[0x24C8]);
    (0x24E3,[0x24C9]); (0x24E4,[0x24CA]); (0x24E5,[0x24CB]); (0x24E6,[0x24CC]); (0x24E7,[0x24CD]);
    (0x24E8,[0x24CE]); (0x24E9,[0x24CF]); (0x2C30,[0x2C00]); (0x2C31,[0x2C01]); (0x2C32,[0x2C02]);
    (0x2C33,[0x2C03]); (0x2C34,[0x2C04]); (0x2C35,[0x2C05]); (0x2C36,[0x2C06]); (0x2C37,[0x2C07]);
    (0x2C38,[0x2C08]); (0x2C39,[0x2C09]); (0x2C3A,[0x2C0A]); (0x2C3B,[0x2C0B]); (0x2C3C,[0x2C0C]);
    (0x2C3D,[0x2C0D]); (0x2C3E,[0x2C0E]); (0x2C3F,[0x2C0F]); (0x2C40,[0x2C10]); (0x2C41,[0x2C11]);
    (0x2C42,[0x2C12]); (0x2C43,[0x2C13]); (0x2C44,[0x2C14]); (0x2C45,[0x2C15]); (0x2C46,[0x2C16]);
    (0x2C47,[0x2C17]); (0x2C48,[0x2C18]); (0x2C49,[0x2C19]); (0x2C4A,[0x2C1A]); (0x2C4B,[0x2C1B]);
    (0x2C4C,[0x2C1C]); (0x2C4D,[0x2C1D]); (0x2C4E,[0x2C1E]); (0x2C4F,[0x2C1F]); (0x2C50,[0x2C20]);
    (0x2C51,[0x2C21]); (0x2C52,[0x2C22]); (0x2C53,[0x2C23]); (0x2C54,[0x2C24]); (0x2C55,[0x2C25]);
    (0x2C56,[0x2C26]); (0x2C57,[0x2C27]); (0x2C58,[0x2C28]); (0x2C59,[0x2C29]); (0x2C5A,[0x2C2A]);
    (0x2C5B,[0x2C2B]); (0x2C5C,[0x2C2C]); (0x2C5D,[0x2C2D]); (0x2C5E,[0x2C2E]); (0x2C5F,[0x2C2F]);
    (0x2C61,[0x2C60]); (0x2C65,[0x23A]); (0x2C66,[0x23E]); (0x2C68,[0x2C67]); (0x2C6A,[0x2C69]);
    (0x2C6C,[0x2C6B]); (0x2C73,[0x2C72]); (0x2C76,[0x2C75]); (0x2C81,[0x2C80]); (0x2C83,[0x2C82]);
    (0x2C85,[0x2C84]); (0x2C87,[0x2C86]); (0x2C89,[0x2C88]); (0x2C8B,[0x2C8A]); (0x2C8D,[0x2C8C]);
    (0x2C8F,[0x2C8E]); (0x2C91,[0x2C90]); (0x2C93,[0x2C92]); (0x2C95,[0x2C94]); (0x2C97,[0x2C96]);
    (0x2C99,[0x2C98]); (0x2C9B,[0x2C9A]); (0x2C9D,[0x2C9C]); (0x2C9F,[0x2C9E]); (0x2CA1,[0x2CA0]);
    (0x2CA3,[0x2CA2]); (0x2CA5,[0x2CA4]); (0x2CA7,[0x2CA6]); (0x2CA9,[0x2CA8]); (0x2CAB,[0x2CAA]);
    (0x2CAD,[0x2CAC]); (0x2CAF,[0x2CAE]); (0x2CB1,[0x2CB0]); (0x2CB3,[0x2CB2]); (0x2CB5,[0x2CB4]);
    (0x2CB7,[0x2CB6]); (0x2CB9,[0x2CB8]); (0x2CBB,[0x2CBA]); (0x2CBD,[0x2CBC]); (0x2CBF,[0x2CBE]);
    (0x2CC1,[0x2CC0]); (0x2CC3,[0x2CC2]); (0x2CC5,[0x2CC4]); (0x2CC7,[0x2CC6]); (0x2CC9,[0x2CC8]);
    (0x2CCB,[0x2CCA]); (0x2CCD,[0x2CCC]); (0x2CCF,[0x2CCE]); (0x2CD1,[0x2CD0]); (0x2CD3,[0x2CD2]);
    (0x2CD5,[0x2CD4]); (0x2CD7,[0x2CD6]); (0x2CD9,[0x2CD8]); (0x2CDB,[0x2CDA]); (0x2CDD,[0x2CDC]);
    (0x2CDF,[0x2CDE]); (0x2CE1,[0x2CE0]); (0x2CE3,[0x2CE2]); (0x2CEC,[0x2CEB]); (0x2CEE,[0x2CED]);
    (0x2CF3,[0x2CF2]); (0x2D00,[0x10A0]); (0x2D01,[0x10A1]); (0x2D02,[0x10A2]); (0x2D03,[0x10A3]);
    (0x2D04,[0x10A4]); (0x2D05,[0x10A5]); (0x2D06,[0x10A6]); (0x2D07,[0x10A7]); (0x2D08,[0x10A8]);
    (0x2D09,[0x10A9]); (0x2D0A,[0x10AA]); (0x2D0B,[0x10AB]); (0x2D0C,[0x10AC]); (0x2D0D,[0x10AD]);
    (0x2D0E,[0x10AE]); (0x2D0F,[0x10AF]); (0x2D10,[0x10B0]); (0x2D11,[0x10B1]); (0x2D12,[0x10B2]);
    (0x2D13,[0x10B3]); (0x2D14,[0x10B4]); (0x2D15,[0x10B5]); (0x2D16,[0x10B6]); (0x2D17,[0x10B7]);
    (0x2D18,[0x10B8]); (0x2D19,[0x10B9]); (0x2D1A,[0x10BA]); (0x2D1B,[0x10BB]); (0x2D1C,[0x10BC]);
    (0x2D1D,[0x10BD]); (0x2D1E,[0x10BE]); (0x2D1F,[0x10BF]); (0x2D20,[0x10C0]); (0x2D21,[0x10C1]);
    (0x2D22,[0x10C2]); (0x2D23,[0x10C3]); (0x2D24,[0x10C4]); (0x2D25,[0x10C5]); (0x2D27,[0x10C7]);
    (0x2D2D,[0x10CD]); (0xA641,[0xA640]); (0xA643,[0xA642]); (0xA645,[0xA644]); (0xA647,[0xA646]);
    (0xA649,[0xA648]); (0xA64B,[0xA64A]); (0xA64D,[0xA64C]); (0xA64F,[0xA64E]); (0xA651,[0xA650]);
    (0xA653,[0xA652]); (0xA655,[0xA654]); (0xA657,[0xA656]); (0xA659,[0xA658]); (0xA65B,[0xA65A]);
    (0xA65D,[0xA65C]); (0xA65F,[0xA65E]); (0xA661,[0xA660]); (0xA663,[0xA662]); (0xA665,[0xA664]);
    (0xA667,[0xA666]); (0xA669,[0xA668]); (0xA66B,[0xA66A]); (0xA66D,[0xA66C]); (0xA681,[0xA680]);
    (0xA683,[0xA682]); (0xA685,[0xA684]); (0xA687,[0xA686]); (0xA689,[0xA688]); (0xA68B,[0xA68A]);
    (0xA68D,[0xA68C]); (0xA68F,[0xA68E]); (0xA691,[0xA690]); (0xA693,[0xA692]); (0xA695,[0xA694]);
    (0xA697,[0xA696]); (0xA699,[0xA698]); (0xA69B,[0xA69A]); (0xA723,[0xA722]); (0xA725,[0xA724]);
    (0xA727,[0xA726]); (0xA729,[0xA728]); (0xA72B,[0xA72A]); (0xA72D,[0xA72C]); (0xA72F,[0xA72E]);
    (0xA733,[0xA732]); (0xA735,[0xA734]); (0xA737,[0xA736]); (0xA739,[0xA738]); (0xA73B,[0xA73A]);
    (0xA73D,[0xA73C]); (0xA73F,[0xA73E]); (0xA741,[0xA740]); (0xA743,[0xA742]); (0xA745,[0xA744]);
    (0xA747,[0xA746]); (0xA749,[0xA748]); (0xA74B,[0xA74A]); (0xA74D,[0xA74C]); (0xA74F,[0xA74E]);
    (0xA751,[0xA750]); (0xA753,[0xA752]); (0xA755,[0xA754]); (0xA757,[0xA756]); (0xA759,[0xA758]);
    (0xA75B,[0xA75A]); (0xA75D,[0xA75C]); (0xA75F,[0xA75E]); (0xA761,[0xA760]); (0xA763,[0xA762]);
    (0xA765,[0xA764]); (0xA767,[0xA766]); (0xA769,[0xA768]); (0xA76B,[0xA76A]); (0xA76D,[0xA76C]);
    (0xA76F,[0xA76E]); (0xA77A,[0xA779]); (0xA77C,[0xA77B]); (0xA77F,[0xA77E]); (0xA781,[0xA780]);
    (0xA783,[0xA782]); (0xA785,[0xA784]); (0xA787,[0xA786]); (0xA78C,[0xA78B]); (0xA791,[0xA790]);
    (0xA793,[0xA792]); (0xA794,[0xA7C4]); (0xA797,[0xA796]); (0xA799,[0xA798]); (0xA79B,[0xA79A]);
    (0xA79D,[0xA79C]); (0xA79F,[0xA79E]); (0xA7A1,[0xA7A0]); (0xA7A3,[0xA7A2]); (0xA7A5,[0xA7A4]);
    (0xA7A7,[0xA7A6]); (0xA7A9,[0xA7A8]); (0xA7B5,[0xA7B4]); (0xA7B7,[0xA7B6]); (0xA7B9,[0xA7B8]);
    (0xA7BB,[0xA7BA]); (0xA7BD,[0xA7BC]); (0xA7BF,[0xA7BE]); (0xA7C1,[0xA7C0]); (0xA7C3,[0xA7C2]);
    (0xA7C8,[0xA7C7]); (0xA7CA,[0xA7C9]); (0xA7D1,[0xA7D0]); (0xA7D7,[0xA7D6]); (0xA7D9,[0xA7D8]);
    (0xA7F6,[0xA7F5]); (0xAB53,[0xA7B3]); (0xAB70,[0x13A0]); (0xAB71,[0x13A1]); (0xAB72,[0x13A2]);
    (0xAB73,[0x13A3]); (0xAB74,[0x13A4]); (0xAB75,[0x13A5]); (0xAB76,[0x13A6]); (0xAB77,[0x13A7]);
    (0xAB78,[0x13A8]); (0xAB79,[0x13A9]); (0xAB7A,[0x13AA]); (0xAB7B,[0x13AB]); (0xAB7C,[0x13AC]);
    (0xAB7D,[0x13AD]); (0xAB7E,[0x13AE]); (0xAB7F,[0x13AF]); (0xAB80,[0x13B0]); (0xAB81,[0x13B1]);
    (0xAB82,[0x13B2]); (0xAB83,[0x13B3]); (0xAB84,[0x13B4]); (0xAB85,[0x13B5]); (0xAB86,[0x13B6]);
    (0xAB87,[0x13B7]); (0xAB88,[0x13B8]); (0xAB89,[0x13B9]); (0xAB8A,[0x13BA]); (0xAB8B,[0x13BB]);
    (0xAB8C,[0x13BC]); (0xAB8D,[0x13BD]); (0xAB8E,[0x13BE]); (0xAB8F,[0x13BF]); (0xAB90,[0x13C0]);
    (0xAB91,[0x13C1]); (0xAB92,[0x13C2]); (0xAB93,[0x13C3]); (0xAB94,[0x13C4]); (0xAB95,[0x13C5]);
    (0xAB96,[0x13C6]); (0xAB97,[0x13C7]); (0xAB98,[0x13C8]); (0xAB99,[0x13C9]); (0xAB9A,[0x13CA]);
    (0xAB9B,[0x13CB]); (0xAB9C,[0x13CC]); (0xAB9D,[0x13CD]); (0xAB9E,[0x13CE]); (0xAB9F,[0x13CF]);
    (0xABA0,[0x13D0]); (0xABA1,[0x13D1]); (0xABA2,[0x13D2]); (0xABA3,[0x13D3]); (0xABA4,[0x13D4]);
    (0xABA5,[0x13D5]); (0xABA6,[0x13D6]); (0xABA7,[0x13D7]); (0xABA8,[0x13D8]); (0xABA9,[0x13D9]);
    (0xABAA,[0x13DA]); (0xABAB,[0x13DB]); (0xABAC,[0x13DC]); (0xABAD,[0x13DD]); (0xABAE,[0x13DE]);
    (0xABAF,[0x13DF]); (0xABB0,[0x13E0]); (0xABB1,[0x13E1]); (0xABB2,[0x13E2]); (0xABB3,[0x13E3]);
    (0xABB4,[0x13E4]); (0xABB5,[0x13E5]); (0xABB6,[0x13E6]); (0xABB7,[0x13E7]); (0xABB8,[0x13E8]);
    (0xABB9,[0x13E9]); (0xABBA,[0x13EA]); (0xABBB,[0x13EB]); (0xABBC,[0x13EC]); (0xABBD,[0x13ED]);
    (0xABBE,[0x13EE]); (0xABBF,[0x13EF]); (0xFB00,[0x46;0x46]); (0xFB01,[0x46;0x49]);
    (0xFB02,[0x46;0x4C]); (0xFB03,[0x46;0x46;0x49]); (0xFB04,[0x46;0x46;0x4C]);
    (0xFB05,[0x53;0x54]); (0xFB06,[0x53;0x54]); (0xFB13,[0x544;0x546]); (0xFB14,[0x544;0x535]);
    (0xFB15,[0x544;0x53B]); (0xFB16,[0x54E;0x546]); (0xFB17,[0x544;0x53D]); (0xFF41,[0xFF21]);
    (0xFF42,[0xFF22]); (0xFF43,[0xFF23]); (0xFF44,[0xFF24]); (0xFF45,[0xFF25]); (0xFF46,[0xFF26]);
    (0xFF47,[0xFF27]); (0xFF48,[0xFF28]); (0xFF49,[0xFF29]); (0xFF4A,[0xFF2A]); (0xFF4B,[0xFF2B]);
    (0xFF4C,[0xFF2C]); (0xFF4D,[0xFF2D]); (0xFF4E,[0xFF2E]); (0xFF4F,[0xFF2F]); (0xFF50,[0xFF30]);
    (0xFF51,[0xFF31]); (0xFF52,[0xFF32]); (0xFF53,[0xFF33]); (0xFF54,[0xFF34]); (0xFF55,[0xFF35]);
    (0xFF56,[0xFF36]); (0xFF57,[0xFF37]); (0xFF58,[0xFF38]); (0xFF59,[0xFF39]); (0xFF5A,[0xFF3A]);
    (0x10428,[0x10400]); (0x10429,[0x10401]); (0x1042A,[0x10402]); (0x1042B,[0x10403]);
    (0x1042C,[0x10404]); (0x1042D,[0x10405]); (0x1042E,[0x10406]); (0x1042F,[0x10407]);
    (0x10430,[0x10408]); (0x10431,[0x10409]); (0x10432,[0x1040A]); (0x10433,[0x1040B]);
    (0x10434,[0x1040C]); (0x10435,[0x1040D]); (0x10436,[0x1040E]); (0x10437,[0x1040F]);
    (0x10438,[0x10410]); (0x10439,[0x10411]); (0x1043A,[0x10412]); (0x1043B,[0x10413]);
    (0x1043C,[0x10414]); (0x1043D,[0x10415]); (0x1043E,[0x10416]); (0x1043F,[0x10417]);
    (0x10440,[0x10418]); (0x10441,[0x10419]); (0x10442,[0x1041A]); (0x10443,[0x1041B]);
    (0x10444,[0x1041C]); (0x10445,[0x1041D]); (0x10446,[0x1041E]); (0x10447,[0x1041F]);
    (0x10448,[0x10420]); (0x10449,[0x10421]); (0x1044A,[0x10422]); (0x1044B,[0x10423]);
    (0x1044C,[0x10424]); (0x1044D,[0x10425]); (0x1044E,[0x10426]); (0x1044F,[0x10427]);
    (0x104D8,[0x104B0]); (0x104D9,[0x104B1]); (0x104DA,[0x104B2]); (0x104DB,[0x104B3]);
    (0x104DC,[0x104B4]); (0x104DD,[0x104B5]); (0x104DE,[0x104B6]); (0x104DF,[0x104B7]);
    (0x104E0,[0x104B8]); (0x104E1,[0x104B9]); (0x104E2,[0x104BA]); (0x104E3,[0x104BB]);
    (0x104E4,[0x104BC]); (0x104E5,[0x104BD]); (0x104E6,[0x104BE]); (0x104E7,[0x104BF]);
    (0x104E8,[0x104C0]); (0x104E9,[0x104C1]); (0x104EA,[0x104C2]); (0x104EB,[0x104C3]);
    (0x104EC,[0x104C4]); (0x104ED,[0x104C5]); (0x104EE,[0x104C6]); (0x104EF,[0x104C7]);
    (0x104F0,[0x104C8]); (0x104F1,[0x104C9]); (0x104F2,[0x104CA]); (0x104F3,[0x104CB]);
    (0x104F4,[0x104CC]); (0x104F5,[0x104CD]); (0x104F6,[0x104CE]); (0x104F7,[0x104CF]);
    (0x104F8,[0x104D0]); (0x104F9,[0x104D1]); (0x104FA,[0x104D2]); (0x104FB,[0x104D3]);
    (0x10597,[0x10570]); (0x10598,[0x10571]); (0x10599,[0x10572]); (0x1059A,[0x10573]);
    (0x1059B,[0x10574]); (0x1059C,[0x10575]); (0x1059D,[0x10576]); (0x1059E,[0x10577]);
    (0x1059F,[0x10578]); (0x105A0,[0x10579]); (0x105A1,[0x1057A]); (0x105A3,[0x1057C]);
    (0x105A4,[0x1057D]); (0x105A5,[0x1057E]); (0x105A6,[0x1057F]); (0x105A7,[0x10580]);
    (0x105A8,[0x10581]); (0x105A9,[0x10582]); (0x105AA,[0x10583]); (0x105AB,[0x10584]);
    (0x105AC,[0x10585]); (0x105AD,[0x10586]); (0x105AE,[0x10587]); (0x105AF,[0x10588]);
    (0x105B0,[0x10589]); (0x105B1,[0x1058A]); (0x105B3,[0x1058C]); (0x105B4,[0x1058D]);
    (0x105B5,[0x1058E]); (0x105B6,[0x1058F]); (0x105B7,[0x10590]); (0x105B8,[0x10591]);
    (0x105B9,[0x10592]); (0x105BB,[0x10594]); (0x105BC,[0x10595]); (0x10CC0,[0x10C80]);
    (0x10CC1,[0x10C81]); (0x10CC2,[0x10C82]); (0x10CC3,[0x10C83]); (0x10CC4,[0x10C84]);
    (0x10CC5,[0x10C85]); (0x10CC6,[0x10C86]); (0x10CC7,[0x10C87]); (0x10CC8,[0x10C88]);
    (0x10CC9,[0x10C89]); (0x10CCA,[0x10C8A]); (0x10CCB,[0x10C8B]); (0x10CCC,[0x10C8C]);
    (0x10CCD,[0x10C8D]); (0x10CCE,[0x10C8E]); (0x10CCF,[0x10C8F]); (0x10CD0,[0x10C90]);
    (0x10CD1,[0x10C91]); (0x10CD2,[0x10C92]); (0x10CD3,[0x10C93]); (0x10CD4,[0x10C94]);
    (0x10CD5,[0x10C95]); (0x10CD6,[0x10C96]); (0x10CD7,[0x10C97]); (0x10CD8,[0x10C98]);
    (0x10CD9,[0x10C99]); (0x10CDA,[0x10C9A]); (0x10CDB,[0x10C9B]); (0x10CDC,[0x10C9C]);
    (0x10CDD,[0x10C9D]); (0x10CDE,[0x10C9E]); (0x10CDF,[0x10C9F]); (0x10CE0,[0x10CA0]);
    (0x10CE1,[0x10CA1]); (0x10CE2,[0x10CA2]); (0x10CE3,[0x10CA3]); (0x10CE4,[0x10CA4]);
    (0x10CE5,[0x10CA5]); (0x10CE6,[0x10CA6]); (0x10CE7,[0x10CA7]); (0x10CE8,[0x10CA8]);
    (0x10CE9,[0x10CA9]); (0x10CEA,[0x10CAA]); (0x10CEB,[0x10CAB]); (0x10CEC,[0x10CAC]);
    (0x10CED,[0x10CAD]); (0x10CEE,[0x10CAE]); (0x10CEF,[0x10CAF]); (0x10CF0,[0x10CB0]);
    (0x10CF1,[0x10CB1]); (0x10CF2,[0x10CB2]); (0x118C0,[0x118A0]); (0x118C1,[0x118A1]);
    (0x118C2,[0x118A2]); (0x118C3,[0x118A3]); (0x118C4,[0x118A4]); (0x118C5,[0x118A5]);
    (0x118C6,[0x118A6]); (0x118C7,[0x118A7]); (0x118C8,[0x118A8]); (0x118C9,[0x118A9]);
    (0x118CA,[0x118AA]); (0x118CB,[0x118AB]); (0x118CC,[0x118AC]); (0x118CD,[0x118AD]);
    (0x118CE,[0x118AE]); (0x118CF,[0x118AF]); (0x118D0,[0x118B0]); (0x118D1,[0x118B1]);
    (0x118D2,[0x118B2]); (0x118D3,[0x118B3]); (0x118D4,[0x118B4]); (0x118D5,[0x118B5]);
    (0x118D6,[0x118B6]); (0x118D7,[0x118B7]); (0x118D8,[0x118B8]); (0x118D9,[0x118B9]);
    (0x118DA,[0x118BA]); (0x118DB,[0x118BB]); (0x118DC,[0x118BC]); (0x118DD,[0x118BD]);
    (0x118DE,[0x118BE]); (0x118DF,[0x118BF]); (0x16E60,[0x16E40]); (0x16E61,[0x16E41]);
    (0x16E62,[0x16E42]); (0x16E63,[0x16E43]); (0x16E64,[0x16E44]); (0x16E65,[0x16E45]);
    (0x16E66,[0x16E46]); (0x16E67,[0x16E47]); (0x16E68,[0x16E48]); (0x16E69,[0x16E49]);
    (0x16E6A,[0x16E4A]); (0x16E6B,[0x16E4B]); (0x16E6C,[0x16E4C]); (0x16E6D,[0x16E4D]);
    (0x16E6E,[0x16E4E]); (0x16E6F,[0x16E4F]); (0x16E70,[0x16E50]); (0x16E71,[0x16E51]);
    (0x16E72,[0x16E52]); (0x16E73,[0x16E53]); (0x16E74,[0x16E54]); (0x16E75,[0x16E55]);
    (0x16E76,[0x16E56]); (0x16E77,[0x16E57]); (0x16E78,[0x16E58]); (0x16E79,[0x16E59]);
    (0x16E7A,[0x16E5A]); (0x16E7B,[0x16E5B]); (0x16E7C,[0x16E5C]); (0x16E7D,[0x16E5D]);
    (0x16E7E,[0x16E5E]); (0x16E7F,[0x16E5F]); (0x1E922,[0x1E900]); (0x1E923,[0x1E901]);
    (0x1E924,[0x1E902]); (0x1E925,[0x1E903]); (0x1E926,[0x1E904]); (0x1E927,[0x1E905]);
    (0x1E928,[0x1E906]); (0x1E929,[0x1E907]); (0x1E92A,[0x1E908]); (0x1E92B,[0x1E909]);
    (0x1E92C,[0x1E90A]); (0x1E92D,[0x1E90B]); (0x1E92E,[0x1E90C]); (0x1E92F,[0x1E90D]);
    (0x1E930,[0x1E90E]); (0x1E931,[0x1E90F]); (0x1E932,[0x1E910]); (0x1E933,[0x1E911]);
    (0x1E934,[0x1E912]); (0x1E935,[0x1E913]); (0x1E936,[0x1E914]); (0x1E937,[0x1E915]);
    (0x1E938,[0x1E916]); (0x1E939,[0x1E917]); (0x1E93A,[0x1E918]); (0x1E93B,[0x1E919]);
    (0x1E93C,[0x1E91A]); (0x1E93D,[0x1E91B]); (0x1E93E,[0x1E91C]); (0x1E93F,[0x1E91D]);
    (0x1E940,[0x1E91E]); (0x1E941,[0x1E91F]); (0x1E942,[0x1E920]); (0x1E943,[0x1E921]) ].

(** The property Cased, as inclusive ranges of code points. *)
Definition cased_ranges : list (N * N) :=
  [ (0x41,0x5A); (0x61,0x7A); (0xAA,0xAA); (0xB5,0xB5); (0xBA,0xBA); (0xC0,0xD6); (0xD8,0xF6);
    (0xF8,0x1BA); (0x1BC,0x1BF); (0x1C4,0x293); (0x295,0x2B8); (0x2C0,0x2C1); (0x2E0,0x2E4);
    (0x345,0x345); (0x370,0x373); (0x376,0x377); (0x37A,0x37D); (0x37F,0x37F); (0x386,0x386);
    (0x388,0x38A); (0x38C,0x38C); (0x38E,0x3A1); (0x3A3,0x3F5); (0x3F7,0x481); (0x48A,0x52F);
    (0x531,0x556); (0x560,0x588); (0x10A0,0x10C5); (0x10C7,0x10C7); (0x10CD,0x10CD);
    (0x10D0,0x10FA); (0x10FD,0x10FF); (0x13A0,0x13F5); (0x13F8,0x13FD); (0x1C80,0x1C88);
    (0x1C90,0x1CBA); (0x1CBD,0x1CBF); (0x1D00,0x1DBF); (0x1E00,0x1F15); (0x1F18,0x1F1D);
    (0x1F20,0x1F45); (0x1F48,0x1F4D); (0x1F50,0x1F57); (0x1F59,0x1F59); (0x1F5B,0x1F5B);
    (0x1F5D,0x1F5D); (0x1F5F,0x1F7D); (0x1F80,0x1FB4); (0x1FB6,0x1FBC); (0x1FBE,0x1FBE);
    (0x1FC2,0x1FC4); (0x1FC6,0x1FCC); (0x1FD0,0x1FD3); (0x1FD6,0x1FDB); (0x1FE0,0x1FEC);
    (0x1FF2,0x1FF4); (0x1FF6,0x1FFC); (0x2071,0x2071); (0x207F,0x207F); (0x2090,0x209C);
    (0x2102,0x2102); (0x2107,0x2107); (0x210A,0x2113); (0x2115,0x2115); (0x2119,0x211D);
    (0x2124,0x2124); (0x2126,0x2126); (0x2128,0x2128); (0x212A,0x212D); (0x212F,0x2134);
    (0x2139,0x2139); (0x213C,0x213F); (0x2145,0x2149); (0x214E,0x214E); (0x2160,0x217F);
    (0x2183,0x2184); (0x24B6,0x24E9); (0x2C00,0x2CE4); (0x2CEB,0x2CEE); (0x2CF2,0x2CF3);
    (0x2D00,0x2D25); (0x2D27,0x2D27); (0x2D2D,0x2D2D); (0xA640,0xA66D); (0xA680,0xA69D);
    (0xA722,0xA787); (0xA78B,0xA78E); (0xA790,0xA7CA); (0xA7D0,0xA7D1); (0xA7D3,0xA7D3);
    (0xA7D5,0xA7D9); (0xA7F5,0xA7F6); (0xA7F8,0xA7FA); (0xAB30,0xAB5A); (0xAB5C,0xAB68);
    (0xAB70,0xABBF); (0xFB00,0xFB06); (0xFB13,0xFB17); (0xFF21,0xFF3A); (0xFF41,0xFF5A);
    (0x10400,0x1044F); (0x104B0,0x104D3); (0x104D8,0x104FB); (0x10570,0x1057A); (0x1057C,0x1058A);
    (0x1058C,0x10592); (0x10594,0x10595); (0x10597,0x105A1); (0x105A3,0x105B1); (0x105B3,0x105B9);
    (0x105BB,0x105BC); (0x10780,0x10780); (0x10783,0x10785); (0x10787,0x107B0); (0x107B2,0x107BA);
    (0x10C80,0x10CB2); (0x10CC0,0x10CF2); (0x118A0,0x118DF); (0x16E40,0x16E7F); (0x1D400,0x1D454);
    (0x1D456,0x1D49C); (0x1D49E,0x1D49F); (0x1D4A2,0x1D4A2); (0x1D4A5,0x1D4A6); (0x1D4A9,0x1D4AC);
    (0x1D4AE,0x1D4B9); (0x1D4BB,0x1D4BB); (0x1D4BD,0x1D4C3); (0x1D4C5,0x1D505); (0x1D507,0x1D50A);
    (0x1D50D,0x1D514); (0x1D516,0x1D51C); (0x1D51E,0x1D539); (0x1D53B,0x1D53E); (0x1D540,0x1D544);
    (0x1D546,0x1D546); (0x1D54A,0x1D550); (0x1D552,0x1D6A5); (0x1D6A8,0x1D6C0); (0x1D6C2,0x1D6DA);
    (0x1D6DC,0x1D6FA); (0x1D6FC,0x1D714); (0x1D716,0x1D734); (0x1D736,0x1D74E); (0x1D750,0x1D76E);
    (0x1D770,0x1D788); (0x1D78A,0x1D7A8); (0x1D7AA,0x1D7C2); (0x1D7C4,0x1D7CB); (0x1DF00,0x1DF09);
    (0x1DF0B,0x1DF1E); (0x1E900,0x1E943); (0x1F130,0x1F149); (0x1F150,0x1F169); (0x1F170,0x1F189) ].

(** The property Case_Ignorable, as inclusive ranges of code points. *)
Definition case_ignorable_ranges : list (N * N) :=
  [ (0x27,0x27); (0x2E,0x2E); (0x3A,0x3A); (0x5E,0x5E); (0x60,0x60); (0xA8,0xA8); (0xAD,0xAD);
    (0xAF,0xAF); (0xB4,0xB4); (0xB7,0xB8); (0x2B0,0x36F); (0x374,0x375); (0x37A,0x37A);
    (0x384,0x385); (0x387,0x387); (0x483,0x489); (0x559,0x559); (0x55F,0x55F); (0x591,0x5BD);
    (0x5BF,0x5BF); (0x5C1,0x5C2); (0x5C4,0x5C5); (0x5C7,0x5C7); (0x5F4,0x5F4); (0x600,0x605);
    (0x610,0x61A); (0x61C,0x61C); (0x640,0x640); (0x64B,0x65F); (0x670,0x670); (0x6D6,0x6DD);
    (0x6DF,0x6E8); (0x6EA,0x6ED); (0x70F,0x70F); (0x711,0x711); (0x730,0x74A); (0x7A6,0x7B0);
    (0x7EB,0x7F5); (0x7FA,0x7FA); (0x7FD,0x7FD); (0x816,0x82D); (0x859,0x85B); (0x888,0x888);
    (0x890,0x891); (0x898,0x89F); (0x8C9,0x902); (0x93A,0x93A); (0x93C,0x93C); (0x941,0x948);
    (0x94D,0x94D); (0x951,0x957); (0x962,0x963); (0x971,0x971); (0x981,0x981); (0x9BC,0x9BC);
    (0x9C1,0x9C4); (0x9CD,0x9CD); (0x9E2,0x9E3); (0x9FE,0x9FE); (0xA01,0xA02); (0xA3C,0xA3C);
    (0xA41,0xA42); (0xA47,0xA48); (0xA4B,0xA4D); (0xA51,0xA51); (0xA70,0xA71); (0xA75,0xA75);
    (0xA81,0xA82); (0xABC,0xABC); (0xAC1,0xAC5); (0xAC7,0xAC8); (0xACD,0xACD); (0xAE2,0xAE3);
    (0xAFA,0xAFF); (0xB01,0xB01); (0xB3C,0xB3C); (0xB3F,0xB3F); (0xB41,0xB44); (0xB4D,0xB4D);
    (0xB55,0xB56); (0xB62,0xB63); (0xB82,0xB82); (0xBC0,0xBC0); (0xBCD,0xBCD); (0xC00,0xC00);
    (0xC04,0xC04); (0xC3C,0xC3C); (0xC3E,0xC40); (0xC46,0xC48); (0xC4A,0xC4D); (0xC55,0xC56);
    (0xC62,0xC63); (0xC81,0xC81); (0xCBC,0xCBC); (0xCBF,0xCBF); (0xCC6,0xCC6); (0xCCC,0xCCD);
    (0xCE2,0xCE3); (0xD00,0xD01); (0xD3B,0xD3C); (0xD41,0xD44); (0xD4D,0xD4D); (0xD62,0xD63);
    (0xD81,0xD81); (0xDCA,0xDCA); (0xDD2,0xDD4); (0xDD6,0xDD6); (0xE31,0xE31); (0xE34,0xE3A);
    (0xE46,0xE4E); (0xEB1,0xEB1); (0xEB4,0xEBC); (0xEC6,0xEC6); (0xEC8,0xECD); (0xF18,0xF19);
    (0xF35,0xF35); (0xF37,0xF37); (0xF39,0xF39); (0xF71,0xF7E); (0xF80,0xF84); (0xF86,0xF87);
    (0xF8D,0xF97); (0xF99,0xFBC); (0xFC6,0xFC6); (0x102D,0x1030); (0x1032,0x1037); (0x1039,0x103A);
    (0x103D,0x103E); (0x1058,0x1059); (0x105E,0x1060); (0x1071,0x1074); (0x1082,0x1082);
    (0x1085,0x1086); (0x108D,0x108D); (0x109D,0x109D); (0x10FC,0x10FC); (0x135D,0x135F);
    (0x1712,0x1714); (0x1732,0x1733); (0x1752,0x1753); (0x1772,0x1773); (0x17B4,0x17B5);
    (0x17B7,0x17BD); (0x17C6,0x17C6); (0x17C9,0x17D3); (0x17D7,0x17D7); (0x17DD,0x17DD);
    (0x180B,0x180F); (0x1843,0x1843); (0x1885,0x1886); (0x18A9,0x18A9); (0x1920,0x1922);
    (0x1927,0x1928); (0x1932,0x1932); (0x1939,0x193B); (0x1A17,0x1A18); (0x1A1B,0x1A1B);
    (0x1A56,0x1A56); (0x1A58,0x1A5E); (0x1A60,0x1A60); (0x1A62,0x1A62); (0x1A65,0x1A6C);
    (0x1A73,0x1A7C); (0x1A7F,0x1A7F); (0x1AA7,0x1AA7); (0x1AB0,0x1ACE); (0x1B00,0x1B03);
    (0x1B34,0x1B34); (0x1B36,0x1B3A); (0x1B3C,0x1B3C); (0x1B42,0x1B42); (0x1B6B,0x1B73);
    (0x1B80,0x1B81); (0x1BA2,0x1BA5); (0x1BA8,0x1BA9); (0x1BAB,0x1BAD); (0x1BE6,0x1BE6);
    (0x1BE8,0x1BE9); (0x1BED,0x1BED); (0x1BEF,0x1BF1); (0x1C2C,0x1C33); (0x1C36,0x1C37);
    (0x1C78,0x1C7D); (0x1CD0,0x1CD2); (0x1CD4,0x1CE0); (0x1CE2,0x1CE8); (0x1CED,0x1CED);
    (0x1CF4,0x1CF4); (0x1CF8,0x1CF9); (0x1D2C,0x1D6A); (0x1D78,0x1D78); (0x1D9B,0x1DFF);
    (0x1FBD,0x1FBD); (0x1FBF,0x1FC1); (0x1FCD,0x1FCF); (0x1FDD,0x1FDF); (0x1FED,0x1FEF);
    (0x1FFD,0x1FFE); (0x200B,0x200F); (0x2018,0x2019); (0x2024,0x2024); (0x2027,0x2027);
    (0x202A,0x202E); (0x2060,0x2064); (0x2066,0x206F); (0x2071,0x2071); (0x207F,0x207F);
    (0x2090,0x209C); (0x20D0,0x20F0); (0x2C7C,0x2C7D); (0x2CEF,0x2CF1); (0x2D6F,0x2D6F);
    (0x2D7F,0x2D7F); (0x2DE0,0x2DFF); (0x2E2F,0x2E2F); (0x3005,0x3005); (0x302A,0x302D);
    (0x3031,0x3035); (0x303B,0x303B); (0x3099,0x309E); (0x30FC,0x30FE); (0xA015,0xA015);
    (0xA4F8,0xA4FD); (0xA60C,0xA60C); (0xA66F,0xA672); (0xA674,0xA67D); (0xA67F,0xA67F);
    (0xA69C,0xA69F); (0xA6F0,0xA6F1); (0xA700,0xA721); (0xA770,0xA770); (0xA788,0xA78A);
    (0xA7F2,0xA7F4); (0xA7F8,0xA7F9); (0xA802,0xA802); (0xA806,0xA806); (0xA80B,0xA80B);
    (0xA825,0xA826); (0xA82C,0xA82C); (0xA8C4,0xA8C5); (0xA8E0,0xA8F1); (0xA8FF,0xA8FF);
    (0xA926,0xA92D); (0xA947,0xA951); (0xA980,0xA982); (0xA9B3,0xA9B3); (0xA9B6,0xA9B9);
    (0xA9BC,0xA9BD); (0xA9CF,0xA9CF); (0xA9E5,0xA9E6); (0xAA29,0xAA2E); (0xAA31,0xAA32);
    (0xAA35,0xAA36); (0xAA43,0xAA43); (0xAA4C,0xAA4C); (0xAA70,0xAA70); (0xAA7C,0xAA7C);
    (0xAAB0,0xAAB0); (0xAAB2,0xAAB4); (0xAAB7,0xAAB8); (0xAABE,0xAABF); (0xAAC1,0xAAC1);
    (0xAADD,0xAADD); (0xAAEC,0xAAED); (0xAAF3,0xAAF4); (0xAAF6,0xAAF6); (0xAB5B,0xAB5F);
    (0xAB69,0xAB6B); (0xABE5,0xABE5); (0xABE8,0xABE8); (0xABED,0xABED); (0xFB1E,0xFB1E);
    (0xFBB2,0xFBC2); (0xFE00,0xFE0F); (0xFE13,0xFE13); (0xFE20,0xFE2F); (0xFE52,0xFE52);
    (0xFE55,0xFE55); (0xFEFF,0xFEFF); (0xFF07,0xFF07); (0xFF0E,0xFF0E); (0xFF1A,0xFF1A);
    (0xFF3E,0xFF3E); (0xFF40,0xFF40); (0xFF70,0xFF70); (0xFF9E,0xFF9F); (0xFFE3,0xFFE3);
    (0xFFF9,0xFFFB); (0x101FD,0x101FD); (0x102E0,0x102E0); (0x10376,0x1037A); (0x10780,0x10785);
    (0x10787,0x107B0); (0x107B2,0x107BA); (0x10A01,0x10A03); (0x10A05,0x10A06); (0x10A0C,0x10A0F);
    (0x10A38,0x10A3A); (0x10A3F,0x10A3F); (0x10AE5,0x10AE6); (0x10D24,0x10D27); (0x10EAB,0x10EAC);
    (0x10F46,0x10F50); (0x10F82,0x10F85); (0x11001,0x11001); (0x11038,0x11046); (0x11070,0x11070);
    (0x11073,0x11074); (0x1107F,0x11081); (0x110B3,0x110B6); (0x110B9,0x110BA); (0x110BD,0x110BD);
    (0x110C2,0x110C2); (0x110CD,0x110CD); (0x11100,0x11102); (0x11127,0x1112B); (0x1112D,0x11134);
    (0x11173,0x11173); (0x11180,0x11181); (0x111B6,0x111BE); (0x111C9,0x111CC); (0x111CF,0x111CF);
    (0x1122F,0x11231); (0x11234,0x11234); (0x11236,0x11237); (0x1123E,0x1123E); (0x112DF,0x112DF);
    (0x112E3,0x112EA); (0x11300,0x11301); (0x1133B,0x1133C); (0x11340,0x11340); (0x11366,0x1136C);
    (0x11370,0x11374); (0x11438,0x1143F); (0x11442,0x11444); (0x11446,0x11446); (0x1145E,0x1145E);
    (0x114B3,0x114B8); (0x114BA,0x114BA); (0x114BF,0x114C0); (0x114C2,0x114C3); (0x115B2,0x115B5);
    (0x115BC,0x115BD); (0x115BF,0x115C0); (0x115DC,0x115DD); (0x11633,0x1163A); (0x1163D,0x1163D);
    (0x1163F,0x11640); (0x116AB,0x116AB); (0x116AD,0x116AD); (0x116B0,0x116B5); (0x116B7,0x116B7);
    (0x1171D,0x1171F); (0x11722,0x11725); (0x11727,0x1172B); (0x1182F,0x11837); (0x11839,0x1183A);
    (0x1193B,0x1193C); (0x1193E,0x1193E); (0x11943,0x11943); (0x119D4,0x119D7); (0x119DA,0x119DB);
    (0x119E0,0x119E0); (0x11A01,0x11A0A); (0x11A33,0x11A38); (0x11A3B,0x11A3E); (0x11A47,0x11A47);
    (0x11A51,0x11A56); (0x11A59,0x11A5B); (0x11A8A,0x11A96); (0x11A98,0x11A99); (0x11C30,0x11C36);
    (0x11C38,0x11C3D); (0x11C3F,0x11C3F); (0x11C92,0x11CA7); (0x11CAA,0x11CB0); (0x11CB2,0x11CB3);
    (0x11CB5,0x11CB6); (0x11D31,0x11D36); (0x11D3A,0x11D3A); (0x11D3C,0x11D3D); (0x11D3F,0x11D45);
    (0x11D47,0x11D47); (0x11D90,0x11D91); (0x11D95,0x11D95); (0x11D97,0x11D97); (0x11EF3,0x11EF4);
    (0x13430,0x13438); (0x16AF0,0x16AF4); (0x16B30,0x16B36); (0x16B40,0x16B43); (0x16F4F,0x16F4F);
    (0x16F8F,0x16F9F); (0x16FE0,0x16FE1); (0x16FE3,0x16FE4); (0x1AFF0,0x1AFF3); (0x1AFF5,0x1AFFB);
    (0x1AFFD,0x1AFFE); (0x1BC9D,0x1BC9E); (0x1BCA0,0x1BCA3); (0x1CF00,0x1CF2D); (0x1CF30,0x1CF46);
    (0x1D167,0x1D169); (0x1D173,0x1D182); (0x1D185,0x1D18B); (0x1D1AA,0x1D1AD); (0x1D242,0x1D244);
    (0x1DA00,0x1DA36); (0x1DA3B,0x1DA6C); (0x1DA75,0x1DA75); (0x1DA84,0x1DA84); (0x1DA9B,0x1DA9F);
    (0x1DAA1,0x1DAAF); (0x1E000,0x1E006); (0x1E008,0x1E018); (0x1E01B,0x1E021); (0x1E023,0x1E024);
    (0x1E026,0x1E02A); (0x1E130,0x1E13D); (0x1E2AE,0x1E2AE); (0x1E2EC,0x1E2EF); (0x1E8D0,0x1E8D6);
    (0x1E944,0x1E94B); (0x1F3FB,0x1F3FF); (0xE0001,0xE0001); (0xE0020,0xE007F); (0xE0100,0xE01EF) ].

(** The mapping a table gives a code point, if it lists it. *)
Fixpoint assoc (c : N) (t : list (N * list N)) : option (list N) :=
  match t with
  | [] => None
  | (k, v) :: t' => if c =? k then Some v else assoc c t'
  end.

(** Membership in a union of inclusive ranges. *)
Definition in_ranges (c : N) (r : list (N * N)) : bool :=
  existsb (λ ab, (fst ab <=? c) && (c <=? snd ab)) r.

(** [_PyUnicode_ToLowerFull], [_PyUnicode_ToTitleFull], [_PyUnicode_ToUpperFull]:
    the one to three code points a code point maps to. *)
Definition ToLowerFull (c : N) : pystr := default [c] (assoc c lower_table).
Definition ToTitleFull (c : N) : pystr := default [c] (assoc c title_table).
Definition ToUpperFull (c : N) : pystr := default [c] (assoc c upper_table).

(** [_PyUnicode_IsCased], [_PyUnicode_IsCaseIgnorable] *)
Definition IsCased (c : N) : bool := in_ranges c cased_ranges.
Definition IsCaseIgnorable (c : N) : bool := in_ranges c case_ignorable_ranges.

(** GREEK CAPITAL LETTER SIGMA and its two lowercase forms. *)
Definition SIGMA : N := 0x3A3.
Definition small_sigma : N := 0x3C3.
Definition final_sigma : N := 0x3C2.

End Unicode.

(** ** The [str] methods the forms call (CPython, Objects/unicodeobject.c) *)

Module Str.
Import Unicode.

(** [handle_capital_sigma(data, i)]: the lowercase of the capital sigma at
    index [i]. It is the final form when the nearest character before it that
    is not case-ignorable is cased, and the nearest such character after it,
    if there is one, is not cased. *)
Definition handle_capital_sigma (data : pystr) (i : nat) : N :=
  let not_ignorable c := negb (IsCaseIgnorable c) in
  let is_final :=
    match find not_ignorable (rev (take i data)) with
    | Some c =>
        IsCased c &&
        match find not_ignorable (drop (S i) data) with
        | Some d => negb (IsCased d)
        | None => true
        end
    | None => false
    end in
  if is_final then final_sigma else small_sigma.

(** [lower_ucs4(data, i, c)]: the lowercase of the character [c] found at
    index [i] of [data]. *)
Definition lower_ucs4 (data : pystr) (i : nat) (c : N) : pystr :=
  if c =? SIGMA then [handle_capital_sigma data i] else ToLowerFull c.

(** [do_lower]: every character lowered where it stands. *)
Definition do_lower (data : pystr) : pystr :=
  concat (imap (λ i c, lower_ucs4 data i c) data).

(** [do_capitalize]: the first character in title case (since Python 3.8;
    uppercase before), every later one lowered where it stands. *)
Definition do_capitalize (data : pystr) : pystr :=
  match data with
  | [] => []
  | c :: rest => ToTitleFull c ++ concat (imap (λ i d, lower_ucs4 data (S i) d) rest)
  end.

(** [s.lower()] *)
Definition lower (s : pystr) : pystr := do_lower s.

(** [s.capitalize()]; the empty string is returned as it is. *)
Definition capitalize (s : pystr) : pystr :=
  match s with
  | [] => s
  | _ => do_capitalize s
  end.

End Str.

(** ** Django form fields and widgets (django.forms) *)

Module Django.

(** The widget classes the forms meet. *)
Inductive WidgetClass : Type :=
| TextInput | NumberInput | EmailInput | DateInput | Textarea | CheckboxInput
| ClearableFileInput | Select | SelectMultiple | RadioSelect | CheckboxSelectMultiple.

(** A value of a widget's [attrs] dictionary. *)
Inductive attr_value : Type :=
| AStr (s : pystr)
| AInt (n : Z).

(** A widget, by what the forms read and write of it: its class and its
    [attrs]. What else a widget object has ([input_type], [format]) no form
    touches once the widget is constructed. *)
Record Widget : Type := mkWidget {
  widget_class : WidgetClass;
  attrs : gmap string attr_value
}.

(** [isinstance(w, forms.CheckboxSelectMultiple)]. The class has no subclass
    in django.forms, and [SelectMultiple] is not one: it derives from [Select]. *)
Definition isinstance_CheckboxSelectMultiple (w : Widget) : bool :=
  match widget_class w with
  | CheckboxSelectMultiple => true
  | _ => false
  end.

(** The stored value of a choice. *)
Inductive choice_value : Type :=
| CStr (s : pystr)
| CBool (b : bool).

(** [str(k)] of a choice's stored value. *)
Definition str_of_choice (k : choice_value) : pystr :=
  match k with
  | CStr s => s
  | CBool true => py "True"
  | CBool false => py "False"
  end.

(** A queryset, by the primary keys of its rows. *)
Definition QuerySet : Type := list N.

(** [qs.exists()] *)
Definition exists_ (qs : QuerySet) : bool :=
  match qs with
  | [] => false
  | _ :: _ => true
  end.

Inductive FieldClass : Type :=
| CharField | EmailField | IntegerField | FloatField | DateField | BooleanField
| ImageField | ChoiceField | ModelChoiceField | ModelMultipleChoiceField.

(** A form field. [queryset] is [None] on a field that has no such attribute
    (only the model choice fields have one); [label] is [None] until a label
    is given. Every field of a form owns its widget: a form deep-copies its
    class's fields when it is constructed. *)
Record Field : Type := mkField {
  field_class : FieldClass;
  required : bool;
  label : option pystr;
  widget : Widget;
  choices : list (choice_value * pystr);
  queryset : option QuerySet;
  empty_label : option pystr
}.

(** [field.widget.attrs[k] = v] *)
Definition set_widget_attr (k : string) (v : attr_value) (f : Field) : Field :=
  mkField (field_class f) (required f) (label f)
    (mkWidget (widget_class (widget f)) (<[k := v]> (attrs (widget f))))
    (choices f) (queryset f) (empty_label f).

(** [field.label = l] *)
Definition set_label (l : pystr) (f : Field) : Field :=
  mkField (field_class f) (required f) (Some l) (widget f) (choices f) (queryset f)
    (empty_label f).

(** [field.empty_label = l] *)
Definition set_empty_label (l : pystr) (f : Field) : Field :=
  mkField (field_class f) (required f) (label f) (widget f) (choices f) (queryset f)
    (Some l).

(** [field.choices = cs] *)
Definition set_choices (cs : list (choice_value * pystr)) (f : Field) : Field :=
  mkField (field_class f) (required f) (label f) (widget f) cs (queryset f)
    (empty_label f).

(** [field.widget.attrs.get(k)] *)
Definition widget_attr (k : string) (f : Field) : option attr_value :=
  attrs (widget f) !! k.

(** The codes of the [ValidationError]s a [ChoiceField] raises. *)
Inductive ValidationError : Type :=
| code_required
| code_invalid_choice.

(** The outcome of [field.clean(value)]. *)
Inductive cleaned : Type :=
| Valid (value : pystr)
| Invalid (e : ValidationError).

(** [value in self.empty_values], for what a form submits: nothing, or a [str]. *)
Definition in_empty_values (value : option pystr) : bool :=
  match value with
  | None | Some [] => true
  | Some (_ :: _) => false
  end.

(** [ChoiceField.to_python]: an empty value becomes [""]. *)
Definition to_python (value : option pystr) : pystr :=
  match value with
  | None => []
  | Some v => v
  end.

(** [Field.validate]: a required field refuses an empty value. *)
Definition Field_validate (f : Field) (value : pystr) : option ValidationError :=
  if in_empty_values (Some value) && required f then Some code_required else None.

(** [ChoiceField.valid_value]: the value is the [str] of a choice's key. *)
Definition valid_value (f : Field) (value : pystr) : bool :=
  existsb (λ kv, bool_decide (value = str_of_choice (fst kv))) (choices f).

(** [ChoiceField.validate]: [Field.validate], then a value that is true (a
    [str] that is not empty) must be a valid choice. *)
Definition ChoiceField_validate (f : Field) (value : pystr) : option ValidationError :=
  match Field_validate f value with
  | Some e => Some e
  | None =>
      match value with
      | _ :: _ => if negb (valid_value f value) then Some code_invalid_choice else None
      | [] => None
      end
  end.

(** [Field.clean] on a [ChoiceField]: [to_python], then [validate]; a
    [ChoiceField] has no validators to run. *)
Definition ChoiceField_clean (f : Field) (value : option pystr) : cleaned :=
  let value := to_python value in
  match ChoiceField_validate f value with
  | Some e => Invalid e
  | None => Valid value
  end.

End Django.
Export Django.

(** [self.fields] of a form, and the CSS class the forms give their widgets. *)
Abbreviation form_fields := (gmap string Field).
Abbreviation form_control := (AStr (py "form-control")).

(** [self.cleaned_data] of the user forms: every field of theirs cleans to a [str]. *)
Abbreviation cleaned_data := (gmap string pystr).

(** ** viajes/forms.py *)

Module RegistroForm.

Definition clean_first_name (self : cleaned_data) : pystr :=
  let first_name := get self "first_name" [] in
  Str.capitalize first_name.

Definition clean_last_name (self : cleaned_data) : pystr :=
  let last_name := get self "last_name" [] in
  Str.capitalize last_name.

Definition clean_username (self : cleaned_data) : pystr :=
  let username := get self "username" [] in
  Str.lower username.

End RegistroForm.

Module EditarUsuarioForm.

Definition clean_first_name (self : cleaned_data) : result pystr :=
  first_name ← getitem self "first_name";
  mret (Str.capitalize first_name).

Definition clean_last_name (self : cleaned_data) : result pystr :=
  last_name ← getitem self "last_name";
  mret (Str.capitalize last_name).

End EditarUsuarioForm.

(** A field as [ModelForm] builds it from a column, with the class's default
    widget and no attribute of its own. *)
Definition model_field (c : FieldClass) (req : bool) (w : WidgetClass) : Field :=
  mkField c req None (mkWidget w ∅) [] None None.

(** [forms.Textarea(attrs={'rows': 4})]: the given attributes update the
    widget's defaults, [cols] 40 and [rows] 10. *)
Definition textarea_4_rows : Widget :=
  mkWidget Textarea (<["rows" := AInt 4]> {[ "cols" := AStr (py "40"); "rows" := AStr (py "10") ]}).

(** [Input.__init__(attrs)], the constructor of the input widgets
    ([TextInput], [DateInput], ...): it takes [type] out of the attributes it
    is given, to keep it as the widget's [input_type], and the attributes
    that remain are the widget's [attrs]. *)
Definition Input_init (cls : WidgetClass) (given : gmap string attr_value) : Widget :=
  mkWidget cls (delete "type" given).

(** [forms.DateInput(attrs={'type': 'date'}, format='%Y-%m-%d')]: the date
    input is left with no attribute, [type] being its [input_type]. *)
Definition date_input : Widget :=
  Input_init DateInput {[ "type" := AStr (py "date") ]}.

Module GuiaForm.

(** The declared field [fecha_nac]. *)
Definition fecha_nac : Field :=
  mkField DateField false (Some (py "Fecha de nacimiento")) date_input [] None None.

(** Modelled from the spec: the columns of the model [Guia] (models.py is
    not among the sources), as the fields [ModelForm] builds for
    [Meta.fields] before [__init__] touches them: name, surname, e-mail,
    national id, phone, city and country as one-line text, an optional
    biography in the [Meta.widgets] text area, an optional photo, and the
    declared [fecha_nac]. Attributes that come from column lengths are left out. *)
Definition base_fields : form_fields :=
  list_to_map
    [ ("nombre", model_field CharField true TextInput);
      ("apellido", model_field CharField true TextInput);
      ("email", model_field EmailField true EmailInput);
      ("dni", model_field CharField true TextInput);
      ("telefono", model_field CharField true TextInput);
      ("fecha_nac", fecha_nac);
      ("ciudad", model_field CharField true TextInput);
      ("pais", model_field CharField true TextInput);
      ("sobre_mi", mkField CharField false None textarea_4_rows [] None None);
      ("foto", model_field ImageField false ClearableFileInput) ].

(** [__init__], after [super().__init__()] has built [self.fields]. *)
Definition __init__ (fields : form_fields) : form_fields :=
  set_widget_attr "class" form_control <$> fields.

End GuiaForm.

Module PilotoForm.

Definition fecha_nac : Field := GuiaForm.fecha_nac.

(** The declared field [avatar]: [ChoiceField(choices=[], widget=RadioSelect)],
    required as every field is unless told otherwise. *)
Definition avatar : Field :=
  mkField ChoiceField true None (mkWidget RadioSelect ∅) [] None None.

(** Modelled from the spec: the columns of the model [Piloto] (models.py is
    not among the sources), as the fields [ModelForm] builds for
    [Meta.fields]: phone, city, country and motorcycle as one-line text, an
    optional biography in the [Meta.widgets] text area, and the declared
    [fecha_nac] and [avatar]. *)
Definition base_fields : form_fields :=
  list_to_map
    [ ("telefono", model_field CharField true TextInput);
      ("fecha_nac", fecha_nac);
      ("ciudad", model_field CharField true TextInput);
      ("pais", model_field CharField true TextInput);
      ("sobre_mi", mkField CharField false None textarea_4_rows [] None None);
      ("moto", model_field CharField true TextInput);
      ("avatar", avatar) ].

(** [os.path.join(a, b)] on POSIX. *)
Definition os_path_join (a b : pystr) : pystr :=
  match b with
  | 0x2F :: _ => b
  | _ =>
      match last a with
      | None => b
      | Some 0x2F => a ++ b
      | Some _ => a ++ 0x2F :: b
      end
  end.

(** [__init__], after [super().__init__()] has built [self.fields].
    [BASE_DIR] is [settings.BASE_DIR]; [listdir] is [os.listdir] on the file
    system of the moment: the names in a directory, in no promised order, or
    the [OSError] of a directory that cannot be listed. *)
Definition __init__ (BASE_DIR : pystr) (listdir : pystr → result (list pystr))
    (fields : form_fields) : result form_fields :=
  let avatars_dir := os_path_join BASE_DIR (py "static/avatars") in
  names ← listdir avatars_dir;
  let avatars := sorted names in
  let cs := map (λ a, (CStr a, a)) avatars in
  avatar_field ← getitem fields "avatar";
  mret (<["avatar" := set_choices cs avatar_field]> fields).

End PilotoForm.

Module ViajeForm.

(** Modelled from the spec: the column [guia] of the model [Viaje]
    (models.py is not among the sources), an optional guide chosen among the
    guide records: a [ModelChoiceField] over them, with the widget and the
    empty label of its class. *)
Definition guia_field (guias : QuerySet) : Field :=
  mkField ModelChoiceField false None (mkWidget Select ∅) [] (Some guias)
    (Some (py "---------")).

(** Modelled from the spec: the column [pilotos] of the model [Viaje]
    (models.py is not among the sources), a set of pilots chosen among the
    pilot records: a [ModelMultipleChoiceField] over them. [Meta.widgets]
    names no widget for it, so it has the widget of its class,
    [ModelMultipleChoiceField.widget = SelectMultiple]. *)
Definition pilotos_field (pilotos : QuerySet) : Field :=
  mkField ModelMultipleChoiceField false None (mkWidget SelectMultiple ∅) [] (Some pilotos)
    None.

(** Modelled from the spec: the columns of the model [Viaje] (models.py is
    not among the sources), as the fields [ModelForm] builds for
    [Meta.fields]: name and difficulty as one-line text, the description in
    the [Meta.widgets] text area, the departure date in the [Meta.widgets]
    date input, day count, kilometres and maximum pilots as numbers, the
    guide, the pilots, and the boolean [activo]. *)
Definition base_fields (guias pilotos : QuerySet) : form_fields :=
  list_to_map
    [ ("nombre", model_field CharField true TextInput);
      ("detalle", mkField CharField true None textarea_4_rows [] None None);
      ("fecha_salida", mkField DateField true None date_input [] None None);
      ("cant_dias", model_field IntegerField true NumberInput);
      ("km", model_field IntegerField true NumberInput);
      ("dificultad", model_field CharField true TextInput);
      ("guia", guia_field guias);
      ("pilotos", pilotos_field pilotos);
      ("activo", model_field BooleanField false CheckboxInput);
      ("max_pilotos", model_field IntegerField true NumberInput) ].

(** The body of the loop over [self.fields.items()]. *)
Definition style (field : Field) : Field :=
  if negb (isinstance_CheckboxSelectMultiple (widget field))
  then set_widget_attr "class" form_control field
  else field.

(** The block on the field [guia], once the field is found: [hasattr] holds
    when the field has a queryset, and the field object is updated in place. *)
Definition relabel (guia_field : Field) : Field :=
  match queryset guia_field with
  | Some qs =>
      if negb (exists_ qs)
      then set_empty_label (py "Aún sin asignar") guia_field
      else set_empty_label (py "Seleccione una guía") guia_field
  | None => guia_field
  end.

(** [self.fields.get('guia', None)] and the block on it; a field object is
    always true. *)
Definition label_guia (fields : form_fields) : form_fields :=
  match fields !! "guia" with
  | Some guia_field => <["guia" := relabel guia_field]> fields
  | None => fields
  end.

(** The field that replaces [activo]. *)
Definition activo : Field :=
  mkField ChoiceField true (Some (py "Estado"))
    (mkWidget Select {[ "class" := form_control ]})
    [ (CBool true, py "Activo"); (CBool false, py "Borrador") ] None None.

(** [__init__], after [super().__init__()] has built [self.fields]. *)
Definition __init__ (fields : form_fields) : result form_fields :=
  let fields := style <$> fields in
  pilotos ← getitem fields "pilotos";
  let fields := <["pilotos" := set_widget_attr "id" (AStr (py "id_pilotos")) pilotos]> fields in
  km ← getitem fields "km";
  let fields := <["km" := set_label (py "Kilómetros") km]> fields in
  max_pilotos ← getitem fields "max_pilotos";
  let fields :=
    <["max_pilotos" := set_label (py "Máxima cantidad de pilotos") max_pilotos]> fields in
  let fields := label_guia fields in
  mret (<["activo" := activo]> fields).

End ViajeForm.

(** ** Vocabulary of the properties *)

Module Spec.
Import Unicode.

(** Capitalization in the words of the specification: the first character
    uppercase, the remainder lowercase. *)
Definition capitalize (s : pystr) : pystr :=
  match s with
  | [] => []
  | c :: r => ToUpperFull c ++ Str.lower r
  end.

(** LATIN SMALL LETTER N PRECEDED BY APOSTROPHE *)
Definition n_preceded_by_apostrophe : N := 0x149.

(** A character that lowercasing leaves alone, wherever it stands. *)
Definition is_lowered (c : N) : bool :=
  negb (c =? SIGMA) &&
  match ToLowerFull c with
  | [d] => d =? c
  | _ => false
  end.

(** A character whose title case is settled: the first character of its
    title-case mapping is its own title case, and the others are lowered. *)
Definition title_settled (c : N) : bool :=
  match ToTitleFull c with
  | t :: tl =>
      match ToTitleFull t with
      | [t'] => t' =? t
      | _ => false
      end && forallb is_lowered tl
  | [] => false
  end.

(** The values on which title case and uppercase of the first character
    agree and whose remainder has no capital sigma. *)
Definition plain_case (s : pystr) : Prop :=
  match s with
  | [] => True
  | c :: r => ToTitleFull c = ToUpperFull c ∧ SIGMA ∉ r
  end.

(** An ASCII value. *)
Definition ascii (s : pystr) : Prop := Forall (λ c, c < 0x80) s.

(** The characters [l], each lowered as the character of [data] at index
    [g 0], [g 1], ...: the loop of [do_lower] ([g] the identity, [l] the whole
    of [data]) and the second loop of [do_capitalize] ([g] the successor, [l]
    the tail of [data]). *)
Definition lowered_from (data : pystr) (g : nat → nat) (l : pystr) : pystr :=
  concat (imap (λ i d, Str.lower_ucs4 data (g i) d) l).

(** An ASCII letter in the other case; every other code point as it is. *)
Definition ascii_upper (c : N) : N :=
  if (0x61 <=? c) && (c <=? 0x7A) then c - 0x20 else c.

Definition ascii_lower (c : N) : N :=
  if (0x41 <=? c) && (c <=? 0x5A) then c + 0x20 else c.

(** Capitalization letter by letter, as it is on ASCII. *)
Definition ascii_capitalize (s : pystr) : pystr :=
  match s with
  | [] => []
  | c :: r => ascii_upper c :: map ascii_lower r
  end.

(** Two fields that differ at most in the attribute [class] of their widget. *)
Definition same_but_class (f f' : Field) : Prop :=
  field_class f' = field_class f ∧
  required f' = required f ∧
  label f' = label f ∧
  choices f' = choices f ∧
  queryset f' = queryset f ∧
  empty_label f' = empty_label f ∧
  widget_class (widget f') = widget_class (widget f) ∧
  ∀ k, k ≠ "class" → widget_attr k f' = widget_attr k f.

(** A character lowercased: its lowercase mapping, and for the capital sigma
    one of its two lowercase forms. *)
Definition lowered_char (d : N) (piece : pystr) : Prop :=
  if d =? SIGMA
  then piece = [small_sigma] ∨ piece = [final_sigma]
  else piece = ToLowerFull d.

End Spec.

(** ** Properties of the case tables *)

Section CaseTables.
Import Unicode Spec.

(** What holds of every entry of a table holds of the entry a lookup finds. *)
Lemma assoc_forallb (P : N → list N → bool) (t : list (N * list N)) (c : N) (v : list N) :
  forallb (λ kv, P (fst kv) (snd kv)) t = true → assoc c t = Some v → P c v = true.
Proof.
  induction t as [|[k w] t IH]; simpl; [discriminate|].
  intros [Hk Ht]%andb_prop. destruct (N.eqb_spec c k) as [->|_].
  - intros [= <-]. exact Hk.
  - auto.
Qed.

Lemma is_lowered_spec (c : N) :
  is_lowered c = true ↔ c ≠ SIGMA ∧ ToLowerFull c = [c].
Proof.
  unfold is_lowered. rewrite andb_true_iff, negb_true_iff, N.eqb_neq.
  split; intros [H1 H2]; split; trivial.
  - destruct (ToLowerFull c) as [|d [|]]; try discriminate.
    apply N.eqb_eq in H2. by subst.
  - rewrite H2. apply N.eqb_refl.
Qed.

(** Every character of a lowercase mapping is lowered. *)
Lemma ToLowerFull_lowered (c : N) : forallb is_lowered (ToLowerFull c) = true.
Proof.
  unfold ToLowerFull. destruct (assoc c lower_table) as [v|] eqn:E; simpl.
  - revert E. apply (assoc_forallb (λ _ v, forallb is_lowered v)). vm_compute. reflexivity.
  - rewrite andb_true_r. apply is_lowered_spec. split.
    + intros ->. vm_compute in E. discriminate.
    + unfold ToLowerFull. by rewrite E.
Qed.

(** Both lowercase forms of the capital sigma are lowered. *)
Lemma sigmas_lowered : is_lowered small_sigma = true ∧ is_lowered final_sigma = true.
Proof. split; vm_compute; reflexivity. Qed.

(** Title case is settled for every character but one. *)
Lemma title_settled_but_one (c : N) :
  c ≠ n_preceded_by_apostrophe → title_settled c = true.
Proof.
  intros Hc. unfold title_settled, ToTitleFull at 1.
  destruct (assoc c title_table) as [v|] eqn:E; simpl.
  - revert E Hc.
    pose (P := λ (k : N) (v : list N),
      (k =? n_preceded_by_apostrophe) ||
      match v with
      | t :: tl =>
          match ToTitleFull t with [t'] => t' =? t | _ => false end && forallb is_lowered tl
      | [] => false
      end).
    intros E Hc. assert (P c v = true) as HP.
    { revert E. apply assoc_forallb. vm_compute. reflexivity. }
    unfold P in HP. apply orb_true_iff in HP as [HP|HP]; [|exact HP].
    apply N.eqb_eq in HP. contradiction.
  - unfold ToTitleFull. rewrite E. simpl. by rewrite N.eqb_refl.
Qed.

(** On ASCII, title case is uppercase. *)
Lemma ascii_title_upper (c : N) : c < 0x80 → ToTitleFull c = ToUpperFull c.
Proof.
  intros Hc.
  assert (forallb (λ n, bool_decide (ToTitleFull (N.of_nat n) = ToUpperFull (N.of_nat n)))
            (seq 0 128) = true) as H by (vm_compute; reflexivity).
  rewrite forallb_forall in H. specialize (H (N.to_nat c)).
  rewrite N2Nat.id in H. apply bool_decide_eq_true in H; [exact H|].
  apply in_seq. lia.
Qed.

End CaseTables.

(** ** Properties of [str.lower] and [str.capitalize] *)

Section StrProperties.
Import Unicode Spec Str.

Lemma lower_unfold (s : pystr) : lower s = lowered_from s id s.
Proof. reflexivity. Qed.

Lemma capitalize_cons (c : N) (r : pystr) :
  capitalize (c :: r) = ToTitleFull c ++ lowered_from (c :: r) S r.
Proof. reflexivity. Qed.

Lemma lowered_from_cons data g d l :
  lowered_from data g (d :: l) = lower_ucs4 data (g 0%nat) d ++ lowered_from data (g ∘ S) l.
Proof. reflexivity. Qed.

(** Only the capital sigma is lowered by its context. *)
Lemma lower_ucs4_not_sigma data i c : c ≠ SIGMA → lower_ucs4 data i c = ToLowerFull c.
Proof. intros Hc. unfold lower_ucs4. by destruct (N.eqb_spec c SIGMA). Qed.

(** Whatever a character is lowered to is lowered. *)
Lemma lower_ucs4_lowered data i c : forallb is_lowered (lower_ucs4 data i c) = true.
Proof.
  unfold lower_ucs4. destruct (c =? SIGMA); [|apply ToLowerFull_lowered].
  simpl. rewrite andb_true_r. unfold handle_capital_sigma.
  match goal with |- is_lowered (if ?b then _ else _) = true => destruct b end;
    apply sigmas_lowered.
Qed.

Lemma lowered_from_lowered data g l : forallb is_lowered (lowered_from data g l) = true.
Proof.
  revert g. induction l as [|d l IH]; intros g; [reflexivity|].
  rewrite lowered_from_cons, forallb_app, lower_ucs4_lowered. apply IH.
Qed.

(** Lowering leaves lowered characters as they are, whatever surrounds them. *)
Lemma lowered_from_fixed data g l :
  forallb is_lowered l = true → lowered_from data g l = l.
Proof.
  revert g. induction l as [|d l IH]; intros g; [reflexivity|].
  simpl. intros [Hd Hl]%andb_prop. apply is_lowered_spec in Hd as [Hd1 Hd2].
  rewrite lowered_from_cons, lower_ucs4_not_sigma, Hd2 by exact Hd1.
  simpl. f_equal. by apply IH.
Qed.

(** Without a capital sigma, lowering does not look at the context. *)
Lemma lowered_from_no_sigma data g l :
  SIGMA ∉ l → lowered_from data g l = concat (ToLowerFull <$> l).
Proof.
  revert g. induction l as [|d l IH]; intros g Hl; [reflexivity|].
  apply not_elem_of_cons in Hl as [Hd Hl].
  rewrite lowered_from_cons, lower_ucs4_not_sigma by congruence.
  simpl. f_equal. by apply IH.
Qed.

(** Lowering goes character by character, in order: the result is the
    lowered characters one after the other. *)
Lemma lowered_from_pieces data g (l : pystr) :
  lowered_from data g l = concat (imap (λ i d, lower_ucs4 data (g i) d) l) ∧
  Forall2 lowered_char l (imap (λ i d, lower_ucs4 data (g i) d) l).
Proof.
  split; [reflexivity|].
  revert g. induction l as [|d l IH]; intros g; [constructor|].
  rewrite imap_cons. constructor; [|apply (IH (g ∘ S))].
  unfold lowered_char, lower_ucs4. destruct (d =? SIGMA); [|reflexivity].
  unfold handle_capital_sigma.
  match goal with |- [if ?b then _ else _] = _ ∨ _ => destruct b end; auto.
Qed.

(** The first character of a string is never a final sigma: it is lowered
    by its lowercase mapping, and what follows it by its place in the string. *)
Lemma lower_cons (c : N) (r : pystr) :
  lower (c :: r) = ToLowerFull c ++ lowered_from (c :: r) S r.
Proof.
  rewrite lower_unfold, lowered_from_cons.
  change (lowered_from (c :: r) (id ∘ S) r) with (lowered_from (c :: r) S r).
  f_equal. unfold lower_ucs4. destruct (N.eqb_spec c SIGMA) as [->|_]; [|reflexivity].
  vm_compute. reflexivity.
Qed.

(** [str.lower] is idempotent. *)
Lemma lower_idempotent (s : pystr) : lower (lower s) = lower s.
Proof. rewrite !lower_unfold. apply lowered_from_fixed, lowered_from_lowered. Qed.

(** [str.capitalize] is idempotent on a string whose first character has a
    settled title case. *)
Lemma capitalize_settled (c : N) (r : pystr) :
  title_settled c = true → capitalize (capitalize (c :: r)) = capitalize (c :: r).
Proof.
  intros Hc. rewrite (capitalize_cons c r). unfold title_settled in Hc.
  destruct (ToTitleFull c) as [|t tl]; [discriminate|].
  apply andb_prop in Hc as [Ht Htl].
  destruct (ToTitleFull t) as [|t' [|]] eqn:Et; try discriminate.
  apply N.eqb_eq in Ht. subst t'.
  change ((t :: tl) ++ lowered_from (c :: r) S r) with (t :: (tl ++ lowered_from (c :: r) S r)).
  rewrite capitalize_cons, Et. simpl. f_equal.
  apply lowered_from_fixed. rewrite forallb_app, Htl. apply lowered_from_lowered.
Qed.

(** Where title case is uppercase and no capital sigma follows,
    [str.capitalize] is capitalization in the words of the specification. *)
Lemma capitalize_plain (s : pystr) : plain_case s → capitalize s = Spec.capitalize s.
Proof.
  destruct s as [|c r]; [reflexivity|]. intros [Hc Hr].
  rewrite capitalize_cons. simpl. rewrite Hc, lower_unfold. f_equal.
  by rewrite !lowered_from_no_sigma.
Qed.

Lemma ascii_plain_case (s : pystr) : ascii s → plain_case s.
Proof.
  destruct s as [|c r]; [done|]. intros [Hc Hr]%Forall_cons. split.
  - by apply ascii_title_upper.
  - intros Hin. rewrite Forall_forall in Hr. apply Hr in Hin. vm_compute in Hin. discriminate.
Qed.

End StrProperties.

(** ** The user forms: RegistroForm and EditarUsuarioForm *)

Section UserForms.
Import Unicode Spec.

(** C5, as the specification states it, fails: capitalizing U+0149 (n
    preceded by apostrophe) gives U+02BC U+004E, an apostrophe and a capital
    N, and capitalizing that gives U+02BC U+006E, with a small n. *)
Lemma capitalize_twice_differs :
  Str.capitalize [0x149] = [0x2BC; 0x4E] ∧
  Str.capitalize (Str.capitalize [0x149]) = [0x2BC; 0x6E] ∧
  Str.capitalize (Str.capitalize [0x149]) ≠ Str.capitalize [0x149].
Proof. repeat apply conj; [vm_compute; reflexivity .. | vm_compute; discriminate]. Qed.

(** C5, amended: the capitalization that [clean_first_name] and
    [clean_last_name] apply is idempotent on every string that does not
    start with U+0149: capitalize(capitalize(s)) == capitalize(s). *)
Theorem capitalize_idempotent (s : pystr) :
  head s ≠ Some n_preceded_by_apostrophe →
  Str.capitalize (Str.capitalize s) = Str.capitalize s.
Proof.
  destruct s as [|c r]; [reflexivity|]. simpl. intros Hc.
  apply capitalize_settled, title_settled_but_one. congruence.
Qed.

Lemma capitalize_idempotent_witness :
  head (py "maría") ≠ Some n_preceded_by_apostrophe ∧
  Str.capitalize (Str.capitalize (py "maría")) = Str.capitalize (py "maría").
Proof.
  split; [vm_compute; discriminate|].
  apply (capitalize_idempotent (py "maría")). vm_compute. discriminate.
Defined.

(** C6, as the specification states it, fails: the first name U+01C6 (the
    small digraph dz with caron) is returned as U+01C5, its title case (capital
    D, small z), where its uppercase is U+01C4; the character returned is not
    an uppercase one, uppercasing changes it. And the first name U+0149 is
    returned as U+02BC U+004E, whose remainder is a capital N. *)
Lemma first_name_in_title_case :
  RegistroForm.clean_first_name {[ "first_name" := [0x1C6] ]} = [0x1C5] ∧
  Spec.capitalize [0x1C6] = [0x1C4] ∧
  ToUpperFull 0x1C5 = [0x1C4] ∧
  RegistroForm.clean_first_name {[ "first_name" := [0x1C6] ]} ≠ Spec.capitalize [0x1C6] ∧
  RegistroForm.clean_first_name {[ "first_name" := [0x149] ]} = [0x2BC; 0x4E] ∧
  Str.lower [0x4E] = [0x6E].
Proof. repeat apply conj; [vm_compute; reflexivity .. | vm_compute; discriminate | | ];
  vm_compute; reflexivity. Qed.

(** C6, amended: the Registration form's normalization never fails, whatever
    was submitted and also with nothing submitted. [first_name] and
    [last_name] are returned as the title-case mapping of the first
    character followed by the remaining characters lowercased, one after the
    other and none left out: the same characters that follow the lowercase
    of the first character in the lowercased value. This is the first
    character uppercase and the remainder lowercase whenever the title case
    of the first character is its uppercase and no capital sigma follows it,
    as in every ASCII value. [username] is returned lowercased, character by
    character, so that lowercasing it again changes nothing. In particular
    the username John is returned as john and the first name maría as María. *)
Theorem registro_normalization (self : cleaned_data) :
  (plain_case (get self "first_name" []) →
   RegistroForm.clean_first_name self = Spec.capitalize (get self "first_name" [])) ∧
  (plain_case (get self "last_name" []) →
   RegistroForm.clean_last_name self = Spec.capitalize (get self "last_name" [])) ∧
  (∀ s, ascii s → plain_case s) ∧
  (∀ c r, get self "first_name" [] = c :: r →
          ∃ pieces,
            RegistroForm.clean_first_name self = ToTitleFull c ++ concat pieces ∧
            Forall2 lowered_char r pieces ∧
            Str.lower (c :: r) = ToLowerFull c ++ concat pieces ∧
            forallb is_lowered (concat pieces) = true) ∧
  (∀ c r, get self "last_name" [] = c :: r →
          ∃ pieces,
            RegistroForm.clean_last_name self = ToTitleFull c ++ concat pieces ∧
            Forall2 lowered_char r pieces ∧
            Str.lower (c :: r) = ToLowerFull c ++ concat pieces ∧
            forallb is_lowered (concat pieces) = true) ∧
  RegistroForm.clean_username self = Str.lower (get self "username" []) ∧
  (∃ pieces,
     RegistroForm.clean_username self = concat pieces ∧
     Forall2 lowered_char (get self "username" []) pieces) ∧
  Str.lower (RegistroForm.clean_username self) = RegistroForm.clean_username self ∧
  RegistroForm.clean_username {[ "username" := py "John" ]} = py "john" ∧
  RegistroForm.clean_first_name {[ "first_name" := py "maría" ]} = py "María" ∧
  RegistroForm.clean_first_name ∅ = [] ∧
  RegistroForm.clean_last_name ∅ = [] ∧
  RegistroForm.clean_username ∅ = [].
Proof.
  repeat apply conj.
  - apply capitalize_plain.
  - apply capitalize_plain.
  - apply ascii_plain_case.
  - intros c r Hv. unfold RegistroForm.clean_first_name. rewrite Hv, capitalize_cons, lower_cons.
    destruct (lowered_from_pieces (c :: r) S r) as [-> Hpieces].
    eexists. split; [reflexivity|]. split; [exact Hpieces|]. split; [reflexivity|].
    apply (lowered_from_lowered (c :: r) S r).
  - intros c r Hv. unfold RegistroForm.clean_last_name. rewrite Hv, capitalize_cons, lower_cons.
    destruct (lowered_from_pieces (c :: r) S r) as [-> Hpieces].
    eexists. split; [reflexivity|]. split; [exact Hpieces|]. split; [reflexivity|].
    apply (lowered_from_lowered (c :: r) S r).
  - reflexivity.
  - unfold RegistroForm.clean_username. rewrite lower_unfold.
    destruct (lowered_from_pieces (get self "username" []) id (get self "username" []))
      as [-> Hpieces].
    eexists. split; [reflexivity|exact Hpieces].
  - apply lower_idempotent.
  - vm_compute. reflexivity.
  - vm_compute. reflexivity.
  - vm_compute. reflexivity.
  - vm_compute. reflexivity.
  - vm_compute. reflexivity.
Qed.

Lemma registro_normalization_witness :
  RegistroForm.clean_first_name {[ "first_name" := py "JOHN" ]} = py "John".
Proof.
  transitivity (Spec.capitalize (get ({[ "first_name" := py "JOHN" ]} : cleaned_data)
                                   "first_name" [])).
  - apply (registro_normalization {[ "first_name" := py "JOHN" ]}).
    vm_compute. split; [reflexivity|].
    intros H. repeat (apply elem_of_cons in H as [H|H]; [discriminate|]).
    by apply elem_of_nil in H.
  - vm_compute. reflexivity.
Defined.

(** C10: in the User Edit form, [clean_first_name] and [clean_last_name]
    index [cleaned_data] with no guard: when the key is absent they raise
    [KeyError] and return nothing, where the Registration form's methods take
    the empty string and return it; when the key is present both forms
    return the capitalized value. *)
Theorem editar_usuario_unguarded (self : cleaned_data) :
  (self !! "first_name" = None →
   EditarUsuarioForm.clean_first_name self = Raise (KeyError "first_name") ∧
   RegistroForm.clean_first_name self = []) ∧
  (self !! "last_name" = None →
   EditarUsuarioForm.clean_last_name self = Raise (KeyError "last_name") ∧
   RegistroForm.clean_last_name self = []) ∧
  (∀ v, self !! "first_name" = Some v →
   EditarUsuarioForm.clean_first_name self = Ok (Str.capitalize v) ∧
   RegistroForm.clean_first_name self = Str.capitalize v) ∧
  (∀ v, self !! "last_name" = Some v →
   EditarUsuarioForm.clean_last_name self = Ok (Str.capitalize v) ∧
   RegistroForm.clean_last_name self = Str.capitalize v).
Proof.
  unfold EditarUsuarioForm.clean_first_name, EditarUsuarioForm.clean_last_name,
    RegistroForm.clean_first_name, RegistroForm.clean_last_name, getitem, get.
  repeat apply conj; intros; simplify_option_eq; by repeat apply conj.
Qed.

Lemma editar_usuario_unguarded_witness :
  EditarUsuarioForm.clean_first_name {[ "email" := py "ana@example.org" ]}
    = Raise (KeyError "first_name") ∧
  RegistroForm.clean_first_name {[ "email" := py "ana@example.org" ]} = [].
Proof.
  apply (editar_usuario_unguarded {[ "email" := py "ana@example.org" ]}).
  vm_compute. reflexivity.
Defined.

End UserForms.

(** ** The order of [str] *)

Section StrOrder.

Lemma compare_eq (s t : pystr) : Py.compare s t = Eq → s = t.
Proof.
  revert t. induction s as [|a s IH]; intros [|b t]; simpl; try discriminate; [done|].
  destruct (N.compare_spec a b) as [->| |]; try discriminate.
  intros H. f_equal. by apply IH.
Qed.

Lemma compare_antisym (s t : pystr) : Py.compare t s = CompOpp (Py.compare s t).
Proof.
  revert t. induction s as [|a s IH]; intros [|b t]; simpl; try reflexivity.
  rewrite (N.compare_antisym a b). destruct (N.compare a b); simpl; auto.
Qed.

Lemma compare_lt_trans (s t u : pystr) :
  Py.compare s t = Lt → Py.compare t u = Lt → Py.compare s u = Lt.
Proof.
  revert t u. induction s as [|a s IH]; intros [|b t] [|c u]; simpl; try done.
  destruct (N.compare_spec a b) as [->|Hab|Hab]; [| |done].
  - destruct (N.compare b c); intros; try done; eauto.
  - destruct (N.compare_spec b c) as [Hbc|Hbc|Hbc]; [| |done]; intros _ _.
    + subst. by rewrite (proj2 (N.compare_lt_iff _ _) Hab).
    + by rewrite (proj2 (N.compare_lt_iff a c)) by lia.
Qed.

Lemma le_cases (s t : pystr) : Py.le s t ↔ s = t ∨ Py.compare s t = Lt.
Proof.
  unfold Py.le. split.
  - destruct (Py.compare s t) eqn:E; [left; by apply compare_eq | by right | done].
  - intros [-> | ->]; [|done].
    assert (Py.compare t t = CompOpp (Py.compare t t)) as H by apply compare_antisym.
    destruct (Py.compare t t); done.
Qed.

Lemma le_total : Total Py.le.
Proof.
  intros s t. unfold Py.le. rewrite (compare_antisym s t).
  destruct (Py.compare s t); simpl; [left|left|right]; done.
Qed.

Lemma le_trans : Transitive Py.le.
Proof.
  intros s t u [->|Hst]%le_cases [->|Htu]%le_cases; apply le_cases; auto.
  right. by apply compare_lt_trans with t.
Qed.

Lemma le_antisym (s t : pystr) : Py.le s t → Py.le t s → s = t.
Proof.
  intros [->|Hst]%le_cases; [done|]. unfold Py.le.
  rewrite (compare_antisym s t), Hst. done.
Qed.

(** The order is the ordinal one: [s <= t] when [s] is a prefix of [t], or
    when at the first place where they differ the code point of [s] is the
    smaller. Upper and lower case are different code points. *)
Lemma le_ordinal (s t : pystr) :
  Py.le s t ↔
  (∃ u, t = s ++ u) ∨
  (∃ p a b s' t', s = p ++ a :: s' ∧ t = p ++ b :: t' ∧ a < b).
Proof.
  unfold Py.le. revert t. induction s as [|a s IH]; intros [|b t]; simpl.
  - split; [left; by exists []|done].
  - split; [left; by eexists|done].
  - split; [done|]. intros [[u Hu]|(p & x & y & s' & t' & _ & Ht & _)].
    + discriminate.
    + by destruct p.
  - destruct (N.compare_spec a b) as [->|Hab|Hab].
    + rewrite IH. split.
      * intros [[u ->]|(p & x & y & s' & t' & -> & -> & Hxy)].
        -- left. by exists u.
        -- right. by exists (b :: p), x, y, s', t'.
      * intros [[u [= ->]]|(p & x & y & s' & t' & Hs & Ht & Hxy)].
        -- left. by exists u.
        -- destruct p as [|c p]; simplify_eq/=.
           ++ lia.
           ++ right. by exists p, x, y, s', t'.
    + split; [|done]. intros _. right. by exists [], a, b, s, t.
    + split; [done|]. intros [[u [= -> _]]|(p & x & y & s' & t' & Hs & Ht & Hxy)].
      * lia.
      * destruct p as [|c p]; simplify_eq/=; lia.
Qed.

Lemma sorted_ascending (names : list pystr) : StronglySorted Py.le (sorted names).
Proof. apply (@StronglySorted_merge_sort _ Py.le _ le_trans le_total). Qed.

Lemma sorted_permutation (names : list pystr) : sorted names ≡ₚ names.
Proof. apply merge_sort_Permutation. Qed.

End StrOrder.

(** ** Widget attributes *)

Section WidgetAttributes.

Lemma widget_attr_set (k : string) (v : attr_value) (f : Field) :
  widget_attr k (set_widget_attr k v f) = Some v.
Proof. apply lookup_insert_eq. Qed.

Lemma widget_attr_set_ne (k k' : string) (v : attr_value) (f : Field) :
  k ≠ k' → widget_attr k' (set_widget_attr k v f) = widget_attr k' f.
Proof. intros. by apply lookup_insert_ne. Qed.

End WidgetAttributes.

(** ** GuiaForm *)

Section Guia.

(** C7: after the Guide form is constructed it has the fields it had before
    [__init__] ran, and every one of them, with no exemption, has the
    widget attribute [class] equal to "form-control". *)
Theorem guia_every_field_form_control (fields : form_fields) :
  (∀ name, is_Some (GuiaForm.__init__ fields !! name) ↔ is_Some (fields !! name)) ∧
  (∀ name field, GuiaForm.__init__ fields !! name = Some field →
                 widget_attr "class" field = Some form_control).
Proof.
  unfold GuiaForm.__init__. split.
  - intros name. rewrite lookup_fmap. apply fmap_is_Some.
  - intros name field. rewrite lookup_fmap.
    intros (f0 & _ & ->)%fmap_Some. apply widget_attr_set.
Qed.

Lemma guia_every_field_form_control_witness :
  ∃ field, GuiaForm.__init__ GuiaForm.base_fields !! "foto" = Some field ∧
           widget_attr "class" field = Some form_control.
Proof.
  exists (set_widget_attr "class" form_control (model_field ImageField false ClearableFileInput)).
  split; [reflexivity|].
  apply (proj2 (guia_every_field_form_control GuiaForm.base_fields) "foto"). reflexivity.
Defined.

End Guia.

(** ** PilotoForm *)

Section Piloto.
Variable BASE_DIR : pystr.
Variable listdir : pystr → result (list pystr).

(** The directory that [__init__] lists. *)
Local Abbreviation avatars_dir := (PilotoForm.os_path_join BASE_DIR (py "static/avatars")).

(** The form that [__init__] makes of a directory that can be listed. *)
Lemma piloto_init_ok (fields : form_fields) (names : list pystr) (a : Field) :
  listdir avatars_dir = Ok names →
  fields !! "avatar" = Some a →
  PilotoForm.__init__ BASE_DIR listdir fields
  = Ok (<["avatar" := set_choices (map (λ x, (CStr x, x)) (sorted names)) a]> fields).
Proof.
  intros Hdir Ha. unfold PilotoForm.__init__. rewrite Hdir. simpl.
  unfold getitem. by rewrite Ha.
Qed.

(** C2: when the avatar directory cannot be listed, the construction of the
    Pilot form fails with the very error of the listing: [__init__] returns
    no form, and the error is neither dropped nor turned into anything else. *)
Theorem piloto_directory_unavailable (fields : form_fields) (e : exn) :
  listdir avatars_dir = Raise e →
  PilotoForm.__init__ BASE_DIR listdir fields = Raise e.
Proof. intros Hdir. unfold PilotoForm.__init__. by rewrite Hdir. Qed.

(** C4: for every listing of the avatar directory, the choices of the Pilot
    form's avatar field are the listed names in ascending order of [str],
    the ordinal order of code points (see [le_ordinal]), each name being both
    the stored value and the label of its choice; the names b.png, a.png,
    C.png come out as C.png, a.png, b.png. *)
Theorem piloto_avatar_choices (fields : form_fields) (names : list pystr) (a : Field) :
  listdir avatars_dir = Ok names →
  fields !! "avatar" = Some a →
  ∃ fields' a',
    PilotoForm.__init__ BASE_DIR listdir fields = Ok fields' ∧
    fields' !! "avatar" = Some a' ∧
    choices a' = map (λ x, (CStr x, x)) (sorted names) ∧
    StronglySorted Py.le (sorted names) ∧
    sorted names ≡ₚ names ∧
    sorted [py "b.png"; py "a.png"; py "C.png"] = [py "C.png"; py "a.png"; py "b.png"].
Proof.
  intros Hdir Ha. eexists _, _. split; [by apply piloto_init_ok|].
  split; [apply lookup_insert_eq|]. split; [reflexivity|].
  split; [apply sorted_ascending|]. split; [apply sorted_permutation|].
  vm_compute. reflexivity.
Qed.

(** C8, amended: when the listing of the avatar directory is empty, the
    avatar field of the Pilot form has no choice and no submitted value
    validates: a value that is not empty fails as an invalid choice, and the
    empty value, like no value at all, fails as a required field left empty. *)
Theorem piloto_empty_directory (fields : form_fields) :
  listdir avatars_dir = Ok [] →
  fields !! "avatar" = Some PilotoForm.avatar →
  ∃ fields' a',
    PilotoForm.__init__ BASE_DIR listdir fields = Ok fields' ∧
    fields' !! "avatar" = Some a' ∧
    choices a' = [] ∧
    (∀ value, ∃ e, ChoiceField_clean a' value = Invalid e) ∧
    (∀ v, v ≠ [] → ChoiceField_clean a' (Some v) = Invalid code_invalid_choice) ∧
    ChoiceField_clean a' (Some []) = Invalid code_required ∧
    ChoiceField_clean a' None = Invalid code_required.
Proof.
  intros Hdir Ha. eexists _, _. split; [by apply piloto_init_ok|].
  split; [apply lookup_insert_eq|]. split; [reflexivity|].
  repeat apply conj; try reflexivity.
  - intros [[|c v]|]; by eexists.
  - intros [|c v] Hv; done.
Qed.

End Piloto.

Lemma piloto_directory_unavailable_witness :
  PilotoForm.__init__ (py "/srv/app") (λ _, Raise (OSError 2)) PilotoForm.base_fields
  = Raise (OSError 2).
Proof.
  apply (piloto_directory_unavailable (py "/srv/app") (λ _, Raise (OSError 2))). reflexivity.
Defined.

Lemma piloto_avatar_choices_witness :
  ∃ fields' a',
    PilotoForm.__init__ (py "/srv/app") (λ _, Ok [py "b.png"; py "a.png"; py "C.png"])
      PilotoForm.base_fields = Ok fields' ∧
    fields' !! "avatar" = Some a' ∧
    choices a' = map (λ x, (CStr x, x)) (sorted [py "b.png"; py "a.png"; py "C.png"]) ∧
    StronglySorted Py.le (sorted [py "b.png"; py "a.png"; py "C.png"]) ∧
    sorted [py "b.png"; py "a.png"; py "C.png"] ≡ₚ [py "b.png"; py "a.png"; py "C.png"] ∧
    sorted [py "b.png"; py "a.png"; py "C.png"] = [py "C.png"; py "a.png"; py "b.png"].
Proof.
  apply (piloto_avatar_choices (py "/srv/app")
           (λ _, Ok [py "b.png"; py "a.png"; py "C.png"]) PilotoForm.base_fields
           [py "b.png"; py "a.png"; py "C.png"] PilotoForm.avatar); reflexivity.
Defined.

(** C8, as the specification states it, fails: with an empty avatar
    directory the submitted value "" does not fail as an invalid choice, it
    fails as a required field left empty. *)
Lemma piloto_empty_value_is_required :
  PilotoForm.__init__ (py "/srv/app") (λ _, Ok []) PilotoForm.base_fields
  = Ok (<["avatar" := set_choices [] PilotoForm.avatar]> PilotoForm.base_fields) ∧
  ChoiceField_clean (set_choices [] PilotoForm.avatar) (Some (py "")) = Invalid code_required ∧
  ChoiceField_clean (set_choices [] PilotoForm.avatar) (Some (py ""))
  ≠ Invalid code_invalid_choice.
Proof.
  split; [|split; [reflexivity|discriminate]].
  by apply (piloto_init_ok (py "/srv/app") (λ _, Ok []) PilotoForm.base_fields []).
Qed.

Lemma piloto_empty_directory_witness :
  ∃ fields' a',
    PilotoForm.__init__ (py "/srv/app") (λ _, Ok []) PilotoForm.base_fields = Ok fields' ∧
    fields' !! "avatar" = Some a' ∧
    choices a' = [] ∧
    (∀ value, ∃ e, ChoiceField_clean a' value = Invalid e) ∧
    (∀ v, v ≠ [] → ChoiceField_clean a' (Some v) = Invalid code_invalid_choice) ∧
    ChoiceField_clean a' (Some []) = Invalid code_required ∧
    ChoiceField_clean a' None = Invalid code_required.
Proof.
  apply (piloto_empty_directory (py "/srv/app") (λ _, Ok []) PilotoForm.base_fields);
    reflexivity.
Defined.

(** ** ViajeForm *)

Section Viaje.
Import ViajeForm.

Lemma style_widget_class (f : Field) :
  widget_class (widget (style f)) = widget_class (widget f).
Proof. unfold style. by destruct (isinstance_CheckboxSelectMultiple _). Qed.

Lemma style_isinstance (f : Field) :
  isinstance_CheckboxSelectMultiple (widget (style f))
  = isinstance_CheckboxSelectMultiple (widget f).
Proof. unfold isinstance_CheckboxSelectMultiple. by rewrite style_widget_class. Qed.

(** The loop leaves the class of a [CheckboxSelectMultiple] as it finds it,
    and gives every other widget the class "form-control". *)
Lemma style_class (f : Field) :
  widget_attr "class" (style f)
  = if isinstance_CheckboxSelectMultiple (widget f)
    then widget_attr "class" f
    else Some form_control.
Proof.
  unfold style. destruct (isinstance_CheckboxSelectMultiple _); simpl; [done|].
  apply widget_attr_set.
Qed.

Lemma relabel_widget (f : Field) : widget (relabel f) = widget f.
Proof. unfold relabel. destruct (queryset f) as [qs|]; [|done]. by destruct (negb _). Qed.

Lemma relabel_required (f : Field) : required (relabel f) = required f.
Proof. unfold relabel. destruct (queryset f) as [qs|]; [|done]. by destruct (negb _). Qed.

Lemma label_guia_lookup (fields : form_fields) (name : string) :
  label_guia fields !! name
  = if decide (name = "guia") then relabel <$> fields !! "guia" else fields !! name.
Proof.
  unfold label_guia. destruct (fields !! "guia") as [g|] eqn:Hg.
  - rewrite lookup_insert. repeat case_decide; by simplify_eq.
  - case_decide; by simplify_eq.
Qed.

(** The form that [__init__] makes of fields among which [pilotos], [km] and
    [max_pilotos] are found, by the name of the field. *)
Lemma viaje_init_lookup (fields : form_fields) (p k m : Field) :
  fields !! "pilotos" = Some p →
  fields !! "km" = Some k →
  fields !! "max_pilotos" = Some m →
  ∃ fields',
    __init__ fields = Ok fields' ∧
    ∀ name,
      fields' !! name =
        if decide (name = "activo") then Some activo
        else if decide (name = "guia") then relabel <$> (style <$> fields !! "guia")
        else if decide (name = "max_pilotos")
          then Some (set_label (py "Máxima cantidad de pilotos") (style m))
        else if decide (name = "km") then Some (set_label (py "Kilómetros") (style k))
        else if decide (name = "pilotos")
          then Some (set_widget_attr "id" (AStr (py "id_pilotos")) (style p))
        else style <$> fields !! name.
Proof.
  intros Hp Hk Hm. eexists. split.
  - unfold __init__, getitem. rewrite lookup_fmap, Hp. simpl.
    rewrite lookup_insert_ne, lookup_fmap, Hk by done. simpl.
    rewrite !lookup_insert_ne, lookup_fmap, Hm by done. simpl. reflexivity.
  - intros name. rewrite lookup_insert. case_decide as H1; [by subst; case_decide|].
    case_decide; [congruence|].
    rewrite label_guia_lookup. case_decide as H2.
    + by rewrite !lookup_insert_ne, lookup_fmap by done.
    + rewrite !lookup_insert, lookup_fmap.
      repeat case_decide; by simplify_eq.
Qed.

(** C1, amended: after the Trip form is constructed, every field whose
    widget is not a [CheckboxSelectMultiple] has the widget attribute [class]
    equal to "form-control"; the field [pilotos] keeps its widget and has the
    attribute [id] equal to "id_pilotos"; its attribute [class] is what it
    was before construction when its widget is a [CheckboxSelectMultiple],
    and is "form-control" otherwise. *)
Theorem viaje_form_control (fields : form_fields) (p k m : Field) :
  fields !! "pilotos" = Some p →
  fields !! "km" = Some k →
  fields !! "max_pilotos" = Some m →
  ∃ fields' p',
    __init__ fields = Ok fields' ∧
    (∀ name field,
       fields' !! name = Some field →
       isinstance_CheckboxSelectMultiple (widget field) = false →
       widget_attr "class" field = Some form_control) ∧
    fields' !! "pilotos" = Some p' ∧
    widget_class (widget p') = widget_class (widget p) ∧
    widget_attr "id" p' = Some (AStr (py "id_pilotos")) ∧
    widget_attr "class" p'
    = if isinstance_CheckboxSelectMultiple (widget p)
      then widget_attr "class" p
      else Some form_control.
Proof.
  intros Hp Hk Hm.
  destruct (viaje_init_lookup fields p k m Hp Hk Hm) as (fields' & Hinit & Hlook).
  exists fields', (set_widget_attr "id" (AStr (py "id_pilotos")) (style p)).
  split; [exact Hinit|]. split; [|split; [|split; [|split]]].
  - intros name field. rewrite Hlook. repeat case_decide.
    + by intros [= <-].
    + intros (g & (g0 & _ & ->)%fmap_Some & ->)%fmap_Some.
      unfold isinstance_CheckboxSelectMultiple, widget_attr.
      rewrite relabel_widget. fold (isinstance_CheckboxSelectMultiple (widget (style g0))).
      fold (widget_attr "class" (style g0)).
      rewrite style_isinstance, style_class. by intros ->.
    + intros [= <-]. change (widget (set_label _ (style m))) with (widget (style m)).
      rewrite style_isinstance. intros Hm'.
      change (widget_attr "class" (style m) = Some form_control). by rewrite style_class, Hm'.
    + intros [= <-]. change (widget (set_label _ (style k))) with (widget (style k)).
      rewrite style_isinstance. intros Hk'.
      change (widget_attr "class" (style k) = Some form_control). by rewrite style_class, Hk'.
    + intros [= <-].
      change (isinstance_CheckboxSelectMultiple (widget (set_widget_attr _ _ (style p))))
        with (isinstance_CheckboxSelectMultiple (widget (style p))).
      rewrite style_isinstance, widget_attr_set_ne, style_class by done. by intros ->.
    + intros (f0 & _ & ->)%fmap_Some. rewrite style_isinstance, style_class. by intros ->.
  - rewrite Hlook. repeat case_decide; done.
  - apply style_widget_class.
  - apply widget_attr_set.
  - rewrite widget_attr_set_ne by done. apply style_class.
Qed.

(** C3: when the Trip form is constructed over a [guia] field that has a
    queryset, the empty label of the field is "Aún sin asignar" when the
    queryset has no guide and "Seleccione una guía" when it has one; the
    field is required, or not, as it was. *)
Theorem viaje_guia_empty_label (fields : form_fields) (p k m g : Field) (qs : QuerySet) :
  fields !! "pilotos" = Some p →
  fields !! "km" = Some k →
  fields !! "max_pilotos" = Some m →
  fields !! "guia" = Some g →
  queryset g = Some qs →
  ∃ fields' g',
    __init__ fields = Ok fields' ∧
    fields' !! "guia" = Some g' ∧
    empty_label g'
    = Some (if exists_ qs then py "Seleccione una guía" else py "Aún sin asignar") ∧
    required g' = required g.
Proof.
  intros Hp Hk Hm Hg Hqs.
  destruct (viaje_init_lookup fields p k m Hp Hk Hm) as (fields' & Hinit & Hlook).
  exists fields', (relabel (style g)). split; [exact Hinit|]. split.
  - rewrite Hlook, Hg. repeat case_decide; done.
  - assert (queryset (style g) = Some qs) as Hqs'.
    { unfold style. by destruct (negb _). }
    assert (required (style g) = required g) as Hreq.
    { unfold style. by destruct (negb _). }
    rewrite relabel_required, Hreq. split; [|done].
    unfold relabel. rewrite Hqs'. by destruct (exists_ qs).
Qed.

(** C9: after the Trip form is constructed, the field [activo] is a choice
    field with exactly two choices, [True] shown as "Activo" and [False]
    shown as "Borrador", in a select widget whose attribute [class] is
    "form-control", whatever field stood there when the loop over the
    fields ran. *)
Theorem viaje_activo_choice (fields : form_fields) (p k m : Field) :
  fields !! "pilotos" = Some p →
  fields !! "km" = Some k →
  fields !! "max_pilotos" = Some m →
  ∃ fields' a,
    __init__ fields = Ok fields' ∧
    fields' !! "activo" = Some a ∧
    field_class a = ChoiceField ∧
    choices a = [ (CBool true, py "Activo"); (CBool false, py "Borrador") ] ∧
    widget_class (widget a) = Select ∧
    widget_attr "class" a = Some form_control.
Proof.
  intros Hp Hk Hm.
  destruct (viaje_init_lookup fields p k m Hp Hk Hm) as (fields' & Hinit & Hlook).
  exists fields', activo. split; [exact Hinit|]. split.
  - rewrite Hlook. by case_decide.
  - repeat apply conj; reflexivity.
Qed.

End Viaje.

(** C1, as the specification states it, fails: in the Trip form as
    [Meta] declares it, [pilotos] has the widget of its class,
    [SelectMultiple], which is not a [CheckboxSelectMultiple]; the loop gives
    it the class "form-control" like the other fields. *)
Lemma viaje_pilotos_has_class :
  ∃ fields' p',
    ViajeForm.__init__ (ViajeForm.base_fields [] []) = Ok fields' ∧
    fields' !! "pilotos" = Some p' ∧
    widget_class (widget p') = SelectMultiple ∧
    widget_attr "id" p' = Some (AStr (py "id_pilotos")) ∧
    widget_attr "class" p' = Some form_control ∧
    widget_attr "class" p' ≠ None.
Proof.
  destruct (viaje_init_lookup (ViajeForm.base_fields [] []) (ViajeForm.pilotos_field [])
              (model_field IntegerField true NumberInput)
              (model_field IntegerField true NumberInput))
    as (fields' & Hinit & Hlook); try reflexivity.
  exists fields', (set_widget_attr "id" (AStr (py "id_pilotos"))
                    (ViajeForm.style (ViajeForm.pilotos_field []))).
  split; [exact Hinit|]. split.
  - rewrite Hlook. repeat case_decide; done.
  - repeat apply conj; done.
Qed.

Lemma viaje_form_control_witness :
  ∃ fields' p',
    ViajeForm.__init__ (ViajeForm.base_fields [] []) = Ok fields' ∧
    (∀ name field,
       fields' !! name = Some field →
       isinstance_CheckboxSelectMultiple (widget field) = false →
       widget_attr "class" field = Some form_control) ∧
    fields' !! "pilotos" = Some p' ∧
    widget_class (widget p') = SelectMultiple ∧
    widget_attr "id" p' = Some (AStr (py "id_pilotos")) ∧
    widget_attr "class" p' = Some form_control.
Proof.
  apply (viaje_form_control (ViajeForm.base_fields [] []) (ViajeForm.pilotos_field [])
           (model_field IntegerField true NumberInput)
           (model_field IntegerField true NumberInput)); reflexivity.
Defined.

Lemma viaje_guia_empty_label_witness :
  (∃ fields' g',
     ViajeForm.__init__ (ViajeForm.base_fields [] []) = Ok fields' ∧
     fields' !! "guia" = Some g' ∧
     empty_label g' = Some (py "Aún sin asignar") ∧
     required g' = false) ∧
  (∃ fields' g',
     ViajeForm.__init__ (ViajeForm.base_fields [7] []) = Ok fields' ∧
     fields' !! "guia" = Some g' ∧
     empty_label g' = Some (py "Seleccione una guía") ∧
     required g' = false).
Proof.
  split.
  - apply (viaje_guia_empty_label (ViajeForm.base_fields [] []) (ViajeForm.pilotos_field [])
             (model_field IntegerField true NumberInput)
             (model_field IntegerField true NumberInput)
             (ViajeForm.guia_field []) []); reflexivity.
  - apply (viaje_guia_empty_label (ViajeForm.base_fields [7] []) (ViajeForm.pilotos_field [])
             (model_field IntegerField true NumberInput)
             (model_field IntegerField true NumberInput)
             (ViajeForm.guia_field [7]) [7]); reflexivity.
Defined.

Lemma viaje_activo_choice_witness :
  ∃ fields' a,
    ViajeForm.__init__ (ViajeForm.base_fields [7] [3; 4]) = Ok fields' ∧
    fields' !! "activo" = Some a ∧
    field_class a = ChoiceField ∧
    choices a = [ (CBool true, py "Activo"); (CBool false, py "Borrador") ] ∧
    widget_class (widget a) = Select ∧
    widget_attr "class" a = Some form_control.
Proof.
  apply (viaje_activo_choice (ViajeForm.base_fields [7] [3; 4])
           (ViajeForm.pilotos_field [3; 4])
           (model_field IntegerField true NumberInput)
           (model_field IntegerField true NumberInput)); reflexivity.
Defined.

(** ** More on the user forms *)

Section UserFormsMore.
Import Unicode Spec.

(** On ASCII the case tables move the letters and nothing else. *)
Lemma ascii_case_maps (c : N) :
  c < 0x80 → ToTitleFull c = [ascii_upper c] ∧ ToLowerFull c = [ascii_lower c].
Proof.
  intros Hc.
  assert (forallb (λ n, bool_decide (ToTitleFull (N.of_nat n) = [ascii_upper (N.of_nat n)] ∧
                                     ToLowerFull (N.of_nat n) = [ascii_lower (N.of_nat n)]))
            (seq 0 128) = true) as H by (vm_compute; reflexivity).
  rewrite forallb_forall in H. specialize (H (N.to_nat c)).
  rewrite N2Nat.id in H. apply bool_decide_eq_true in H; [exact H|].
  apply in_seq. lia.
Qed.

Lemma ascii_no_sigma (l : pystr) : ascii l → SIGMA ∉ l.
Proof.
  intros Hl Hin. unfold ascii in Hl. rewrite Forall_forall in Hl.
  apply Hl in Hin. vm_compute in Hin. discriminate.
Qed.

Lemma lowered_from_ascii data g (l : pystr) :
  ascii l → lowered_from data g l = map ascii_lower l.
Proof.
  intros Hl. rewrite lowered_from_no_sigma by by apply ascii_no_sigma.
  induction Hl as [|c l Hc Hl IH]; [reflexivity|].
  simpl. rewrite (proj2 (ascii_case_maps c Hc)). simpl. f_equal. exact IH.
Qed.

Lemma capitalize_ascii (s : pystr) : ascii s → Str.capitalize s = ascii_capitalize s.
Proof.
  destruct s as [|c r]; [reflexivity|]. intros [Hc Hr]%Forall_cons.
  rewrite capitalize_cons, (proj1 (ascii_case_maps c Hc)), lowered_from_ascii by exact Hr.
  reflexivity.
Qed.

(** The lengths of the case mappings. *)
Lemma ToLowerFull_length (c : N) :
  (1 ≤ length (ToLowerFull c) ≤ 2)%nat.
Proof.
  unfold ToLowerFull. destruct (assoc c lower_table) as [v|] eqn:E; simpl; [|lia].
  pose (P := λ (_ : N) (v : list N), (1 <=? length v)%nat && (length v <=? 2)%nat).
  assert (P c v = true) as H.
  { revert E. apply assoc_forallb. vm_compute. reflexivity. }
  unfold P in H. apply andb_prop in H as [H1 H2].
  apply Nat.leb_le in H1, H2. lia.
Qed.

Lemma ToTitleFull_length (c : N) :
  (1 ≤ length (ToTitleFull c) ≤ 3)%nat.
Proof.
  unfold ToTitleFull. destruct (assoc c title_table) as [v|] eqn:E; simpl; [|lia].
  pose (P := λ (_ : N) (v : list N), (1 <=? length v)%nat && (length v <=? 3)%nat).
  assert (P c v = true) as H.
  { revert E. apply assoc_forallb. vm_compute. reflexivity. }
  unfold P in H. apply andb_prop in H as [H1 H2].
  apply Nat.leb_le in H1, H2. lia.
Qed.

Lemma lowered_from_length data g (l : pystr) :
  (length l ≤ length (lowered_from data g l) ≤ 2 * length l)%nat.
Proof.
  revert g. induction l as [|d l IH]; intros g; [simpl; lia|].
  rewrite lowered_from_cons, length_app. specialize (IH (g ∘ S)).
  assert (1 ≤ length (Str.lower_ucs4 data (g 0%nat) d) ≤ 2)%nat as Hd.
  { unfold Str.lower_ucs4. destruct (d =? SIGMA); [simpl; lia|apply ToLowerFull_length]. }
  simpl. lia.
Qed.

Lemma capitalize_length (s : pystr) :
  (length s ≤ length (Str.capitalize s) ≤ 2 * length s + 1)%nat.
Proof.
  destruct s as [|c r]; [simpl; lia|].
  rewrite capitalize_cons, length_app.
  pose proof (ToTitleFull_length c). pose proof (lowered_from_length (c :: r) S r).
  simpl. lia.
Qed.

Lemma lower_length (s : pystr) :
  (length s ≤ length (Str.lower s) ≤ 2 * length s)%nat.
Proof. rewrite lower_unfold. apply lowered_from_length. Qed.

End UserFormsMore.

Section UserFormsExtra.
Import Unicode Spec.

(** X1: an ASCII first or last name is normalised letter by letter, in the
    Registration form and in the User Edit form alike: a first letter a-z
    becomes A-Z, every later letter A-Z becomes a-z, nothing else changes;
    the value returned is ASCII and as long as the submitted one. *)
Theorem names_ascii (self : cleaned_data) (v : pystr) :
  ascii v →
  (self !! "first_name" = Some v →
   RegistroForm.clean_first_name self = ascii_capitalize v ∧
   EditarUsuarioForm.clean_first_name self = Ok (ascii_capitalize v)) ∧
  (self !! "last_name" = Some v →
   RegistroForm.clean_last_name self = ascii_capitalize v ∧
   EditarUsuarioForm.clean_last_name self = Ok (ascii_capitalize v)) ∧
  length (ascii_capitalize v) = length v ∧
  ascii (ascii_capitalize v).
Proof.
  intros Hv. pose proof (capitalize_ascii v Hv) as Hcap.
  split; [|split; [|split]].
  - intros H. unfold RegistroForm.clean_first_name, EditarUsuarioForm.clean_first_name,
      get, getitem. rewrite H. simpl. by rewrite Hcap.
  - intros H. unfold RegistroForm.clean_last_name, EditarUsuarioForm.clean_last_name,
      get, getitem. rewrite H. simpl. by rewrite Hcap.
  - destruct v; simpl; [done|]. by rewrite length_map.
  - destruct Hv as [|c r Hc Hr]; [constructor|]. constructor.
    + cbv beta in Hc |- *. unfold ascii_upper. destruct (_ && _); lia.
    + apply Forall_fmap. eapply Forall_impl; [exact Hr|].
      intros d Hd. unfold compose. cbv beta in Hd |- *. unfold ascii_lower.
      destruct ((0x41 <=? d) && (d <=? 0x5A)) eqn:E; [|lia].
      apply andb_prop in E as [_ E]. apply N.leb_le in E. lia.
Qed.

Lemma names_ascii_witness :
  RegistroForm.clean_first_name {[ "first_name" := py "mARY-ann 2" ]} = py "Mary-ann 2" ∧
  EditarUsuarioForm.clean_first_name {[ "first_name" := py "mARY-ann 2" ]}
  = Ok (py "Mary-ann 2").
Proof.
  assert (ascii (py "mARY-ann 2")) as Hv.
  { apply (bool_decide_unpack (Forall (λ c, c < 0x80) (py "mARY-ann 2"))).
    vm_compute. exact I. }
  apply (proj1 (names_ascii {[ "first_name" := py "mARY-ann 2" ]} (py "mARY-ann 2") Hv)).
  reflexivity.
Defined.

(** X2: an ASCII username is normalised letter by letter, A-Z to a-z and
    nothing else, so two ASCII usernames that differ only in the case of
    their letters are normalised to the same username. *)
Theorem username_ascii (self self' : cleaned_data) :
  ascii (get self "username" []) →
  ascii (get self' "username" []) →
  map ascii_lower (get self "username" []) = map ascii_lower (get self' "username" []) →
  RegistroForm.clean_username self = map ascii_lower (get self "username" []) ∧
  RegistroForm.clean_username self = RegistroForm.clean_username self'.
Proof.
  intros Hu Hu' Heq. unfold RegistroForm.clean_username.
  rewrite !lower_unfold, !lowered_from_ascii by done. by rewrite Heq.
Qed.

Lemma username_ascii_witness :
  RegistroForm.clean_username {[ "username" := py "John_Doe7" ]}
  = map ascii_lower (get ({[ "username" := py "John_Doe7" ]} : cleaned_data) "username" []) ∧
  RegistroForm.clean_username {[ "username" := py "John_Doe7" ]}
  = RegistroForm.clean_username {[ "username" := py "JOHN_doe7" ]}.
Proof.
  apply (username_ascii {[ "username" := py "John_Doe7" ]} {[ "username" := py "JOHN_doe7" ]}).
  - apply (bool_decide_unpack (Forall (λ c, c < 0x80) (py "John_Doe7"))).
    vm_compute. exact I.
  - apply (bool_decide_unpack (Forall (λ c, c < 0x80) (py "JOHN_doe7"))).
    vm_compute. exact I.
  - vm_compute. reflexivity.
Defined.

(** X3: normalisation never shortens a value: a name of n characters comes
    back with at least n and at most 2n+1 characters, a username with at least
    n and at most 2n, so that a value that is not empty is never normalised
    to the empty string. *)
Theorem normalized_lengths (self : cleaned_data) :
  (length (get self "first_name" []) ≤ length (RegistroForm.clean_first_name self)
   ≤ 2 * length (get self "first_name" []) + 1)%nat ∧
  (length (get self "last_name" []) ≤ length (RegistroForm.clean_last_name self)
   ≤ 2 * length (get self "last_name" []) + 1)%nat ∧
  (length (get self "username" []) ≤ length (RegistroForm.clean_username self)
   ≤ 2 * length (get self "username" []))%nat ∧
  (RegistroForm.clean_first_name self = [] ↔ get self "first_name" [] = []) ∧
  (RegistroForm.clean_last_name self = [] ↔ get self "last_name" [] = []) ∧
  (RegistroForm.clean_username self = [] ↔ get self "username" [] = []).
Proof.
  unfold RegistroForm.clean_first_name, RegistroForm.clean_last_name,
    RegistroForm.clean_username.
  pose proof (capitalize_length (get self "first_name" [])) as H1.
  pose proof (capitalize_length (get self "last_name" [])) as H2.
  pose proof (lower_length (get self "username" [])) as H3.
  split; [lia|]. split; [lia|]. split; [lia|]. split; [|split].
  - split; [intros E; rewrite E in H1|intros ->; reflexivity].
    destruct (get self "first_name" []); [done|simpl in H1; lia].
  - split; [intros E; rewrite E in H2|intros ->; reflexivity].
    destruct (get self "last_name" []); [done|simpl in H2; lia].
  - split; [intros E; rewrite E in H3|intros ->; reflexivity].
    destruct (get self "username" []); [done|simpl in H3; lia].
Qed.

End UserFormsExtra.

(** ** More on GuiaForm *)

Section GuiaExtra.
Import Spec.

Lemma set_widget_attr_twice (k : string) (v w : attr_value) (f : Field) :
  set_widget_attr k v (set_widget_attr k w f) = set_widget_attr k v f.
Proof. unfold set_widget_attr. simpl. by rewrite insert_insert_eq. Qed.

(** X4: the construction of the Guide form changes nothing of a field but
    the attribute [class] of its widget: class of field, required flag,
    label, choices, widget class and every other widget attribute (the text
    area's [rows] and [cols]) are what they were. *)
Theorem guia_init_changes_only_class (fields : form_fields) (name : string) (f : Field) :
  fields !! name = Some f →
  ∃ f', GuiaForm.__init__ fields !! name = Some f' ∧ same_but_class f f'.
Proof.
  intros Hf. exists (set_widget_attr "class" form_control f). split.
  - unfold GuiaForm.__init__. by rewrite lookup_fmap, Hf.
  - unfold same_but_class. repeat apply conj; try reflexivity.
    intros k Hk. by apply widget_attr_set_ne.
Qed.

Lemma guia_init_changes_only_class_witness :
  ∃ f', GuiaForm.__init__ GuiaForm.base_fields !! "fecha_nac" = Some f' ∧
        same_but_class GuiaForm.fecha_nac f'.
Proof.
  apply (guia_init_changes_only_class GuiaForm.base_fields "fecha_nac" GuiaForm.fecha_nac).
  reflexivity.
Defined.

(** X5: constructing the Guide form over fields that already went through
    its construction changes nothing more: the loop only overwrites the
    attribute [class] with the same value. *)
Theorem guia_init_idempotent (fields : form_fields) :
  GuiaForm.__init__ (GuiaForm.__init__ fields) = GuiaForm.__init__ fields.
Proof.
  unfold GuiaForm.__init__. rewrite <- map_fmap_compose.
  apply map_fmap_ext. intros name f _. apply set_widget_attr_twice.
Qed.

End GuiaExtra.

(** ** More on PilotoForm *)

Section PilotoExtra.
Variable BASE_DIR : pystr.

Local Abbreviation avatars_dir := (PilotoForm.os_path_join BASE_DIR (py "static/avatars")).

(** What a constructed Pilot form was made of. *)
Lemma piloto_init_inv (listdir : pystr → result (list pystr)) (fields fields' : form_fields) :
  PilotoForm.__init__ BASE_DIR listdir fields = Ok fields' →
  ∃ names a,
    listdir avatars_dir = Ok names ∧
    fields !! "avatar" = Some a ∧
    fields' = <["avatar" := set_choices (map (λ x, (CStr x, x)) (sorted names)) a]> fields.
Proof.
  unfold PilotoForm.__init__, getitem.
  destruct (listdir avatars_dir) as [names|e]; simpl; [|discriminate].
  destruct (fields !! "avatar") as [a|]; simpl; [|discriminate].
  intros [= <-]. by exists names, a.
Qed.

(** Listings with the same names sort to the same list. *)
Lemma sorted_permuted (l l' : list pystr) : l ≡ₚ l' → sorted l = sorted l'.
Proof.
  intros Hl.
  apply (@StronglySorted_unique _ Py.le le_antisym); try apply sorted_ascending.
  by rewrite !sorted_permutation.
Qed.

(** A value is a valid choice of the avatar field when it is a listed name. *)
Lemma valid_value_listed (a : Field) (l : list pystr) (v : pystr) :
  valid_value (set_choices (map (λ x, (CStr x, x)) l) a) v = true ↔ v ∈ l.
Proof.
  unfold valid_value. simpl. rewrite existsb_exists. split.
  - intros ([k lbl] & Hin & Hv). apply in_map_iff in Hin as (x & [= <- <-] & Hx).
    apply bool_decide_eq_true in Hv. simpl in Hv. subst. by apply list_elem_of_In.
  - intros Hv. exists (CStr v, v). split.
    + apply in_map_iff. exists v. split; [done|]. by apply list_elem_of_In.
    + by apply bool_decide_eq_true.
Qed.

(** X6: the Pilot form is constructed exactly when the avatar directory can
    be listed and the form has a field [avatar]; with a listing and no such
    field the construction raises [KeyError] for the key [avatar]. *)
Theorem piloto_init_outcomes (listdir : pystr → result (list pystr)) (fields : form_fields) :
  ((∃ fields', PilotoForm.__init__ BASE_DIR listdir fields = Ok fields') ↔
   (∃ names, listdir avatars_dir = Ok names) ∧ is_Some (fields !! "avatar")) ∧
  (∀ names, listdir avatars_dir = Ok names → fields !! "avatar" = None →
            PilotoForm.__init__ BASE_DIR listdir fields = Raise (KeyError "avatar")).
Proof.
  split; [split|].
  - intros [fields' (names & a & Hdir & Ha & _)%piloto_init_inv]. eauto.
  - intros [[names Hdir] [a Ha]]. eexists. by apply piloto_init_ok.
  - intros names Hdir Ha. unfold PilotoForm.__init__, getitem. by rewrite Hdir; simpl; rewrite Ha.
Qed.

(** X7: the construction of the Pilot form touches the choices of the field
    [avatar] and nothing else: every other field is the field it was, and
    [avatar] keeps its class, required flag, label and widget, so that no
    widget of the form is given any attribute. *)
Theorem piloto_init_changes_only_choices (listdir : pystr → result (list pystr))
    (fields fields' : form_fields) :
  PilotoForm.__init__ BASE_DIR listdir fields = Ok fields' →
  (∀ name, name ≠ "avatar" → fields' !! name = fields !! name) ∧
  (∃ a a', fields !! "avatar" = Some a ∧ fields' !! "avatar" = Some a' ∧
           field_class a' = field_class a ∧ required a' = required a ∧
           label a' = label a ∧ widget a' = widget a) ∧
  (∀ name f', fields' !! name = Some f' →
              ∃ f, fields !! name = Some f ∧ widget f' = widget f).
Proof.
  intros (names & a & Hdir & Ha & ->)%piloto_init_inv. split; [|split].
  - intros name Hname. by rewrite lookup_insert_ne.
  - eexists a, _. split; [exact Ha|]. split; [apply lookup_insert_eq|]. done.
  - intros name f'. rewrite lookup_insert. case_decide as Hn.
    + intros [= <-]. exists a. by subst.
    + intros Hf. by exists f'.
Qed.

(** X8: the order in which the directory lists its names does not matter:
    two listings with the same names, in whatever order, give the same form. *)
Theorem piloto_listing_order (listdir listdir' : pystr → result (list pystr))
    (fields : form_fields) (names names' : list pystr) :
  listdir avatars_dir = Ok names →
  listdir' avatars_dir = Ok names' →
  names ≡ₚ names' →
  PilotoForm.__init__ BASE_DIR listdir fields = PilotoForm.__init__ BASE_DIR listdir' fields.
Proof.
  intros Hdir Hdir' Hperm. unfold PilotoForm.__init__. rewrite Hdir, Hdir'. simpl.
  by rewrite (sorted_permuted names names' Hperm).
Qed.

(** X9: once the Pilot form is constructed, a submitted avatar that is not
    empty validates exactly when it is one of the listed names, and is then
    cleaned to itself; any other is refused as an invalid choice. *)
Theorem piloto_avatar_valid_iff_listed (listdir : pystr → result (list pystr))
    (fields : form_fields) (names : list pystr) (a : Field) :
  listdir avatars_dir = Ok names →
  fields !! "avatar" = Some a →
  ∃ fields' a',
    PilotoForm.__init__ BASE_DIR listdir fields = Ok fields' ∧
    fields' !! "avatar" = Some a' ∧
    ∀ v, v ≠ [] →
         (v ∈ names → ChoiceField_clean a' (Some v) = Valid v) ∧
         (v ∉ names → ChoiceField_clean a' (Some v) = Invalid code_invalid_choice).
Proof.
  intros Hdir Ha. eexists _, _. split; [by apply piloto_init_ok|].
  split; [apply lookup_insert_eq|].
  intros [|c v] Hv; [done|].
  assert (valid_value (set_choices (map (λ x, (CStr x, x)) (sorted names)) a) (c :: v) = true
          ↔ c :: v ∈ names) as Hvalid.
  { rewrite valid_value_listed. by rewrite sorted_permutation. }
  unfold ChoiceField_clean, ChoiceField_validate, Field_validate. simpl.
  destruct (valid_value _ (c :: v)) eqn:E; simpl.
  - split; [done|]. intros Hnot. destruct Hnot. by apply Hvalid.
  - split; [|done]. intros Hin. apply Hvalid in Hin. congruence.
Qed.

End PilotoExtra.

Lemma piloto_init_changes_only_choices_witness :
  (∀ name, name ≠ "avatar" →
     (<["avatar" := set_choices [(CStr (py "a.png"), py "a.png")] PilotoForm.avatar]>
        PilotoForm.base_fields) !! name = PilotoForm.base_fields !! name) ∧
  (∃ a a', PilotoForm.base_fields !! "avatar" = Some a ∧
           (<["avatar" := set_choices [(CStr (py "a.png"), py "a.png")] PilotoForm.avatar]>
              PilotoForm.base_fields) !! "avatar" = Some a' ∧
           field_class a' = field_class a ∧ required a' = required a ∧
           label a' = label a ∧ widget a' = widget a) ∧
  (∀ name f',
     (<["avatar" := set_choices [(CStr (py "a.png"), py "a.png")] PilotoForm.avatar]>
        PilotoForm.base_fields) !! name = Some f' →
     ∃ f, PilotoForm.base_fields !! name = Some f ∧ widget f' = widget f).
Proof.
  apply (piloto_init_changes_only_choices (py "/srv/app") (λ _, Ok [py "a.png"])
           PilotoForm.base_fields).
  apply (piloto_init_ok (py "/srv/app") (λ _, Ok [py "a.png"]) PilotoForm.base_fields
           [py "a.png"] PilotoForm.avatar); reflexivity.
Defined.

Lemma piloto_listing_order_witness :
  PilotoForm.__init__ (py "/srv/app") (λ _, Ok [py "b.png"; py "a.png"]) PilotoForm.base_fields
  = PilotoForm.__init__ (py "/srv/app") (λ _, Ok [py "a.png"; py "b.png"])
      PilotoForm.base_fields.
Proof.
  apply (piloto_listing_order (py "/srv/app") (λ _, Ok [py "b.png"; py "a.png"])
           (λ _, Ok [py "a.png"; py "b.png"]) PilotoForm.base_fields
           [py "b.png"; py "a.png"] [py "a.png"; py "b.png"]); [reflexivity..|].
  apply perm_swap.
Defined.

Lemma piloto_avatar_valid_iff_listed_witness :
  ∃ fields' a',
    PilotoForm.__init__ (py "/srv/app") (λ _, Ok [py "b.png"; py "a.png"])
      PilotoForm.base_fields = Ok fields' ∧
    fields' !! "avatar" = Some a' ∧
    ∀ v, v ≠ [] →
         (v ∈ [py "b.png"; py "a.png"] → ChoiceField_clean a' (Some v) = Valid v) ∧
         (v ∉ [py "b.png"; py "a.png"] →
          ChoiceField_clean a' (Some v) = Invalid code_invalid_choice).
Proof.
  apply (piloto_avatar_valid_iff_listed (py "/srv/app") (λ _, Ok [py "b.png"; py "a.png"])
           PilotoForm.base_fields [py "b.png"; py "a.png"] PilotoForm.avatar); reflexivity.
Defined.

(** ** More on ViajeForm *)

Section ViajeExtra.
Import ViajeForm.

(** What a constructed Trip form was made of. *)
Lemma viaje_init_inv (fields fields' : form_fields) :
  __init__ fields = Ok fields' →
  ∃ p k m, fields !! "pilotos" = Some p ∧ fields !! "km" = Some k ∧
           fields !! "max_pilotos" = Some m.
Proof.
  unfold __init__, getitem. rewrite lookup_fmap.
  destruct (fields !! "pilotos") as [p|]; simpl; [|discriminate].
  rewrite lookup_insert_ne, lookup_fmap by done.
  destruct (fields !! "km") as [k|]; simpl; [|discriminate].
  rewrite !lookup_insert_ne, lookup_fmap by done.
  destruct (fields !! "max_pilotos") as [m|]; simpl; [|discriminate].
  intros _. by exists p, k, m.
Qed.

(** X10: the Trip form is constructed exactly when it has the fields
    [pilotos], [km] and [max_pilotos]; the first of them that is missing, in
    this order, is the key of the [KeyError] the construction raises. The
    fields [guia] and [activo] may be missing. *)
Theorem viaje_init_outcomes (fields : form_fields) :
  ((∃ fields', __init__ fields = Ok fields') ↔
   is_Some (fields !! "pilotos") ∧ is_Some (fields !! "km") ∧
   is_Some (fields !! "max_pilotos")) ∧
  (fields !! "pilotos" = None → __init__ fields = Raise (KeyError "pilotos")) ∧
  (is_Some (fields !! "pilotos") → fields !! "km" = None →
   __init__ fields = Raise (KeyError "km")) ∧
  (is_Some (fields !! "pilotos") → is_Some (fields !! "km") →
   fields !! "max_pilotos" = None → __init__ fields = Raise (KeyError "max_pilotos")).
Proof.
  split; [split|split; [|split]].
  - intros [fields' (p & k & m & Hp & Hk & Hm)%viaje_init_inv]. rewrite Hp, Hk, Hm. eauto.
  - intros ([p Hp] & [k Hk] & [m Hm]).
    destruct (viaje_init_lookup fields p k m Hp Hk Hm) as (fields' & Hinit & _). eauto.
  - intros Hp. unfold __init__, getitem. by rewrite lookup_fmap, Hp.
  - intros [p Hp] Hk. unfold __init__, getitem. rewrite lookup_fmap, Hp. simpl.
    by rewrite lookup_insert_ne, lookup_fmap, Hk by done.
  - intros [p Hp] [k Hk] Hm. unfold __init__, getitem. rewrite lookup_fmap, Hp. simpl.
    rewrite lookup_insert_ne, lookup_fmap, Hk by done. simpl.
    by rewrite !lookup_insert_ne, lookup_fmap, Hm by done.
Qed.

(** X11: after the Trip form is constructed the label of [km] is
    "Kilómetros", that of [max_pilotos] is "Máxima cantidad de pilotos" and
    that of [activo] is "Estado"; every other field has the label it had. *)
Theorem viaje_labels (fields : form_fields) (p k m : Field) :
  fields !! "pilotos" = Some p →
  fields !! "km" = Some k →
  fields !! "max_pilotos" = Some m →
  ∃ fields' k' m' a',
    __init__ fields = Ok fields' ∧
    fields' !! "km" = Some k' ∧ label k' = Some (py "Kilómetros") ∧
    fields' !! "max_pilotos" = Some m' ∧ label m' = Some (py "Máxima cantidad de pilotos") ∧
    fields' !! "activo" = Some a' ∧ label a' = Some (py "Estado") ∧
    ∀ name f f',
      name ≠ "km" → name ≠ "max_pilotos" → name ≠ "activo" →
      fields !! name = Some f → fields' !! name = Some f' → label f' = label f.
Proof.
  intros Hp Hk Hm.
  destruct (viaje_init_lookup fields p k m Hp Hk Hm) as (fields' & Hinit & Hlook).
  exists fields', (set_label (py "Kilómetros") (style k)),
    (set_label (py "Máxima cantidad de pilotos") (style m)), activo.
  split; [exact Hinit|].
  split; [rewrite Hlook; by repeat case_decide|]. split; [reflexivity|].
  split; [rewrite Hlook; by repeat case_decide|]. split; [reflexivity|].
  split; [rewrite Hlook; by repeat case_decide|]. split; [reflexivity|].
  intros name f f' H1 H2 H3 Hf. rewrite Hlook. repeat case_decide; try done; subst.
  - rewrite Hf. simpl. intros [= <-]. unfold relabel, style.
    destruct (negb (isinstance_CheckboxSelectMultiple _)); simpl;
      destruct (queryset f); try done; by destruct (negb _).
  - intros [= <-]. replace p with f by congruence. unfold style. by destruct (negb _).
  - rewrite Hf. simpl. intros [= <-]. unfold style. by destruct (negb _).
Qed.

(** X12: the construction of the Trip form drops no field and adds none but
    [activo]: the fields of the constructed form are those it had, and [activo]. *)
Theorem viaje_field_names (fields : form_fields) (p k m : Field) :
  fields !! "pilotos" = Some p →
  fields !! "km" = Some k →
  fields !! "max_pilotos" = Some m →
  ∃ fields',
    __init__ fields = Ok fields' ∧
    ∀ name, is_Some (fields' !! name) ↔ name = "activo" ∨ is_Some (fields !! name).
Proof.
  intros Hp Hk Hm.
  destruct (viaje_init_lookup fields p k m Hp Hk Hm) as (fields' & Hinit & Hlook).
  exists fields'. split; [exact Hinit|]. intros name. rewrite Hlook.
  repeat case_decide; subst; rewrite ?fmap_is_Some, ?Hp, ?Hk, ?Hm;
    (split; [intros ?; first [by left | by right; eauto] | intros [?|?]; by eauto]).
Qed.

(** X13: the construction of the Trip form leaves alone what it does not
    set: every field but [activo] keeps its class, its required flag, its
    choices, its queryset, the class of its widget and every widget
    attribute other than [class] and [id]; the attribute [id] changes on
    [pilotos] only, the empty label on [guia] only. *)
Theorem viaje_init_keeps (fields : form_fields) (p k m : Field) :
  fields !! "pilotos" = Some p →
  fields !! "km" = Some k →
  fields !! "max_pilotos" = Some m →
  ∃ fields',
    __init__ fields = Ok fields' ∧
    ∀ name f,
      name ≠ "activo" → fields !! name = Some f →
      ∃ f', fields' !! name = Some f' ∧
            field_class f' = field_class f ∧
            required f' = required f ∧
            choices f' = choices f ∧
            queryset f' = queryset f ∧
            widget_class (widget f') = widget_class (widget f) ∧
            (∀ a, a ≠ "class" → a ≠ "id" → widget_attr a f' = widget_attr a f) ∧
            (name ≠ "pilotos" → widget_attr "id" f' = widget_attr "id" f) ∧
            (name ≠ "guia" → empty_label f' = empty_label f).
Proof.
  intros Hp Hk Hm.
  destruct (viaje_init_lookup fields p k m Hp Hk Hm) as (fields' & Hinit & Hlook).
  exists fields'. split; [exact Hinit|]. intros name f Hname Hf.
  assert (∀ g : Field,
            field_class (style g) = field_class g ∧ required (style g) = required g ∧
            choices (style g) = choices g ∧ queryset (style g) = queryset g ∧
            widget_class (widget (style g)) = widget_class (widget g) ∧
            (∀ a, a ≠ "class" → widget_attr a (style g) = widget_attr a g) ∧
            empty_label (style g) = empty_label g) as Hstyle.
  { intros g. unfold style. destruct (negb _); repeat apply conj; try done.
    intros a Ha. by apply widget_attr_set_ne. }
  assert (∀ g : Field,
            field_class (relabel g) = field_class g ∧ required (relabel g) = required g ∧
            choices (relabel g) = choices g ∧ queryset (relabel g) = queryset g ∧
            widget (relabel g) = widget g) as Hrelabel.
  { intros g. unfold relabel. destruct (queryset g) as [qs|] eqn:E; [|done].
    destruct (negb _); simpl; by rewrite E. }
  destruct (Hstyle f) as (S1 & S2 & S3 & S4 & S5 & S6 & S7).
  rewrite Hlook. repeat case_decide; try done; subst.
  - rewrite Hf. simpl. eexists. split; [reflexivity|].
    destruct (Hrelabel (style f)) as (R1 & R2 & R3 & R4 & R5).
    unfold widget_attr. rewrite R1, R2, R3, R4, R5.
    repeat apply conj; try done.
    + intros a Ha _. by apply S6.
    + intros _. by apply S6.
  - replace m with f by congruence. eexists. split; [reflexivity|].
    repeat apply conj; try done.
    + intros a Ha _. by apply S6.
    + intros _. by apply S6.
  - replace k with f by congruence. eexists. split; [reflexivity|].
    repeat apply conj; try done.
    + intros a Ha _. by apply S6.
    + intros _. by apply S6.
  - replace p with f by congruence. eexists. split; [reflexivity|].
    repeat apply conj; try done.
    intros a Ha Ha'. rewrite widget_attr_set_ne by done. by apply S6.
  - rewrite Hf. simpl. eexists. split; [reflexivity|].
    repeat apply conj; try done.
    + intros a Ha _. by apply S6.
    + intros _. by apply S6.
Qed.

(** X14: the construction of the Trip form sets the empty label of [guia]
    only on a field that has a queryset: a field [guia] without one keeps its
    empty label, and a form without a field [guia] is constructed without one. *)
Theorem viaje_guia_left_alone (fields : form_fields) (p k m : Field) :
  fields !! "pilotos" = Some p →
  fields !! "km" = Some k →
  fields !! "max_pilotos" = Some m →
  ∃ fields',
    __init__ fields = Ok fields' ∧
    (fields !! "guia" = None → fields' !! "guia" = None) ∧
    (∀ g, fields !! "guia" = Some g → queryset g = None →
          ∃ g', fields' !! "guia" = Some g' ∧ empty_label g' = empty_label g).
Proof.
  intros Hp Hk Hm.
  destruct (viaje_init_lookup fields p k m Hp Hk Hm) as (fields' & Hinit & Hlook).
  exists fields'. split; [exact Hinit|]. split.
  - intros Hg. rewrite Hlook, Hg. by repeat case_decide.
  - intros g Hg Hqs. exists (style g). split.
    + rewrite Hlook, Hg. repeat case_decide; try done. simpl. f_equal.
      unfold relabel. replace (queryset (style g)) with (queryset g); [by rewrite Hqs|].
      unfold style. by destruct (negb _).
    + unfold style. by destruct (negb _).
Qed.

(** X15: the field [activo] of the constructed Trip form accepts the two
    submitted values "True" and "False", each cleaned to itself, refuses
    every other value that is not empty as an invalid choice, and refuses an
    empty value, or none, as a required field left empty. *)
Theorem viaje_activo_accepts (fields : form_fields) (p k m : Field) :
  fields !! "pilotos" = Some p →
  fields !! "km" = Some k →
  fields !! "max_pilotos" = Some m →
  ∃ fields' a,
    __init__ fields = Ok fields' ∧
    fields' !! "activo" = Some a ∧
    ChoiceField_clean a (Some (py "True")) = Valid (py "True") ∧
    ChoiceField_clean a (Some (py "False")) = Valid (py "False") ∧
    (∀ v, v ≠ [] → v ≠ py "True" → v ≠ py "False" →
          ChoiceField_clean a (Some v) = Invalid code_invalid_choice) ∧
    ChoiceField_clean a (Some []) = Invalid code_required ∧
    ChoiceField_clean a None = Invalid code_required.
Proof.
  intros Hp Hk Hm.
  destruct (viaje_init_lookup fields p k m Hp Hk Hm) as (fields' & Hinit & Hlook).
  exists fields', activo. split; [exact Hinit|].
  split; [rewrite Hlook; by case_decide|].
  split; [vm_compute; reflexivity|]. split; [vm_compute; reflexivity|].
  split; [|split; reflexivity].
  intros [|c v] Hv HT HF; [done|].
  unfold ChoiceField_clean, ChoiceField_validate, Field_validate, valid_value. simpl.
  rewrite !bool_decide_eq_false_2 by done. reflexivity.
Qed.

Lemma style_idempotent (f : Field) : style (style f) = style f.
Proof.
  unfold style at 1. rewrite style_isinstance.
  destruct (isinstance_CheckboxSelectMultiple (widget f)) eqn:E; simpl; [done|].
  unfold style. rewrite E. simpl. apply set_widget_attr_twice.
Qed.

Lemma style_queryset (f : Field) : queryset (style f) = queryset f.
Proof. unfold style. by destruct (negb _). Qed.

Lemma style_set_empty_label (l : pystr) (f : Field) :
  style (set_empty_label l f) = set_empty_label l (style f).
Proof.
  unfold style. change (widget (set_empty_label l f)) with (widget f).
  by destruct (negb _).
Qed.

Lemma style_relabel (f : Field) : style (relabel f) = relabel (style f).
Proof.
  unfold relabel. rewrite style_queryset.
  destruct (queryset f) as [qs|]; [|done].
  destruct (negb (exists_ qs)); apply style_set_empty_label.
Qed.

Lemma relabel_idempotent (f : Field) : relabel (relabel f) = relabel f.
Proof.
  unfold relabel at 1.
  assert (queryset (relabel f) = queryset f) as ->.
  { unfold relabel. destruct (queryset f) as [qs|] eqn:E; [|done]. by destruct (negb _). }
  destruct (queryset f) as [qs|] eqn:E; [|done].
  unfold relabel. rewrite E. by destruct (negb (exists_ qs)).
Qed.

Lemma relabel_style_idempotent (g : Field) :
  relabel (style (relabel (style g))) = relabel (style g).
Proof. by rewrite style_relabel, style_idempotent, relabel_idempotent. Qed.

Lemma set_widget_attr_swap (k k' : string) (v v' : attr_value) (f : Field) :
  k ≠ k' →
  set_widget_attr k v (set_widget_attr k' v' f) = set_widget_attr k' v' (set_widget_attr k v f).
Proof.
  intros Hk. unfold set_widget_attr.
  cbn [field_class required label widget choices queryset empty_label widget_class attrs].
  do 2 f_equal. apply map_eq. intros i. rewrite !lookup_insert.
  repeat case_decide; congruence.
Qed.

Lemma style_set_id (v : attr_value) (f : Field) :
  style (set_widget_attr "id" v f) = set_widget_attr "id" v (style f).
Proof.
  unfold style.
  change (isinstance_CheckboxSelectMultiple (widget (set_widget_attr "id" v f)))
    with (isinstance_CheckboxSelectMultiple (widget f)).
  destruct (negb _); [|done]. by apply set_widget_attr_swap.
Qed.

Lemma set_id_style_idempotent (v : attr_value) (f : Field) :
  set_widget_attr "id" v (style (set_widget_attr "id" v (style f)))
  = set_widget_attr "id" v (style f).
Proof. by rewrite style_set_id, style_idempotent, set_widget_attr_twice. Qed.

Lemma set_label_style_idempotent (l : pystr) (f : Field) :
  set_label l (style (set_label l (style f))) = set_label l (style f).
Proof.
  assert (∀ h, style (set_label l h) = set_label l (style h)) as Hcomm.
  { intros h. unfold style. change (widget (set_label l h)) with (widget h).
    by destruct (negb _). }
  by rewrite Hcomm, style_idempotent.
Qed.

(** X16: constructing the Trip form over the fields of a constructed Trip
    form gives those same fields: the construction is repeatable, each of its
    steps sets a value that does not depend on what it replaces. *)
Theorem viaje_init_idempotent (fields fields' : form_fields) :
  __init__ fields = Ok fields' → __init__ fields' = Ok fields'.
Proof.
  intros Hinit. destruct (viaje_init_inv _ _ Hinit) as (p & k & m & Hp & Hk & Hm).
  destruct (viaje_init_lookup fields p k m Hp Hk Hm) as (f1 & Hinit1 & Hlook).
  assert (f1 = fields') as -> by congruence.
  assert (fields' !! "pilotos"
          = Some (set_widget_attr "id" (AStr (py "id_pilotos")) (style p))) as Hp'
    by (rewrite Hlook; by repeat case_decide).
  assert (fields' !! "km" = Some (set_label (py "Kilómetros") (style k))) as Hk'
    by (rewrite Hlook; by repeat case_decide).
  assert (fields' !! "max_pilotos"
          = Some (set_label (py "Máxima cantidad de pilotos") (style m))) as Hm'
    by (rewrite Hlook; by repeat case_decide).
  destruct (viaje_init_lookup fields' _ _ _ Hp' Hk' Hm') as (f2 & Hinit2 & Hlook2).
  rewrite Hinit2. f_equal. apply map_eq. intros name.
  rewrite Hlook2. repeat case_decide; subst.
  - rewrite Hlook. by case_decide.
  - rewrite !Hlook. repeat case_decide; try done.
    destruct (fields !! "guia") as [g|]; simpl; [|done].
    by rewrite relabel_style_idempotent.
  - by rewrite set_label_style_idempotent.
  - by rewrite set_label_style_idempotent.
  - by rewrite set_id_style_idempotent.
  - rewrite !Hlook. repeat case_decide; try done.
    destruct (fields !! name) as [f|]; simpl; [|done]. by rewrite style_idempotent.
Qed.

End ViajeExtra.

Lemma viaje_labels_witness :
  ∃ fields' k' m' a',
    ViajeForm.__init__ (ViajeForm.base_fields [7] [3; 4]) = Ok fields' ∧
    fields' !! "km" = Some k' ∧ label k' = Some (py "Kilómetros") ∧
    fields' !! "max_pilotos" = Some m' ∧ label m' = Some (py "Máxima cantidad de pilotos") ∧
    fields' !! "activo" = Some a' ∧ label a' = Some (py "Estado") ∧
    ∀ name f f',
      name ≠ "km" → name ≠ "max_pilotos" → name ≠ "activo" →
      ViajeForm.base_fields [7] [3; 4] !! name = Some f → fields' !! name = Some f' →
      label f' = label f.
Proof.
  apply (viaje_labels (ViajeForm.base_fields [7] [3; 4]) (ViajeForm.pilotos_field [3; 4])
           (model_field IntegerField true NumberInput)
           (model_field IntegerField true NumberInput)); reflexivity.
Defined.

Lemma viaje_field_names_witness :
  ∃ fields',
    ViajeForm.__init__ (delete "activo" (ViajeForm.base_fields [7] [3; 4])) = Ok fields' ∧
    ∀ name, is_Some (fields' !! name) ↔
            name = "activo" ∨
            is_Some (delete "activo" (ViajeForm.base_fields [7] [3; 4]) !! name).
Proof.
  apply (viaje_field_names (delete "activo" (ViajeForm.base_fields [7] [3; 4]))
           (ViajeForm.pilotos_field [3; 4])
           (model_field IntegerField true NumberInput)
           (model_field IntegerField true NumberInput)); reflexivity.
Defined.

Lemma viaje_init_keeps_witness :
  ∃ fields',
    ViajeForm.__init__ (ViajeForm.base_fields [7] [3; 4]) = Ok fields' ∧
    ∀ name f,
      name ≠ "activo" → ViajeForm.base_fields [7] [3; 4] !! name = Some f →
      ∃ f', fields' !! name = Some f' ∧
            field_class f' = field_class f ∧
            required f' = required f ∧
            choices f' = choices f ∧
            queryset f' = queryset f ∧
            widget_class (widget f') = widget_class (widget f) ∧
            (∀ a, a ≠ "class" → a ≠ "id" → widget_attr a f' = widget_attr a f) ∧
            (name ≠ "pilotos" → widget_attr "id" f' = widget_attr "id" f) ∧
            (name ≠ "guia" → empty_label f' = empty_label f).
Proof.
  apply (viaje_init_keeps (ViajeForm.base_fields [7] [3; 4]) (ViajeForm.pilotos_field [3; 4])
           (model_field IntegerField true NumberInput)
           (model_field IntegerField true NumberInput)); reflexivity.
Defined.

Lemma viaje_guia_left_alone_witness :
  (∃ fields',
     ViajeForm.__init__ (delete "guia" (ViajeForm.base_fields [] [])) = Ok fields' ∧
     fields' !! "guia" = None) ∧
  (∃ fields' g',
     ViajeForm.__init__
       (<["guia" := model_field CharField false TextInput]> (ViajeForm.base_fields [] []))
     = Ok fields' ∧
     fields' !! "guia" = Some g' ∧ empty_label g' = None).
Proof.
  split.
  - destruct (viaje_guia_left_alone (delete "guia" (ViajeForm.base_fields [] []))
                (ViajeForm.pilotos_field [])
                (model_field IntegerField true NumberInput)
                (model_field IntegerField true NumberInput))
      as (fields' & Hinit & Hnone & _); try reflexivity.
    exists fields'. split; [exact Hinit|]. apply Hnone. reflexivity.
  - destruct (viaje_guia_left_alone
                (<["guia" := model_field CharField false TextInput]>
                   (ViajeForm.base_fields [] []))
                (ViajeForm.pilotos_field [])
                (model_field IntegerField true NumberInput)
                (model_field IntegerField true NumberInput))
      as (fields' & Hinit & _ & Hsome); try reflexivity.
    destruct (Hsome (model_field CharField false TextInput)) as (g' & Hg' & Hlabel);
      try reflexivity.
    exists fields', g'. split; [exact Hinit|]. split; [exact Hg'|exact Hlabel].
Defined.

Lemma viaje_activo_accepts_witness :
  ∃ fields' a,
    ViajeForm.__init__ (ViajeForm.base_fields [7] [3; 4]) = Ok fields' ∧
    fields' !! "activo" = Some a ∧
    ChoiceField_clean a (Some (py "True")) = Valid (py "True") ∧
    ChoiceField_clean a (Some (py "False")) = Valid (py "False") ∧
    (∀ v, v ≠ [] → v ≠ py "True" → v ≠ py "False" →
          ChoiceField_clean a (Some v) = Invalid code_invalid_choice) ∧
    ChoiceField_clean a (Some []) = Invalid code_required ∧
    ChoiceField_clean a None = Invalid code_required.
Proof.
  apply (viaje_activo_accepts (ViajeForm.base_fields [7] [3; 4])
           (ViajeForm.pilotos_field [3; 4])
           (model_field IntegerField true NumberInput)
           (model_field IntegerField true NumberInput)); reflexivity.
Defined.

Lemma viaje_init_idempotent_witness :
  ∃ fields',
    ViajeForm.__init__ (ViajeForm.base_fields [7] [3; 4]) = Ok fields' ∧
    ViajeForm.__init__ fields' = Ok fields'.
Proof.
  destruct (viaje_init_lookup (ViajeForm.base_fields [7] [3; 4])
              (ViajeForm.pilotos_field [3; 4])
              (model_field IntegerField true NumberInput)
              (model_field IntegerField true NumberInput))
    as (fields' & Hinit & _); try reflexivity.
  exists fields'. split; [exact Hinit|].
  exact (viaje_init_idempotent (ViajeForm.base_fields [7] [3; 4]) fields' Hinit).
Defined.
